(** * Video indexer bot: code resolution, curation workflow and paging

    A shallow embedding of [database.py] (class [VideoDatabase]) and of
    [handlers.py] (class [BotHandlers]), and the properties of the resolver,
    the indexer, the curation state machine and the browse cursor.

    Python [str] values are sequences of Unicode code points, SQLite tables
    are lists of rows in rowid order, the two per-user dictionaries of
    [BotHandlers] are finite maps keyed by the Telegram user id. *)

From Stdlib Require Import ZArith NArith List Bool Lia.
From Stdlib Require Strings.String Strings.Ascii.
From Stdlib Require Import Sorting.Sorted Sorting.Permutation.
From stdpp Require Import base option list gmap strings.
Import ListNotations.

Local Open Scope Z_scope.

(** ** Unicode character classes *)

Module Unicode.

(** Code points [c] with [chr(c).isdigit()]: Numeric_Type Digit or Decimal
    (Unicode 14.0.0, the database of CPython 3.11), as inclusive ranges. *)
Definition digit_ranges : list (N * N) :=
  [(48, 57); (178, 179); (185, 185); (1632, 1641); (1776, 1785);
   (1984, 1993); (2406, 2415); (2534, 2543); (2662, 2671); (2790, 2799);
   (2918, 2927); (3046, 3055); (3174, 3183); (3302, 3311); (3430, 3439);
   (3558, 3567); (3664, 3673); (3792, 3801); (3872, 3881); (4160, 4169);
   (4240, 4249); (4969, 4977); (6112, 6121); (6160, 6169); (6470, 6479);
   (6608, 6618); (6784, 6793); (6800, 6809); (6992, 7001); (7088, 7097);
   (7232, 7241); (7248, 7257); (8304, 8304); (8308, 8313); (8320, 8329);
   (9312, 9320); (9332, 9340); (9352, 9360); (9450, 9450); (9461, 9469);
   (9471, 9471); (10102, 10110); (10112, 10120); (10122, 10130);
   (42528, 42537); (43216, 43225); (43264, 43273); (43472, 43481);
   (43504, 43513); (43600, 43609); (44016, 44025); (65296, 65305);
   (66720, 66729); (68160, 68163); (68912, 68921); (69216, 69224);
   (69714, 69722); (69734, 69743); (69872, 69881); (69942, 69951);
   (70096, 70105); (70384, 70393); (70736, 70745); (70864, 70873);
   (71248, 71257); (71360, 71369); (71472, 71481); (71904, 71913);
   (72016, 72025); (72784, 72793); (73040, 73049); (73120, 73129);
   (92768, 92777); (92864, 92873); (93008, 93017); (120782, 120831);
   (123200, 123209); (123632, 123641); (125264, 125273); (127232, 127242);
   (130032, 130041)]%N.

(** Code points [c] with [chr(c).isspace()], the characters [str.strip()] and
    [str.split()] treat as whitespace. *)
Definition space_ranges : list (N * N) :=
  [(9, 13); (28, 32); (133, 133); (160, 160); (5760, 5760); (8192, 8202);
   (8232, 8233); (8239, 8239); (8287, 8287); (12288, 12288)]%N.

(** Code points matched by the regular expression class [\w] on [str]
    patterns: [chr(c).isalnum()] or the underscore. *)
Definition word_ranges : list (N * N) :=
  [(48, 57); (65, 90); (95, 95); (97, 122); (170, 170); (178, 179);
   (181, 181); (185, 186); (188, 190); (192, 214); (216, 246); (248, 705);
   (710, 721); (736, 740); (748, 748); (750, 750); (880, 884); (886, 887);
   (890, 893); (895, 895); (902, 902); (904, 906); (908, 908); (910, 929);
   (931, 1013); (1015, 1153); (1162, 1327); (1329, 1366); (1369, 1369);
   (1376, 1416); (1488, 1514); (1519, 1522); (1568, 1610); (1632, 1641);
   (1646, 1647); (1649, 1747); (1749, 1749); (1765, 1766); (1774, 1788);
   (1791, 1791); (1808, 1808); (1810, 1839); (1869, 1957); (1969, 1969);
   (1984, 2026); (2036, 2037); (2042, 2042); (2048, 2069); (2074, 2074);
   (2084, 2084); (2088, 2088); (2112, 2136); (2144, 2154); (2160, 2183);
   (2185, 2190); (2208, 2249); (2308, 2361); (2365, 2365); (2384, 2384);
   (2392, 2401); (2406, 2415); (2417, 2432); (2437, 2444); (2447, 2448);
   (2451, 2472); (2474, 2480); (2482, 2482); (2486, 2489); (2493, 2493);
   (2510, 2510); (2524, 2525); (2527, 2529); (2534, 2545); (2548, 2553);
   (2556, 2556); (2565, 2570); (2575, 2576); (2579, 2600); (2602, 2608);
   (2610, 2611); (2613, 2614); (2616, 2617); (2649, 2652); (2654, 2654);
   (2662, 2671); (2674, 2676); (2693, 2701); (2703, 2705); (2707, 2728);
   (2730, 2736); (2738, 2739); (2741, 2745); (2749, 2749); (2768, 2768);
   (2784, 2785); (2790, 2799); (2809, 2809); (2821, 2828); (2831, 2832);
   (2835, 2856); (2858, 2864); (2866, 2867); (2869, 2873); (2877, 2877);
   (2908, 2909); (2911, 2913); (2918, 2927); (2929, 2935); (2947, 2947);
   (2949, 2954); (2958, 2960); (2962, 2965); (2969, 2970); (2972, 2972);
   (2974, 2975); (2979, 2980); (2984, 2986); (2990, 3001); (3024, 3024);
   (3046, 3058); (3077, 3084); (3086, 3088); (3090, 3112); (3114, 3129);
   (3133, 3133); (3160, 3162); (3165, 3165); (3168, 3169); (3174, 3183);
   (3192, 3198); (3200, 3200); (3205, 3212); (3214, 3216); (3218, 3240);
   (3242, 3251); (3253, 3257); (3261, 3261); (3293, 3294); (3296, 3297);
   (3302, 3311); (3313, 3314); (3332, 3340); (3342, 3344); (3346, 3386);
   (3389, 3389); (3406, 3406); (3412, 3414); (3416, 3425); (3430, 3448);
   (3450, 3455); (3461, 3478); (3482, 3505); (3507, 3515); (3517, 3517);
   (3520, 3526); (3558, 3567); (3585, 3632); (3634, 3635); (3648, 3654);
   (3664, 3673); (3713, 3714); (3716, 3716); (3718, 3722); (3724, 3747);
   (3749, 3749); (3751, 3760); (3762, 3763); (3773, 3773); (3776, 3780);
   (3782, 3782); (3792, 3801); (3804, 3807); (3840, 3840); (3872, 3891);
   (3904, 3911); (3913, 3948); (3976, 3980); (4096, 4138); (4159, 4169);
   (4176, 4181); (4186, 4189); (4193, 4193); (4197, 4198); (4206, 4208);
   (4213, 4225); (4238, 4238); (4240, 4249); (4256, 4293); (4295, 4295);
   (4301, 4301); (4304, 4346); (4348, 4680); (4682, 4685); (4688, 4694);
   (4696, 4696); (4698, 4701); (4704, 4744); (4746, 4749); (4752, 4784);
   (4786, 4789); (4792, 4798); (4800, 4800); (4802, 4805); (4808, 4822);
   (4824, 4880); (4882, 4885); (4888, 4954); (4969, 4988); (4992, 5007);
   (5024, 5109); (5112, 5117); (5121, 5740); (5743, 5759); (5761, 5786);
   (5792, 5866); (5870, 5880); (5888, 5905); (5919, 5937); (5952, 5969);
   (5984, 5996); (5998, 6000); (6016, 6067); (6103, 6103); (6108, 6108);
   (6112, 6121); (6128, 6137); (6160, 6169); (6176, 6264); (6272, 6276);
   (6279, 6312); (6314, 6314); (6320, 6389); (6400, 6430); (6470, 6509);
   (6512, 6516); (6528, 6571); (6576, 6601); (6608, 6618); (6656, 6678);
   (6688, 6740); (6784, 6793); (6800, 6809); (6823, 6823); (6917, 6963);
   (6981, 6988); (6992, 7001); (7043, 7072); (7086, 7141); (7168, 7203);
   (7232, 7241); (7245, 7293); (7296, 7304); (7312, 7354); (7357, 7359);
   (7401, 7404); (7406, 7411); (7413, 7414); (7418, 7418); (7424, 7615);
   (7680, 7957); (7960, 7965); (7968, 8005); (8008, 8013); (8016, 8023);
   (8025, 8025); (8027, 8027); (8029, 8029); (8031, 8061); (8064, 8116);
   (8118, 8124); (8126, 8126); (8130, 8132); (8134, 8140); (8144, 8147);
   (8150, 8155); (8160, 8172); (8178, 8180); (8182, 8188); (8304, 8305);
   (8308, 8313); (8319, 8329); (8336, 8348); (8450, 8450); (8455, 8455);
   (8458, 8467); (8469, 8469); (8473, 8477); (8484, 8484); (8486, 8486);
   (8488, 8488); (8490, 8493); (8495, 8505); (8508, 8511); (8517, 8521);
   (8526, 8526); (8528, 8585); (9312, 9371); (9450, 9471); (10102, 10131);
   (11264, 11492); (11499, 11502); (11506, 11507); (11517, 11517);
   (11520, 11557); (11559, 11559); (11565, 11565); (11568, 11623);
   (11631, 11631); (11648, 11670); (11680, 11686); (11688, 11694);
   (11696, 11702); (11704, 11710); (11712, 11718); (11720, 11726);
   (11728, 11734); (11736, 11742); (11823, 11823); (12293, 12295);
   (12321, 12329); (12337, 12341); (12344, 12348); (12353, 12438);
   (12445, 12447); (12449, 12538); (12540, 12543); (12549, 12591);
   (12593, 12686); (12690, 12693); (12704, 12735); (12784, 12799);
   (12832, 12841); (12872, 12879); (12881, 12895); (12928, 12937);
   (12977, 12991); (13312, 19903); (19968, 42124); (42192, 42237);
   (42240, 42508); (42512, 42539); (42560, 42606); (42623, 42653);
   (42656, 42735); (42775, 42783); (42786, 42888); (42891, 42954);
   (42960, 42961); (42963, 42963); (42965, 42969); (42994, 43009);
   (43011, 43013); (43015, 43018); (43020, 43042); (43056, 43061);
   (43072, 43123); (43138, 43187); (43216, 43225); (43250, 43255);
   (43259, 43259); (43261, 43262); (43264, 43301); (43312, 43334);
   (43360, 43388); (43396, 43442); (43471, 43481); (43488, 43492);
   (43494, 43518); (43520, 43560); (43584, 43586); (43588, 43595);
   (43600, 43609); (43616, 43638); (43642, 43642); (43646, 43695);
   (43697, 43697); (43701, 43702); (43705, 43709); (43712, 43712);
   (43714, 43714); (43739, 43741); (43744, 43754); (43762, 43764);
   (43777, 43782); (43785, 43790); (43793, 43798); (43808, 43814);
   (43816, 43822); (43824, 43866); (43868, 43881); (43888, 44002);
   (44016, 44025); (44032, 55203); (55216, 55238); (55243, 55291);
   (63744, 64109); (64112, 64217); (64256, 64262); (64275, 64279);
   (64285, 64285); (64287, 64296); (64298, 64310); (64312, 64316);
   (64318, 64318); (64320, 64321); (64323, 64324); (64326, 64433);
   (64467, 64829); (64848, 64911); (64914, 64967); (65008, 65019);
   (65136, 65140); (65142, 65276); (65296, 65305); (65313, 65338);
   (65345, 65370); (65382, 65470); (65474, 65479); (65482, 65487);
   (65490, 65495); (65498, 65500); (65536, 65547); (65549, 65574);
   (65576, 65594); (65596, 65597); (65599, 65613); (65616, 65629);
   (65664, 65786); (65799, 65843); (65856, 65912); (65930, 65931);
   (66176, 66204); (66208, 66256); (66273, 66299); (66304, 66339);
   (66349, 66378); (66384, 66421); (66432, 66461); (66464, 66499);
   (66504, 66511); (66513, 66517); (66560, 66717); (66720, 66729);
   (66736, 66771); (66776, 66811); (66816, 66855); (66864, 66915);
   (66928, 66938); (66940, 66954); (66956, 66962); (66964, 66965);
   (66967, 66977); (66979, 66993); (66995, 67001); (67003, 67004);
   (67072, 67382); (67392, 67413); (67424, 67431); (67456, 67461);
   (67463, 67504); (67506, 67514); (67584, 67589); (67592, 67592);
   (67594, 67637); (67639, 67640); (67644, 67644); (67647, 67669);
   (67672, 67702); (67705, 67742); (67751, 67759); (67808, 67826);
   (67828, 67829); (67835, 67867); (67872, 67897); (67968, 68023);
   (68028, 68047); (68050, 68096); (68112, 68115); (68117, 68119);
   (68121, 68149); (68160, 68168); (68192, 68222); (68224, 68255);
   (68288, 68295); (68297, 68324); (68331, 68335); (68352, 68405);
   (68416, 68437); (68440, 68466); (68472, 68497); (68521, 68527);
   (68608, 68680); (68736, 68786); (68800, 68850); (68858, 68899);
   (68912, 68921); (69216, 69246); (69248, 69289); (69296, 69297);
   (69376, 69415); (69424, 69445); (69457, 69460); (69488, 69505);
   (69552, 69579); (69600, 69622); (69635, 69687); (69714, 69743);
   (69745, 69746); (69749, 69749); (69763, 69807); (69840, 69864);
   (69872, 69881); (69891, 69926); (69942, 69951); (69956, 69956);
   (69959, 69959); (69968, 70002); (70006, 70006); (70019, 70066);
   (70081, 70084); (70096, 70106); (70108, 70108); (70113, 70132);
   (70144, 70161); (70163, 70187); (70272, 70278); (70280, 70280);
   (70282, 70285); (70287, 70301); (70303, 70312); (70320, 70366);
   (70384, 70393); (70405, 70412); (70415, 70416); (70419, 70440);
   (70442, 70448); (70450, 70451); (70453, 70457); (70461, 70461);
   (70480, 70480); (70493, 70497); (70656, 70708); (70727, 70730);
   (70736, 70745); (70751, 70753); (70784, 70831); (70852, 70853);
   (70855, 70855); (70864, 70873); (71040, 71086); (71128, 71131);
   (71168, 71215); (71236, 71236); (71248, 71257); (71296, 71338);
   (71352, 71352); (71360, 71369); (71424, 71450); (71472, 71483);
   (71488, 71494); (71680, 71723); (71840, 71922); (71935, 71942);
   (71945, 71945); (71948, 71955); (71957, 71958); (71960, 71983);
   (71999, 71999); (72001, 72001); (72016, 72025); (72096, 72103);
   (72106, 72144); (72161, 72161); (72163, 72163); (72192, 72192);
   (72203, 72242); (72250, 72250); (72272, 72272); (72284, 72329);
   (72349, 72349); (72368, 72440); (72704, 72712); (72714, 72750);
   (72768, 72768); (72784, 72812); (72818, 72847); (72960, 72966);
   (72968, 72969); (72971, 73008); (73030, 73030); (73040, 73049);
   (73056, 73061); (73063, 73064); (73066, 73097); (73112, 73112);
   (73120, 73129); (73440, 73458); (73648, 73648); (73664, 73684);
   (73728, 74649); (74752, 74862); (74880, 75075); (77712, 77808);
   (77824, 78894); (82944, 83526); (92160, 92728); (92736, 92766);
   (92768, 92777); (92784, 92862); (92864, 92873); (92880, 92909);
   (92928, 92975); (92992, 92995); (93008, 93017); (93019, 93025);
   (93027, 93047); (93053, 93071); (93760, 93846); (93952, 94026);
   (94032, 94032); (94099, 94111); (94176, 94177); (94179, 94179);
   (94208, 100343); (100352, 101589); (101632, 101640); (110576, 110579);
   (110581, 110587); (110589, 110590); (110592, 110882); (110928, 110930);
   (110948, 110951); (110960, 111355); (113664, 113770); (113776, 113788);
   (113792, 113800); (113808, 113817); (119520, 119539); (119648, 119672);
   (119808, 119892); (119894, 119964); (119966, 119967); (119970, 119970);
   (119973, 119974); (119977, 119980); (119982, 119993); (119995, 119995);
   (119997, 120003); (120005, 120069); (120071, 120074); (120077, 120084);
   (120086, 120092); (120094, 120121); (120123, 120126); (120128, 120132);
   (120134, 120134); (120138, 120144); (120146, 120485); (120488, 120512);
   (120514, 120538); (120540, 120570); (120572, 120596); (120598, 120628);
   (120630, 120654); (120656, 120686); (120688, 120712); (120714, 120744);
   (120746, 120770); (120772, 120779); (120782, 120831); (122624, 122654);
   (123136, 123180); (123191, 123197); (123200, 123209); (123214, 123214);
   (123536, 123565); (123584, 123627); (123632, 123641); (124896, 124902);
   (124904, 124907); (124909, 124910); (124912, 124926); (124928, 125124);
   (125127, 125135); (125184, 125251); (125259, 125259); (125264, 125273);
   (126065, 126123); (126125, 126127); (126129, 126132); (126209, 126253);
   (126255, 126269); (126464, 126467); (126469, 126495); (126497, 126498);
   (126500, 126500); (126503, 126503); (126505, 126514); (126516, 126519);
   (126521, 126521); (126523, 126523); (126530, 126530); (126535, 126535);
   (126537, 126537); (126539, 126539); (126541, 126543); (126545, 126546);
   (126548, 126548); (126551, 126551); (126553, 126553); (126555, 126555);
   (126557, 126557); (126559, 126559); (126561, 126562); (126564, 126564);
   (126567, 126570); (126572, 126578); (126580, 126583); (126585, 126588);
   (126590, 126590); (126592, 126601); (126603, 126619); (126625, 126627);
   (126629, 126633); (126635, 126651); (127232, 127244); (130032, 130041);
   (131072, 173791); (173824, 177976); (177984, 178205); (178208, 183969);
   (183984, 191456); (194560, 195101); (196608, 201546)]%N.

Definition in_ranges (rs : list (N * N)) (c : N) : bool :=
  existsb (fun r => (fst r <=? c)%N && (c <=? snd r)%N) rs.

Definition isdigit_cp : N -> bool := in_ranges digit_ranges.
Definition isspace_cp : N -> bool := in_ranges space_ranges.
Definition is_word_cp : N -> bool := in_ranges word_ranges.

(** SQLite's built-in [LIKE] folds case for the 26 ASCII letters only. *)
Definition ascii_fold (c : N) : N :=
  if (65 <=? c)%N && (c <=? 90)%N then (c + 32)%N else c.

(** Decoder for the UTF-8 bytes of a literal of the source text. *)
Fixpoint utf8_decode (bs : list N) : list N :=
  match bs with
  | [] => []
  | b0 :: r0 =>
    if (b0 <? 128)%N then b0 :: utf8_decode r0
    else match r0 with
    | [] => [b0]
    | b1 :: r1 =>
      if (b0 <? 224)%N then
        N.lor (N.shiftl (N.land b0 31) 6) (N.land b1 63) :: utf8_decode r1
      else match r1 with
      | [] => [b0; b1]
      | b2 :: r2 =>
        if (b0 <? 240)%N then
          N.lor (N.shiftl (N.land b0 15) 12)
            (N.lor (N.shiftl (N.land b1 63) 6) (N.land b2 63))
          :: utf8_decode r2
        else match r2 with
        | [] => [b0; b1; b2]
        | b3 :: r3 =>
          N.lor (N.shiftl (N.land b0 7) 18)
            (N.lor (N.shiftl (N.land b1 63) 12)
              (N.lor (N.shiftl (N.land b2 63) 6) (N.land b3 63)))
          :: utf8_decode r3
        end
      end
    end
  end.

End Unicode.

(** ** Python strings *)

(** A [str] is its sequence of code points. *)
Abbreviation pystr := (list N).

(** [u "..."] is the [str] written as that literal in the source. *)
Definition u (s : string) : pystr :=
  Unicode.utf8_decode (map Ascii.N_of_ascii (String.list_ascii_of_string s)).

Module Str.

(** [a == b] *)
Definition eqb (a b : pystr) : bool := bool_decide (a = b).

(** [s.isdigit()]: at least one character and all of them digits. *)
Definition isdigit (s : pystr) : bool :=
  match s with
  | [] => false
  | _ => forallb Unicode.isdigit_cp s
  end.

Fixpoint lstrip (s : pystr) : pystr :=
  match s with
  | c :: r => if Unicode.isspace_cp c then lstrip r else s
  | [] => []
  end.

Definition rstrip (s : pystr) : pystr := rev (lstrip (rev s)).

(** [s.strip()] *)
Definition strip (s : pystr) : pystr := rstrip (lstrip s).

(** [s.startswith(p)] *)
Fixpoint startswith (p s : pystr) : bool :=
  match p, s with
  | [], _ => true
  | a :: p', b :: s' => (a =? b)%N && startswith p' s'
  | _ :: _, [] => false
  end.

(** [s.startswith((p1, ..., pn))] *)
Definition startswith_any (ps : list pystr) (s : pystr) : bool :=
  existsb (fun p => startswith p s) ps.

(** [sub in s] *)
Fixpoint contains (sub s : pystr) : bool :=
  startswith sub s ||
  match s with
  | [] => false
  | _ :: r => contains sub r
  end.

(** [s.replace(old, new)] for a non-empty [old]: the occurrences of [old] are
    taken from left to right without overlap.  [skip] counts the characters of
    the occurrence just replaced that are still to be passed over. *)
Fixpoint replace_from (old new : pystr) (skip : nat) (s : pystr) : pystr :=
  match s with
  | [] => []
  | c :: r =>
    match skip with
    | S k => replace_from old new k r
    | O =>
      if startswith old s then new ++ replace_from old new (length old - 1) r
      else c :: replace_from old new 0 r
    end
  end.

Definition replace (old new s : pystr) : pystr :=
  match old with
  | [] => new ++ flat_map (fun c => c :: new) s
  | _ => replace_from old new 0 s
  end.

(** [s.split(sep)] for a non-empty [sep]; [cur] is the piece being read, in
    reverse. *)
Fixpoint split_from (sep : pystr) (cur : pystr) (skip : nat) (s : pystr)
  : list pystr :=
  match s with
  | [] => [rev cur]
  | c :: r =>
    match skip with
    | S k => split_from sep cur k r
    | O =>
      if startswith sep s then rev cur :: split_from sep [] (length sep - 1) r
      else split_from sep (c :: cur) 0 r
    end
  end.

Definition split (sep s : pystr) : list pystr := split_from sep [] 0 s.

(** [s.split()]: the maximal runs of non-whitespace characters. *)
Fixpoint split_ws_from (cur : pystr) (s : pystr) : list pystr :=
  match s with
  | [] => match cur with [] => [] | _ => [rev cur] end
  | c :: r =>
    if Unicode.isspace_cp c then
      match cur with
      | [] => split_ws_from [] r
      | _ => rev cur :: split_ws_from [] r
      end
    else split_ws_from (c :: cur) r
  end.

Definition split_ws (s : pystr) : list pystr := split_ws_from [] s.

(** [sep.join(l)] *)
Fixpoint join (sep : pystr) (l : list pystr) : pystr :=
  match l with
  | [] => []
  | [x] => x
  | x :: r => x ++ sep ++ join sep r
  end.

(** [l[0]] and [l[-1]] of a list that [split] returned (never empty). *)
Definition first (l : list pystr) : pystr := hd [] l.
Definition last (l : list pystr) : pystr := List.last l [].

(** The longest prefix of [s] whose characters all satisfy [p]. *)
Fixpoint take_while (p : N -> bool) (s : pystr) : pystr :=
  match s with
  | c :: r => if p c then c :: take_while p r else []
  | [] => []
  end.

(** Comparison of two strings code point by code point: the order of
    SQLite's BINARY collation on their UTF-8 encodings. *)
Fixpoint leb (a b : pystr) : bool :=
  match a, b with
  | [], _ => true
  | _ :: _, [] => false
  | x :: a', y :: b' => (x <? y)%N || ((x =? y)%N && leb a' b')
  end.

End Str.

(** ** The regular expression of [extract_hashtags_as_codes] *)

Module Re.

(** The pattern [#\w+] tried at the head of [s]: the marker, then the longest
    non-empty run of word characters ([+] is greedy and nothing follows it). *)
Definition match_hashtag (s : pystr) : option pystr :=
  match s with
  | c :: r =>
    if (c =? 35)%N then
      match Str.take_while Unicode.is_word_cp r with
      | [] => None
      | w => Some (c :: w)
      end
    else None
  | [] => None
  end.

(** [re.findall(r'#\w+', s)]: the scan tries the pattern at each position from
    the left and resumes right after a match.  [skip] counts the characters
    of the last match that are still to be passed over. *)
Fixpoint findall_from (skip : nat) (s : pystr) : list pystr :=
  match s with
  | [] => []
  | _ :: r =>
    match skip with
    | S k => findall_from k r
    | O =>
      match match_hashtag s with
      | Some m => m :: findall_from (length m - 1) r
      | None => findall_from 0 r
      end
    end
  end.

Definition findall (s : pystr) : list pystr := findall_from 0 s.

End Re.

(** ** SQLite tables *)

Module Sqlite.

(** A table with an [INTEGER PRIMARY KEY AUTOINCREMENT] column: its rows in
    rowid order and the largest rowid ever handed out. *)
Record table (R : Type) := Table { rows : list R; seq : Z }.
Arguments Table {R} _ _.
Arguments rows {R} _.
Arguments seq {R} _.

Definition empty {R : Type} : table R := Table [] 0.

(** [INSERT OR REPLACE]: the rows that collide with the new one on a
    [PRIMARY KEY] or [UNIQUE] column are deleted, then the new row is stored
    under a fresh rowid. *)
Definition insert_or_replace {R : Type} (conflict : R -> R -> bool)
    (mk : Z -> R) (t : table R) : table R :=
  let new := mk (seq t + 1) in
  Table (List.filter (fun old => negb (conflict old new)) (rows t) ++ [new])
        (seq t + 1).

(** [DELETE FROM t WHERE p] *)
Definition delete_where {R : Type} (p : R -> bool) (t : table R) : table R :=
  Table (List.filter (fun r => negb (p r)) (rows t)) (seq t).

(** [ORDER BY]: a stable insertion sort (rows that compare equal keep their
    rowid order). *)
Fixpoint insert_sorted {R : Type} (le : R -> R -> bool) (x : R) (l : list R)
  : list R :=
  match l with
  | [] => [x]
  | y :: r => if le x y then x :: l else y :: insert_sorted le x r
  end.

Definition order_by {R : Type} (le : R -> R -> bool) (l : list R) : list R :=
  foldr (insert_sorted le) [] l.

(** [LIMIT n OFFSET k]; a negative offset counts as none, a negative limit as
    no limit. *)
Definition limit_offset {R : Type} (n k : Z) (l : list R) : list R :=
  let l' := drop (Z.to_nat k) l in
  if n <? 0 then l' else take (Z.to_nat n) l'.

(** [s LIKE p]: [%] stands for any run of characters, [_] for any single
    character, other characters for themselves up to ASCII case. *)
Fixpoint like (p s : pystr) : bool :=
  match p with
  | [] => match s with [] => true | _ => false end
  | c :: p' =>
    if (c =? 37)%N then
      (fix any (t : pystr) : bool :=
         like p' t || match t with [] => false | _ :: r => any r end) s
    else
      match s with
      | [] => false
      | d :: s' =>
        ((c =? 95)%N || (Unicode.ascii_fold c =? Unicode.ascii_fold d)%N)
        && like p' s'
      end
  end.

End Sqlite.

(** ** [database.py]: class [VideoDatabase] *)

Module VideoDatabase.
Import Sqlite.

(** Row of [videos]. *)
Record Video := {
  v_id : Z; v_chat_id : Z; v_message_id : Z; v_file_id : pystr;
  v_caption : pystr; v_codes : pystr; v_date : Z }.

(** Row of [movies]. *)
Record Movie := {
  m_id : Z; m_code : pystr; m_title : pystr; m_category : pystr;
  m_channel_message_id : Z; m_channel_id : Z; m_file_id : pystr }.

(** Row of [pending_movies]. *)
Record Pending := {
  p_id : Z; p_code : pystr; p_channel_message_id : Z; p_channel_id : Z;
  p_file_id : pystr; p_caption : pystr; p_date : Z }.

Record DB := {
  videos : table Video;
  movies : table Movie;
  pending_movies : table Pending }.

(** [init_db] on a fresh file. *)
Definition init_db : DB :=
  {| videos := empty; movies := empty; pending_movies := empty |}.

(** The constraints [init_db] declares.  [videos] and [pending_movies] have
    the primary key [id] and nothing else; [movies] has [id] and
    [code TEXT UNIQUE]. *)
Definition videos_conflict (old new : Video) : bool := v_id old =? v_id new.
Definition movies_conflict (old new : Movie) : bool :=
  (m_id old =? m_id new) || Str.eqb (m_code old) (m_code new).
Definition pending_conflict (old new : Pending) : bool :=
  p_id old =? p_id new.

Definition extract_hashtags_as_codes (text : pystr) : pystr :=
  match text with
  | [] => []
  | _ => Str.join (u " ") (Re.findall text)
  end.

(** The write methods return [False] from their [except sqlite3.Error]
    branch, the transaction rolled back; [ok] says whether the store accepts
    the statement. *)
Definition save_video (ok : bool) (db : DB) (chat_id message_id : Z)
    (file_id caption : pystr) (date : Z) : bool * DB :=
  let codes := extract_hashtags_as_codes caption in
  if ok then
    (true,
     {| videos := insert_or_replace videos_conflict
          (fun i => {| v_id := i; v_chat_id := chat_id;
                       v_message_id := message_id; v_file_id := file_id;
                       v_caption := caption; v_codes := codes;
                       v_date := date |}) (videos db);
        movies := movies db;
        pending_movies := pending_movies db |})
  else (false, db).

Definition get_categories (db : DB) : list pystr :=
  order_by Str.leb (remove_dups (map m_category (rows (movies db)))).

Definition get_movies_by_category (db : DB) (category : pystr)
    (page per_page : Z) : list Movie * Z :=
  let matching :=
    List.filter (fun m => Str.eqb (m_category m) category)
      (rows (movies db)) in
  let total_count := Z.of_nat (length matching) in
  let offset := (page - 1) * per_page in
  (limit_offset per_page offset
     (order_by (fun a b => Str.leb (m_code a) (m_code b)) matching),
   total_count).

Definition get_movie_by_code (db : DB) (code : pystr) : option Movie :=
  find (fun m => Str.eqb (m_code m) code) (rows (movies db)).

Definition add_movie (ok : bool) (db : DB) (code title category : pystr)
    (channel_message_id channel_id : Z) (file_id : pystr) : bool * DB :=
  if ok then
    (true,
     {| videos := videos db;
        movies := insert_or_replace movies_conflict
          (fun i => {| m_id := i; m_code := code; m_title := title;
                       m_category := category;
                       m_channel_message_id := channel_message_id;
                       m_channel_id := channel_id; m_file_id := file_id |})
          (movies db);
        pending_movies := pending_movies db |})
  else (false, db).

(** [WHERE codes LIKE '%hashtag%' ORDER BY date DESC] *)
Definition search_channel_by_hashtag (db : DB) (hashtag : pystr)
  : list Video :=
  order_by (fun a b => v_date b <=? v_date a)
    (List.filter (fun v => like (u "%" ++ hashtag ++ u "%") (v_codes v))
       (rows (videos db))).

(** The statement gives no [date]: the column takes its default,
    [current_timestamp]. *)
Definition add_pending_movie (ok : bool) (db : DB) (code : pystr)
    (channel_message_id channel_id : Z) (file_id caption : pystr)
    (current_timestamp : Z) : bool * DB :=
  if ok then
    (true,
     {| videos := videos db;
        movies := movies db;
        pending_movies := insert_or_replace pending_conflict
          (fun i => {| p_id := i; p_code := code;
                       p_channel_message_id := channel_message_id;
                       p_channel_id := channel_id; p_file_id := file_id;
                       p_caption := caption;
                       p_date := current_timestamp |})
          (pending_movies db) |})
  else (false, db).

Definition get_pending_movies (db : DB) : list Pending :=
  order_by (fun a b => p_date b <=? p_date a) (rows (pending_movies db)).

Definition get_pending_movie_by_code (db : DB) (code : pystr)
  : option Pending :=
  find (fun p => Str.eqb (p_code p) code) (rows (pending_movies db)).

Definition remove_pending_movie (ok : bool) (db : DB) (code : pystr)
  : bool * DB :=
  if ok then
    (true,
     {| videos := videos db;
        movies := movies db;
        pending_movies :=
          delete_where (fun p => Str.eqb (p_code p) code)
            (pending_movies db) |})
  else (false, db).

End VideoDatabase.

(** ** [handlers.py]: class [BotHandlers] *)

Module BotHandlers.
Import VideoDatabase.

(** Value of [movie_data['step']]. *)
Inductive Step := StepTitle | StepCategory | StepNewCategory.

(** An entry of [self.pending_movies], the curation session of a user.  The
    only assignment to [self.pending_movies[user_id]] is the one of
    [handle_callback_query], so every entry has the keys below and the key
    ['pending_movie']; ['title'] is added by the title step. *)
Record Session := {
  s_code : pystr; s_channel_message_id : Z; s_channel_id : Z;
  s_file_id : pystr; s_step : Step; s_title : option pystr }.

(** An entry of [self.user_states], the browse cursor of a user. *)
Record Cursor := { c_genre : pystr; c_page : Z }.

Record State := {
  db : DB;
  pending_movies : gmap Z Session;
  user_states : gmap Z Cursor }.

(** What the handler cannot decide by itself: [view] is the store as the
    resolver's validation re-reads find it (the store itself when nothing
    interferes; a re-read that raises returns what an empty table returns),
    the [_ok] flags say whether the store accepts a write, [now] is
    [datetime.now()], the clock of the handler, and [current_timestamp] is
    SQLite's [CURRENT_TIMESTAMP], the default of [pending_movies.date] (UTC,
    in whole seconds).

    The other reads of a search see the store of the handler.  A search is
    therefore modelled exactly when nothing interferes ([view] is that
    store); another [view] describes a disturbance that lasts for the
    re-reads only, not a lasting change of the store, which the later reads
    of the same search would see as well. *)
Record Env := {
  view : DB;
  save_video_ok : bool;
  add_movie_ok : bool;
  add_pending_movie_ok : bool;
  remove_pending_movie_ok : bool;
  now : Z;
  current_timestamp : Z }.

(** Nothing interferes, every write is accepted and both clocks read [t]. *)
Definition quiet (d : DB) (t : Z) : Env :=
  {| view := d; save_video_ok := true; add_movie_ok := true;
     add_pending_movie_ok := true; remove_pending_movie_ok := true;
     now := t; current_timestamp := t |}.

Definition set_db (st : State) (d : DB) : State :=
  {| db := d; pending_movies := pending_movies st;
     user_states := user_states st |}.
Definition set_pending_movies (st : State) (m : gmap Z Session) : State :=
  {| db := db st; pending_movies := m; user_states := user_states st |}.
Definition set_user_states (st : State) (m : gmap Z Cursor) : State :=
  {| db := db st; pending_movies := pending_movies st; user_states := m |}.

(** A read of the store, as the accessors log it. *)
Inductive Query :=
| QMovie (code : pystr)        (* get_movie_by_code *)
| QChannel (hashtag : pystr).  (* search_channel_by_hashtag *)

(** A search result with its ['type']. *)
Inductive Result :=
| RMovie (movie : Movie)
| RVideo (video : Video).

(** What the handler sends back: one constructor for each message text of
    the source. *)
Inductive Reply :=
| SearchResults (results : list Result) (code : pystr)
    (* _send_search_results *)
| NotFound                        (* Film topilmadi *)
| NoCategories                    (* Kategoriyalar topilmadi *)
| CategoriesMenu (buttons : list (pystr * Z))
| SearchPrompt                    (* search_command without arguments *)
| Help
| About
| Welcome
| NoMoviesInGenre (genre : pystr)
| GenrePage (genre : pystr) (page : Z) (shown : list Movie)
    (total_count total_pages : Z)
| NotInPendingList
| AskTitle (code caption : pystr)
| DraftMissing                    (* Kutilayotgan film ma'lumotlari topilmadi *)
| MovieAdded (title category code : pystr)
                                  (* Film muvaffaqiyatli qo'shildi *)
| AddFailed (title code : pystr)  (* filmini qo'shishda xatolik *)
| GenreSelectionError             (* Kategoriya tanlashda xatolik yuz berdi *)
| AskNewCategory                  (* Yangi kategoriya nomini yuboring *)
| NewCategoryError
| AlreadyFirstPage                (* Siz allaqachon birinchi sahifadasiz *)
| AlreadyLastPage                 (* Siz allaqachon oxirgi sahifadasiz *)
| NoNavigationState               (* Navigatsiya holati topilmadi *)
| NoGenreSelected                 (* Janr tanlanmagan *)
| InvalidTitle                    (* To'g'ri film sarlavhasini kiriting *)
| TitleSaved (title : pystr)      (* Sarlavha saqlandi *)
| UseCategoryButtons              (* Kategoriyani tugma orqali tanlang *)
| InvalidCategoryName             (* To'g'ri kategoriya nomini kiriting *)
| ProcessingError
| UseHelp.

(** *** The resolver: [_search_and_send_results] *)

Definition hashtag_of (code : pystr) : pystr := u "#" ++ code.

Definition _validate_movie_code (view : DB) (movie : Movie) (code : pystr)
  : bool :=
  match get_movie_by_code view code with
  | None => false
  | Some current_movie =>
    negb (negb (Str.eqb (m_title current_movie) (m_title movie))
          || negb (Str.eqb (m_category current_movie) (m_category movie))
          || negb (Str.eqb (m_code current_movie) (m_code movie)))
  end.

Definition _validate_channel_code (view : DB) (channel_result : Video)
    (code : pystr) : bool :=
  match search_channel_by_hashtag view (hashtag_of code) with
  | [] => false
  | current_channel_results =>
    existsb (fun current_result =>
               (v_chat_id current_result =? v_chat_id channel_result)
               && (v_message_id current_result =? v_message_id channel_result))
            current_channel_results
  end.

(** [channel_result.get('codes') and
     needle in channel_result.get('codes', '')] *)
Definition codes_contain (needle : pystr) (channel_result : Video) : bool :=
  match v_codes channel_result with
  | [] => false
  | codes => Str.contains needle codes
  end.

(** The loop over [channel_results] of the exact lookup: the first row that
    passes the substring test and the validation ends it. *)
Fixpoint scan_channel_results (view : DB) (code : pystr)
    (channel_results : list Video) : list Query * list Result :=
  match channel_results with
  | [] => ([], [])
  | channel_result :: rest =>
    if codes_contain (hashtag_of code) channel_result then
      if _validate_channel_code view channel_result code then
        ([QChannel (hashtag_of code)], [RVideo channel_result])
      else
        let '(q, results) := scan_channel_results view code rest in
        (QChannel (hashtag_of code) :: q, results)
    else scan_channel_results view code rest
  end.

(** Lines 123-154: the catalog, then the channel videos. *)
Definition exact_lookup (view db : DB) (code : pystr)
  : list Query * list Result :=
  let '(q1, results) :=
    match get_movie_by_code db code with
    | Some movie =>
      if _validate_movie_code view movie code
      then ([QMovie code; QMovie code], [RMovie movie])
      else ([QMovie code; QMovie code], [])
    | None => ([QMovie code], [])
    end in
  match results with
  | [] =>
    let '(q2, results) :=
      scan_channel_results view code
        (search_channel_by_hashtag db (hashtag_of code)) in
    (q1 ++ QChannel (hashtag_of code) :: q2, results)
  | _ => (q1, results)
  end.

Definition prefixes : list pystr :=
  [u "M"; u "A"; u "C"; u "D"; u "H"; u "S"; u "F"; u "T"].

(** Lines 167-174: the first loop over the prefixes. *)
Fixpoint prefix_movies (db : DB) (code : pystr) (ps : list pystr)
  : list Query * list Result :=
  match ps with
  | [] => ([], [])
  | prefix :: rest =>
    let full_code := prefix ++ code in
    match get_movie_by_code db full_code with
    | Some movie => ([QMovie full_code], [RMovie movie])
    | None =>
      let '(q, results) := prefix_movies db code rest in
      (QMovie full_code :: q, results)
    end
  end.

(** Lines 178-187: the second loop over the prefixes. *)
Fixpoint prefix_channels (db : DB) (code : pystr) (ps : list pystr)
  : list Query * list Result :=
  match ps with
  | [] => ([], [])
  | prefix :: rest =>
    let full_code := prefix ++ code in
    let channel_results :=
      search_channel_by_hashtag db (hashtag_of full_code) in
    match find (codes_contain (hashtag_of full_code)) channel_results with
    | Some channel_result =>
      ([QChannel (hashtag_of full_code)], [RVideo channel_result])
    | None =>
      let '(q, results) := prefix_channels db code rest in
      (QChannel (hashtag_of full_code) :: q, results)
    end
  end.

(** The condition of line 165. *)
Definition prefix_guess_applies (code : pystr) : bool :=
  Str.isdigit code && (length code <=? 3)%nat
  && negb (Str.startswith (u "0") code).

(** Lines 165-187. *)
Definition prefix_fallback (db : DB) (code : pystr)
  : list Query * list Result :=
  if prefix_guess_applies code then
    let '(q1, results) := prefix_movies db code prefixes in
    match results with
    | [] =>
      let '(q2, results) := prefix_channels db code prefixes in
      (q1 ++ q2, results)
    | _ => (q1, results)
    end
  else ([], []).

(** The reads the search made, in order, and its answer. *)
Definition _search_and_send_results (view db : DB) (code : pystr)
  : list Query * Reply :=
  let '(q1, results) := exact_lookup view db code in
  match results with
  | _ :: _ => (q1, SearchResults results code)
  | [] =>
    let '(q2, results) := prefix_fallback db code in
    match results with
    | _ :: _ => (q1 ++ q2, SearchResults results code)
    | [] => (q1 ++ q2, NotFound)
    end
  end.

(** *** Menus *)

Definition categories_command (db : DB) : Reply :=
  match get_categories db with
  | [] => NoCategories
  | categories =>
    CategoriesMenu
      (map (fun category =>
              (category, snd (get_movies_by_category db category 1 1)))
           categories)
  end.

Definition show_movies_in_genre (db : DB) (genre : pystr) (page : Z)
  : Reply :=
  let movies_per_page := 8 in
  let '(db_movies, db_total_count) :=
    get_movies_by_category db genre page movies_per_page in
  match db_movies with
  | [] => NoMoviesInGenre genre
  | _ =>
    let total_pages :=
      (db_total_count + movies_per_page - 1) / movies_per_page in
    GenrePage genre page db_movies db_total_count total_pages
  end.

(** *** The indexer: [channel_post_handler] *)

(** A channel post: [video] is the [file_id] of [message.video or
    message.video_note]. *)
Record Post := {
  post_chat_id : Z; post_message_id : Z;
  post_video : option pystr; post_caption : option pystr }.

Definition channel_post_handler (env : Env) (st : State) (message : Post)
  : State :=
  match post_video message with
  | None => st
  | Some file_id =>
    let caption := default [] (post_caption message) in
    let '(success, db1) :=
      save_video (save_video_ok env) (db st) (post_chat_id message)
        (post_message_id message) file_id caption (now env) in
    if success then
      let codes := extract_hashtags_as_codes caption in
      match codes with
      | [] => set_db st db1
      | _ =>
        set_db st
          (foldl (fun d code =>
                    let clean_code := Str.replace (u "#") [] code in
                    snd (add_pending_movie (add_pending_movie_ok env) d
                           clean_code (post_message_id message)
                           (post_chat_id message) file_id caption
                           (current_timestamp env)))
                 db1 (Str.split_ws codes))
      end
    else set_db st db1
  end.

(** *** The curation workflow *)

Definition handle_callback_query (st : State) (user_id : Z) (data : pystr)
  : list Reply * State :=
  if Str.startswith (u "add_movie_") data then
    let code := Str.replace (u "add_movie_") [] data in
    match get_pending_movie_by_code (db st) code with
    | None => ([NotInPendingList], st)
    | Some pending_movie =>
      ([AskTitle code (p_caption pending_movie)],
       set_pending_movies st
         (<[user_id :=
              {| s_code := code;
                 s_channel_message_id := p_channel_message_id pending_movie;
                 s_channel_id := p_channel_id pending_movie;
                 s_file_id := p_file_id pending_movie;
                 s_step := StepTitle; s_title := None |}]>
            (pending_movies st)))
    end
  else ([], st).

(** The promotion block, written out twice in [handle_message]: lines 557-596
    after a category button and lines 756-795 after a typed category. *)
Definition promote (env : Env) (st : State) (user_id : Z) (code title
    category : pystr) : list Reply * State :=
  match get_pending_movie_by_code (db st) code with
  | None => ([DraftMissing], st)
  | Some pending_movie =>
    let '(success, db1) :=
      add_movie (add_movie_ok env) (db st) code title category
        (p_channel_message_id pending_movie) (p_channel_id pending_movie)
        (p_file_id pending_movie) in
    if success then
      let '(_, db2) :=
        remove_pending_movie (remove_pending_movie_ok env) db1 code in
      ([MovieAdded title category code],
       {| db := db2;
          pending_movies := delete user_id (pending_movies st);
          user_states := user_states st |})
    else ([AddFailed title code], set_db st db1)
  end.

(** Lines 702-807: the text as input of the user's curation session. *)
Definition pending_input (env : Env) (st : State) (user_id : Z) (raw : pystr)
  : list Reply * State :=
  match pending_movies st !! user_id with
  | Some movie_data =>
    let message_text := Str.strip raw in
    match s_step movie_data with
    | StepTitle =>
      match message_text with
      | [] => ([InvalidTitle], st)
      | _ =>
        ([TitleSaved message_text],
         set_pending_movies st
           (<[user_id :=
                {| s_code := s_code movie_data;
                   s_channel_message_id := s_channel_message_id movie_data;
                   s_channel_id := s_channel_id movie_data;
                   s_file_id := s_file_id movie_data;
                   s_step := StepCategory;
                   s_title := Some message_text |}]>
              (pending_movies st)))
      end
    | StepCategory => ([UseCategoryButtons], st)
    | StepNewCategory =>
      match message_text with
      | [] => ([InvalidCategoryName], st)
      | _ =>
        match s_title movie_data with
        | None => ([ProcessingError], st)
        | Some title =>
          promote env st user_id (s_code movie_data) title message_text
        end
      end
    end
  | None => ([UseHelp], st)
  end.

(** The prefixes of line 526 and the texts of the reply keyboard. *)
Definition button_marks : list pystr :=
  [u "📁"; u "🔍"; u "📚"; u "ℹ️"; u "🏠"; u "⬅️"; u "🎬"].
Definition BTN_BROWSE : pystr := u "📁 Kategoriya bo'yicha ko'rish".
Definition BTN_SEARCH : pystr := u "🔍 Kod bo'yicha qidirish".
Definition BTN_HELP : pystr := u "📚 Yordam".
Definition BTN_ABOUT : pystr := u "ℹ️ Ma'lumot".
Definition BTN_HOME : pystr := u "🏠 Asosiy menyu".
Definition BTN_NEW_CATEGORY : pystr := u "➕ Yangi kategoriya qo'shish".
Definition BTN_BACK_TO_GENRES : pystr := u "⬅️ Janrlarga qaytish".
Definition BTN_PREVIOUS : pystr := u "⬅️ Oldingi sahifa".
Definition BTN_NEXT : pystr := u "➡️ Keyingi sahifa".
Definition GENRE_MARK : pystr := u "📁 ".
Definition MOVIE_MARK : pystr := u "🎬 ".

(** The test of line 526. *)
Definition is_code_search (text : pystr) : bool :=
  (length text <=? 10)%nat && Str.isdigit text
  && negb (Str.startswith_any button_marks text).

(** The texts [handle_message] answers by itself whatever the curation step
    of the user: the keyboard commands and the movie buttons. *)
Definition is_menu_text (text : pystr) : bool :=
  Str.eqb text BTN_BROWSE || Str.eqb text BTN_SEARCH || Str.eqb text BTN_HELP
  || Str.eqb text BTN_ABOUT || Str.eqb text BTN_HOME
  || Str.eqb text BTN_BACK_TO_GENRES
  || (Str.startswith MOVIE_MARK text
      && (Str.contains (u "(") text && Str.contains (u ")") text))
  || Str.eqb text BTN_PREVIOUS || Str.eqb text BTN_NEXT.

Definition in_dict {A : Type} (user_id : Z) (m : gmap Z A) : bool :=
  match m !! user_id with Some _ => true | None => false end.

(** Lines 517-807.  [raw] is [update.message.text]; [otherwise] is what
    follows the keyboard texts (line 702 on), reached when no branch above
    returned.  The search button arrives without command arguments, so
    [search_command] answers with its prompt. *)
Definition handle_message (env : Env) (st : State) (user_id : Z)
    (raw : pystr) : list Reply * State :=
  let otherwise := pending_input env st user_id raw in
  match raw with
  | [] => otherwise
  | _ =>
    let text := Str.strip raw in
    if is_code_search text then
      ([snd (_search_and_send_results (view env) (db st) text)], st)
    else if Str.eqb text BTN_BROWSE then ([categories_command (db st)], st)
    else if Str.eqb text BTN_SEARCH then ([SearchPrompt], st)
    else if Str.eqb text BTN_HELP then ([Help], st)
    else if Str.eqb text BTN_ABOUT then ([About], st)
    else if Str.eqb text BTN_HOME then ([Welcome], st)
    else if Str.startswith GENRE_MARK text
            && in_dict user_id (pending_movies st) then
      match pending_movies st !! user_id with
      | None => ([GenreSelectionError], st)
      | Some movie_data =>
        match s_step movie_data with
        | StepCategory =>
          let genre := Str.replace GENRE_MARK [] text in
          match s_title movie_data with
          | None => ([GenreSelectionError], st)
          | Some title =>
            promote env st user_id (s_code movie_data) title genre
          end
        | _ => otherwise
        end
      end
    else if Str.eqb text BTN_NEW_CATEGORY
            && in_dict user_id (pending_movies st) then
      match pending_movies st !! user_id with
      | None => ([NewCategoryError], st)
      | Some movie_data =>
        match s_step movie_data with
        | StepCategory =>
          ([AskNewCategory],
           set_pending_movies st
             (<[user_id :=
                  {| s_code := s_code movie_data;
                     s_channel_message_id := s_channel_message_id movie_data;
                     s_channel_id := s_channel_id movie_data;
                     s_file_id := s_file_id movie_data;
                     s_step := StepNewCategory;
                     s_title := s_title movie_data |}]>
                (pending_movies st)))
        | _ => otherwise
        end
      end
    else if Str.eqb text BTN_BACK_TO_GENRES then
      ([categories_command (db st)],
       set_user_states st (delete user_id (user_states st)))
    else if Str.startswith GENRE_MARK text then
      let genre :=
        Str.first (Str.split (u " (") (Str.replace GENRE_MARK [] text)) in
      ([show_movies_in_genre (db st) genre 1],
       set_user_states st
         (<[user_id := {| c_genre := genre; c_page := 1 |}]>
            (user_states st)))
    else if Str.startswith MOVIE_MARK text then
      if Str.contains (u "(") text && Str.contains (u ")") text then
        let code :=
          Str.first (Str.split (u ")") (Str.last (Str.split (u "(") text))) in
        ([snd (_search_and_send_results (view env) (db st) code)], st)
      else otherwise
    else if Str.eqb text BTN_PREVIOUS then
      match user_states st !! user_id with
      | Some state =>
        let current_page := c_page state in
        if 1 <? current_page then
          let new_page := current_page - 1 in
          ([show_movies_in_genre (db st) (c_genre state) new_page],
           set_user_states st
             (<[user_id := {| c_genre := c_genre state; c_page := new_page |}]>
                (user_states st)))
        else ([AlreadyFirstPage], st)
      | None => ([NoNavigationState], st)
      end
    else if Str.eqb text BTN_NEXT then
      match user_states st !! user_id with
      | Some state =>
        let current_page := c_page state in
        let genre := c_genre state in
        match genre with
        | [] => ([NoGenreSelected], st)
        | _ =>
          let total_count := snd (get_movies_by_category (db st) genre 1 8) in
          let total_pages := (total_count + 8 - 1) / 8 in
          if current_page <? total_pages then
            let new_page := current_page + 1 in
            ([show_movies_in_genre (db st) genre new_page],
             set_user_states st
               (<[user_id := {| c_genre := genre; c_page := new_page |}]>
                  (user_states st)))
          else ([AlreadyLastPage], st)
        end
      | None => ([NoNavigationState], st)
      end
    else otherwise
  end.

End BotHandlers.

(** ** Notions of the specification *)

(** [ceil(total / page_size)], the number of the last page. *)
Definition ceil_div (total page_size : Z) : Z := - ((- total) / page_size).

(** The number of catalog entries of a category. *)
Definition total_count (d : VideoDatabase.DB) (category : pystr) : Z :=
  Z.of_nat
    (length
       (List.filter (fun m => Str.eqb (VideoDatabase.m_category m) category)
          (Sqlite.rows (VideoDatabase.movies d)))).

(** The text [raw] of the user asks to commit the session on [code] and
    [title] with [category]: a category button in the category step, or a
    typed name in the new-category step. *)
Definition commit_request (st : BotHandlers.State) (user_id : Z)
    (raw code title category : pystr) : Prop :=
  exists movie_data,
    BotHandlers.pending_movies st !! user_id = Some movie_data
    /\ BotHandlers.s_code movie_data = code
    /\ BotHandlers.s_title movie_data = Some title
    /\ ((BotHandlers.s_step movie_data = BotHandlers.StepCategory
         /\ Str.startswith BotHandlers.GENRE_MARK (Str.strip raw) = true
         /\ Str.strip raw <> BotHandlers.BTN_BROWSE
         /\ category = Str.replace BotHandlers.GENRE_MARK [] (Str.strip raw))
        \/ (BotHandlers.s_step movie_data = BotHandlers.StepNewCategory
            /\ Str.strip raw <> []
            /\ BotHandlers.is_code_search (Str.strip raw) = false
            /\ BotHandlers.is_menu_text (Str.strip raw) = false
            /\ category = Str.strip raw)).

(** Rows in the order of [le]. *)
Definition ordered {R : Type} (le : R -> R -> bool) : list R -> Prop :=
  StronglySorted (fun a b => le a b = true).

(** [t] is a [#token] of [s] at offset [i] that cannot be extended: the
    marker, one or more word characters, and then the end of [s] or a
    character that is not a word character. *)
Definition maximal_token_at (s : pystr) (i : nat) (t : pystr) : Prop :=
  exists w rest,
    drop i s = (35%N :: w) ++ rest /\ t = 35%N :: w /\ w <> []
    /\ Forall (fun c => Unicode.is_word_cp c = true) w
    /\ match rest with
       | [] => True
       | c :: _ => Unicode.is_word_cp c = false
       end.

(** The matches of [Re.findall_from] with their offsets, [i] being the offset
    of [s] in the subject. *)
Fixpoint occurrences_from (skip i : nat) (s : pystr) : list (nat * pystr) :=
  match s with
  | [] => []
  | _ :: r =>
    match skip with
    | S k => occurrences_from k (S i) r
    | O =>
      match Re.match_hashtag s with
      | Some m => (i, m) :: occurrences_from (length m - 1) (S i) r
      | None => occurrences_from 0 (S i) r
      end
    end
  end.

(** The channel videos, the newest first. *)
Definition newest_first (l : list VideoDatabase.Video)
  : list VideoDatabase.Video :=
  Sqlite.order_by
    (fun a b => VideoDatabase.v_date b <=? VideoDatabase.v_date a) l.

(** What a read of the prefix guess finds. *)
Definition hit (d : VideoDatabase.DB) (q : BotHandlers.Query)
  : option BotHandlers.Result :=
  match q with
  | BotHandlers.QMovie code =>
    BotHandlers.RMovie <$> VideoDatabase.get_movie_by_code d code
  | BotHandlers.QChannel hashtag =>
    BotHandlers.RVideo <$>
      find (BotHandlers.codes_contain hashtag)
        (VideoDatabase.search_channel_by_hashtag d hashtag)
  end.

(** Reads tried in order up to the first hit: the reads made and what the
    last one found. *)
Fixpoint try_in_order (d : VideoDatabase.DB)
    (attempts : list BotHandlers.Query)
  : list BotHandlers.Query * list BotHandlers.Result :=
  match attempts with
  | [] => ([], [])
  | q :: rest =>
    match hit d q with
    | Some r => ([q], [r])
    | None =>
      let '(qs, results) := try_in_order d rest in (q :: qs, results)
    end
  end.

(** ** A run of the bot *)

Module Sample.
Import VideoDatabase BotHandlers.

Definition start : State :=
  {| db := init_db; pending_movies := ∅; user_states := ∅ |}.

Definition post_a12 : Post :=
  {| post_chat_id := 1; post_message_id := 10; post_video := Some (u "f1");
     post_caption := Some (u "Big Movie #A12") |}.

(** The channel posted a video tagged [#A12]. *)
Definition indexed : State :=
  channel_post_handler (quiet init_db 100) start post_a12.

(** User 7 picked the draft [A12] and is asked for its title. *)
Definition awaiting_title : State :=
  snd (handle_callback_query indexed 7 (u "add_movie_A12")).

Definition env (st : State) : Env := quiet (db st) 200.

(** The user sent the title and is asked for the category. *)
Definition awaiting_category : State :=
  snd (handle_message (env awaiting_title) awaiting_title 7 (u "Big Movie")).

(** The user asked for a category of their own. *)
Definition awaiting_new_category : State :=
  snd (handle_message (env awaiting_category) awaiting_category 7
         BTN_NEW_CATEGORY).

(** The user picked the category [Drama]: the draft is promoted. *)
Definition committed : State :=
  snd (handle_message (env awaiting_category) awaiting_category 7
         (u "📁 Drama")).

(** User 8 opened the genre [Drama]. *)
Definition browsing : State :=
  snd (handle_message (env committed) committed 8 (u "📁 Drama (1 film)")).

(** A store with a channel video tagged [#M7] and a catalog entry [A7]. *)
Definition m7_and_a7 : DB :=
  snd (add_movie true
         (snd (save_video true init_db 1 11 (u "f2") (u "Part two #M7") 100))
         (u "A7") (u "Another") (u "Drama") 12 1 (u "f3")).

(** The channel posted the same film again, in another message. *)
Definition post_a12_again : Post :=
  {| post_chat_id := 1; post_message_id := 11; post_video := Some (u "f2");
     post_caption := Some (u "Big Movie HD #A12") |}.

End Sample.

(** ** A catalog of nine entries *)

Module Shelf.
Import VideoDatabase BotHandlers.

(** Nine entries [D1] to [D9] of the category [Drama]. *)
Definition nine_dramas : DB :=
  foldl (fun d i =>
           snd (add_movie true d (u "D" ++ [(48 + i)%N]) (u "Film")
                  (u "Drama") 20 1 (u "f9")))
    init_db [1; 2; 3; 4; 5; 6; 7; 8; 9]%N.

(** User 8 opened the genre [Drama] and is on its first page. *)
Definition browsing : State :=
  snd (handle_message (quiet nine_dramas 300)
         {| db := nine_dramas; pending_movies := ∅; user_states := ∅ |}
         8 (u "📁 Drama (9 film)")).

End Shelf.

(** ** Two curators of one draft *)

Module Race.
Import VideoDatabase BotHandlers.

(** Users 7 and 9 both picked the draft [A12] and both sent a title. *)
Definition both_titled : State :=
  let st1 := snd (handle_callback_query Sample.indexed 7 (u "add_movie_A12")) in
  let st2 := snd (handle_callback_query st1 9 (u "add_movie_A12")) in
  let st3 := snd (handle_message (Sample.env st2) st2 7 (u "Big Movie")) in
  snd (handle_message (Sample.env st3) st3 9 (u "The Big Movie")).

(** User 7 committed first. *)
Definition first_committed : State :=
  snd (handle_message (Sample.env both_titled) both_titled 7 (u "📁 Drama")).

End Race.

(** ** A guess that passes over a video *)

Module Guess.
Import VideoDatabase BotHandlers.

Definition post_m7 : Post :=
  {| post_chat_id := 1; post_message_id := 11; post_video := Some (u "f2");
     post_caption := Some (u "Part two #M7") |}.

Definition post_a7 : Post :=
  {| post_chat_id := 1; post_message_id := 12; post_video := Some (u "f3");
     post_caption := Some (u "Another #A7") |}.

(** The channel posted a video tagged [#M7], then one tagged [#A7]. *)
Definition indexed : State :=
  channel_post_handler (quiet init_db 101)
    (channel_post_handler (quiet init_db 100) Sample.start post_m7) post_a7.

(** User 7 made the draft [A7] a catalog entry. *)
Definition curated : State :=
  let st1 := snd (handle_callback_query indexed 7 (u "add_movie_A7")) in
  let st2 := snd (handle_message (Sample.env st1) st1 7 (u "Another")) in
  snd (handle_message (Sample.env st2) st2 7 (u "📁 Drama")).

End Guess.

(** ** Buttons and the listing of drafts *)

(** The decimal digits of a non-negative number, the most significant
    first. *)
Fixpoint digits (d : Decimal.uint) : pystr :=
  match d with
  | Decimal.Nil => []
  | Decimal.D0 r => 48%N :: digits r
  | Decimal.D1 r => 49%N :: digits r
  | Decimal.D2 r => 50%N :: digits r
  | Decimal.D3 r => 51%N :: digits r
  | Decimal.D4 r => 52%N :: digits r
  | Decimal.D5 r => 53%N :: digits r
  | Decimal.D6 r => 54%N :: digits r
  | Decimal.D7 r => 55%N :: digits r
  | Decimal.D8 r => 56%N :: digits r
  | Decimal.D9 r => 57%N :: digits r
  end.

(** [str(n)] of an [int], as an f-string formats it. *)
Definition str_of_int (n : Z) : pystr :=
  match Z.to_int n with
  | Decimal.Pos d => digits d
  | Decimal.Neg d => 45%N :: digits d
  end.

(** Line 295 of [handlers.py]: the text of a genre button of
    [categories_command]. *)
Definition genre_button (category : pystr) (count : Z) : pystr :=
  u "📁 " ++ category ++ u " (" ++ str_of_int count ++ u " film)".

(** Line 337: the text of a movie button of [show_movies_in_genre]. *)
Definition movie_button (title code : pystr) : pystr :=
  u "🎬 " ++ title ++ u " (" ++ code ++ u ")".

(** Lines 37-78, [addmovie_command]: [None] when no draft is pending,
    otherwise the inline buttons (text and callback data) of the ten newest
    drafts. *)
Definition addmovie_command (d : VideoDatabase.DB)
  : option (list (pystr * pystr)) :=
  match VideoDatabase.get_pending_movies d with
  | [] => None
  | pending =>
    Some
      (map (fun movie =>
              let code := VideoDatabase.p_code movie in
              let caption := VideoDatabase.p_caption movie in
              let caption :=
                if (30 <? length caption)%nat
                then take 30 caption ++ u "..." else caption in
              let button_text :=
                match VideoDatabase.get_movie_by_code d code with
                | Some _ =>
                  u "⚠️ " ++ code ++ u " - " ++ caption ++ u " (MAVJUD)"
                | None => u "🎬 " ++ code ++ u " - " ++ caption
                end in
              (button_text, u "add_movie_" ++ code))
           (take 10 pending))
  end.

(** ** Invariants of the store and of the sessions *)

(** The rowids of an AUTOINCREMENT table are distinct and none exceeds the
    counter. *)
Definition table_wf {R : Type} (id : R -> Z) (t : Sqlite.table R) : Prop :=
  Forall (fun r => id r <= Sqlite.seq t) (Sqlite.rows t)
  /\ NoDup (map id (Sqlite.rows t)).

(** The constraints of [movies] hold, and the rowids of the three tables
    are sound. *)
Definition store_wf (d : VideoDatabase.DB) : Prop :=
  table_wf VideoDatabase.v_id (VideoDatabase.videos d)
  /\ table_wf VideoDatabase.m_id (VideoDatabase.movies d)
  /\ NoDup (map VideoDatabase.m_code (Sqlite.rows (VideoDatabase.movies d)))
  /\ table_wf VideoDatabase.p_id (VideoDatabase.pending_movies d).

(** Every browse cursor is on page 1 or later. *)
Definition cursors_positive (st : BotHandlers.State) : Prop :=
  forall user_id cur,
    BotHandlers.user_states st !! user_id = Some cur ->
    1 <= BotHandlers.c_page cur.

(** Every session past the title step holds a title. *)
Definition sessions_titled (st : BotHandlers.State) : Prop :=
  forall user_id movie_data,
    BotHandlers.pending_movies st !! user_id = Some movie_data ->
    BotHandlers.s_step movie_data <> BotHandlers.StepTitle ->
    exists title, BotHandlers.s_title movie_data = Some title.

(** What a message of [user_id] can do to the state: nothing, an update of
    the user's own session, an update or the removal of the user's own
    cursor, or the promotion block. *)
Inductive touched (env : BotHandlers.Env) (st : BotHandlers.State)
    (user_id : Z) : list BotHandlers.Reply * BotHandlers.State -> Prop :=
| touched_nothing replies : touched env st user_id (replies, st)
| touched_session replies old new :
    BotHandlers.pending_movies st !! user_id = Some old ->
    BotHandlers.s_step new <> BotHandlers.StepTitle ->
    (exists title, BotHandlers.s_title new = Some title)
    \/ (BotHandlers.s_title new = BotHandlers.s_title old
        /\ BotHandlers.s_step old = BotHandlers.StepCategory) ->
    touched env st user_id
      (replies,
       BotHandlers.set_pending_movies st
         (<[user_id := new]> (BotHandlers.pending_movies st)))
| touched_cursor_set replies genre :
    touched env st user_id
      (replies,
       BotHandlers.set_user_states st
         (<[user_id := {| BotHandlers.c_genre := genre;
                          BotHandlers.c_page := 1 |}]>
            (BotHandlers.user_states st)))
| touched_cursor_moved replies old new :
    BotHandlers.user_states st !! user_id = Some old ->
    BotHandlers.c_genre new = BotHandlers.c_genre old ->
    BotHandlers.c_page new = BotHandlers.c_page old + 1
    \/ (1 < BotHandlers.c_page old
        /\ BotHandlers.c_page new = BotHandlers.c_page old - 1) ->
    touched env st user_id
      (replies,
       BotHandlers.set_user_states st
         (<[user_id := new]> (BotHandlers.user_states st)))
| touched_cursor_removed replies :
    touched env st user_id
      (replies,
       BotHandlers.set_user_states st
         (delete user_id (BotHandlers.user_states st)))
| touched_promotion code title category :
    touched env st user_id
      (BotHandlers.promote env st user_id code title category).

(** Every catalog entry has a category name. *)
Definition categories_named (d : VideoDatabase.DB) : Prop :=
  Forall (fun m => VideoDatabase.m_category m <> [])
    (Sqlite.rows (VideoDatabase.movies d)).

(** The states of the bot.  It starts on a fresh store without sessions and
    cursors; a restart keeps the store and forgets the sessions and the
    cursors; every update is handled by [channel_post_handler],
    [handle_callback_query] or [handle_message], in any environment.  The
    command handlers change nothing. *)
Inductive reachable : BotHandlers.State -> Prop :=
| reachable_start :
    reachable {| BotHandlers.db := VideoDatabase.init_db;
                 BotHandlers.pending_movies := ∅;
                 BotHandlers.user_states := ∅ |}
| reachable_restart st :
    reachable st ->
    reachable {| BotHandlers.db := BotHandlers.db st;
                 BotHandlers.pending_movies := ∅;
                 BotHandlers.user_states := ∅ |}
| reachable_channel_post env st message :
    reachable st ->
    reachable (BotHandlers.channel_post_handler env st message)
| reachable_callback_query st user_id data :
    reachable st ->
    reachable (snd (BotHandlers.handle_callback_query st user_id data))
| reachable_message env st user_id raw :
    reachable st ->
    reachable (snd (BotHandlers.handle_message env st user_id raw)).

(** The entries of a category in the order of their codes. *)
Definition code_le (a b : VideoDatabase.Movie) : bool :=
  Str.leb (VideoDatabase.m_code a) (VideoDatabase.m_code b).

(** Decides the tests of [handle_message] that do not depend on the state. *)
Ltac decide_tests :=
  repeat match goal with
         | |- context [if ?b then _ else _] =>
           let v := eval vm_compute in b in
           match v with
           | true => idtac
           | false => idtac
           end;
           change b with v; cbv iota
         end.

(** Unfolds [handle_message] on the text [b] of a button. *)
Ltac button_text b :=
  unfold BotHandlers.handle_message;
  let raw := fresh "raw" in
  let E := fresh "E" in
  remember b as raw eqn:E; destruct raw;
  [vm_compute in E; discriminate|]; rewrite E;
  replace (Str.strip b) with b by (vm_compute; reflexivity);
  cbv zeta; decide_tests.

(** * Properties *)

Import Sqlite VideoDatabase BotHandlers.

(** ** Strings *)

Lemma eqb_eq (a b : pystr) : Str.eqb a b = true <-> a = b.
Proof. unfold Str.eqb. apply bool_decide_eq_true. Qed.

Lemma eqb_neq (a b : pystr) : Str.eqb a b = false <-> a <> b.
Proof. unfold Str.eqb. apply bool_decide_eq_false. Qed.

Lemma eqb_refl (a : pystr) : Str.eqb a a = true.
Proof. by apply eqb_eq. Qed.

Lemma strip_nil : Str.strip [] = [].
Proof. reflexivity. Qed.

Lemma isdigit_cons (text : pystr) :
  Str.isdigit text = true ->
  exists c r, text = c :: r /\ Unicode.isdigit_cp c = true.
Proof.
  destruct text as [|c r]; [discriminate|].
  cbn [Str.isdigit forallb]. intros [Hc _]%andb_true_iff. eauto.
Qed.

(** No prefix of line 526 begins with a digit. *)
Lemma digit_not_mark (c : N) (r : pystr) :
  Unicode.isdigit_cp c = true ->
  Str.startswith_any button_marks (c :: r) = false.
Proof.
  intros Hc.
  assert (Hm : forall m, In m [128193; 128269; 128218; 8505; 127968; 11013;
                               127916]%N -> (m =? c)%N = false).
  { intros m Hin. destruct (N.eqb_spec m c) as [->|]; [|done].
    cbn [In] in Hin.
    repeat (destruct Hin as [<-|Hin]; [vm_compute in Hc; discriminate|]).
    destruct Hin. }
  let v := eval vm_compute in button_marks in change button_marks with v.
  unfold Str.startswith_any. cbn [existsb Str.startswith].
  rewrite !Hm by (cbn [In]; tauto). reflexivity.
Qed.

Lemma isdigit_is_code_search (text : pystr) :
  Str.isdigit text = true -> (length text <= 10)%nat ->
  is_code_search text = true.
Proof.
  intros Hd Hl. unfold is_code_search. rewrite Hd.
  destruct (isdigit_cons _ Hd) as (c & r & -> & Hc).
  rewrite (digit_not_mark c r Hc).
  apply Nat.leb_le in Hl. rewrite Hl. reflexivity.
Qed.

(** ** The curation workflow and the code search *)

(** C10.  Whatever the curation session of the user, a message whose stripped
    text is numeric ([str.isdigit]) and at most 10 characters long is answered
    by the resolver run on that text, and nothing of the state changes: the
    session keeps its step and its title. *)
Theorem numeric_text_runs_resolver (env : Env) (st : State) (user_id : Z)
    (raw : pystr) :
  Str.isdigit (Str.strip raw) = true ->
  (length (Str.strip raw) <= 10)%nat ->
  handle_message env st user_id raw =
    ([snd (_search_and_send_results (view env) (db st) (Str.strip raw))], st).
Proof.
  intros Hd Hl. unfold handle_message.
  destruct raw as [|c raw]; [discriminate|].
  by rewrite isdigit_is_code_search.
Qed.

Lemma numeric_text_runs_resolver_witness :
  handle_message (Sample.env Sample.awaiting_title) Sample.awaiting_title 7
    (u " 2012 ") = ([NotFound], Sample.awaiting_title).
Proof.
  apply (numeric_text_runs_resolver (Sample.env Sample.awaiting_title)
           Sample.awaiting_title 7 (u " 2012 ")).
  - vm_compute. reflexivity.
  - vm_compute. lia.
Defined.

Lemma set_db_same (st : State) : set_db st (db st) = st.
Proof. by destruct st. Qed.

Lemma in_dict_Some {A : Type} (user_id : Z) (m : gmap Z A) (x : A) :
  m !! user_id = Some x -> in_dict user_id m = true.
Proof. unfold in_dict. by intros ->. Qed.

(** Outside the category step, a text that is neither a code search nor a
    menu text reaches the session of the user. *)
Lemma handle_message_pending_input (env : Env) (st : State) (user_id : Z)
    (raw : pystr) (movie_data : Session) :
  pending_movies st !! user_id = Some movie_data ->
  s_step movie_data <> StepCategory ->
  is_code_search (Str.strip raw) = false ->
  is_menu_text (Str.strip raw) = false ->
  handle_message env st user_id raw = pending_input env st user_id raw.
Proof.
  intros Hs Hstep Hcs Hm. unfold handle_message.
  destruct raw as [|c0 raw0]; [done|].
  set (text := Str.strip (c0 :: raw0)) in *. cbv zeta.
  unfold is_menu_text in Hm.
  repeat (apply orb_false_elim in Hm as [Hm ?]).
  rewrite Hcs, Hm. rewrite (in_dict_Some _ _ _ Hs), Hs.
  repeat match goal with
         | H : Str.eqb text ?b = false |- _ => rewrite H; clear H
         end.
  assert (Hother : (match s_step movie_data with
                    | StepCategory => True | _ => False end) -> False).
  { destruct (s_step movie_data); tauto. }
  destruct (Str.startswith GENRE_MARK text) eqn:Hg; cbn [andb].
  { destruct (s_step movie_data); done. }
  destruct (Str.eqb text BTN_NEW_CATEGORY); cbn [andb].
  { destruct (s_step movie_data); done. }
  destruct (Str.startswith MOVIE_MARK text); [|done].
  match goal with
  | H : true && _ = false |- _ => cbn [andb] in H; by rewrite H
  end.
Qed.

(** C7, as the handler has it.  In the title step, a text whose stripped form
    is not empty, is not a code search and is not a menu text is stored,
    stripped, as the title, and the session moves to the category step. *)
Theorem title_step_stores_stripped_text (env : Env) (st : State)
    (user_id : Z) (raw : pystr) (movie_data : Session) :
  pending_movies st !! user_id = Some movie_data ->
  s_step movie_data = StepTitle ->
  Str.strip raw <> [] ->
  is_code_search (Str.strip raw) = false ->
  is_menu_text (Str.strip raw) = false ->
  handle_message env st user_id raw =
    ([TitleSaved (Str.strip raw)],
     set_pending_movies st
       (<[user_id :=
            {| s_code := s_code movie_data;
               s_channel_message_id := s_channel_message_id movie_data;
               s_channel_id := s_channel_id movie_data;
               s_file_id := s_file_id movie_data;
               s_step := StepCategory;
               s_title := Some (Str.strip raw) |}]> (pending_movies st))).
Proof.
  intros Hs Hstep Hne Hcs Hm.
  rewrite (handle_message_pending_input env st user_id raw movie_data);
    [|done|congruence|done|done].
  unfold pending_input. rewrite Hs, Hstep.
  by destruct (Str.strip raw).
Qed.

Lemma title_step_stores_stripped_text_witness :
  handle_message (Sample.env Sample.awaiting_title) Sample.awaiting_title 7
    (u " Big Movie ")
  = ([TitleSaved (u "Big Movie")], Sample.awaiting_category).
Proof.
  rewrite (title_step_stores_stripped_text
             (Sample.env Sample.awaiting_title) Sample.awaiting_title 7
             (u " Big Movie ")
             {| s_code := u "A12"; s_channel_message_id := 10;
                s_channel_id := 1; s_file_id := u "f1";
                s_step := StepTitle; s_title := None |});
    vm_compute; congruence.
Defined.

(** C7 as stated fails: in the title step the non-empty text [2012] is not
    taken as the title; it is searched as a code and the session stays in the
    title step without a title. *)
Lemma title_step_numeric_text_not_a_title :
  pending_movies Sample.awaiting_title !! 7
    = Some {| s_code := u "A12"; s_channel_message_id := 10;
              s_channel_id := 1; s_file_id := u "f1";
              s_step := StepTitle; s_title := None |}
  /\ u "2012" <> []
  /\ handle_message (Sample.env Sample.awaiting_title) Sample.awaiting_title
       7 (u "2012") = ([NotFound], Sample.awaiting_title).
Proof. vm_compute. repeat split; congruence. Qed.

(** ** Promotion of a draft *)

Lemma find_filter_none {A : Type} (p q : A -> bool) (l : list A) :
  (forall x, p x = true -> q x = false) -> find p (List.filter q l) = None.
Proof.
  intros Hpq. induction l as [|x l IH]; [done|]. cbn [List.filter].
  destruct (q x) eqn:Hq; [|done]. cbn [find].
  destruct (p x) eqn:Hp; [|done]. apply Hpq in Hp. congruence.
Qed.

Lemma find_app_none {A : Type} (p : A -> bool) (l1 l2 : list A) :
  find p l1 = None -> find p (l1 ++ l2) = find p l2.
Proof.
  induction l1 as [|x l1 IH]; [done|]. cbn [find app].
  destruct (p x); [done|auto].
Qed.

(** After [INSERT OR REPLACE INTO movies] the code reads back as the row just
    written. *)
Lemma get_movie_after_add (d : DB) (code title category : pystr)
    (channel_message_id channel_id : Z) (file_id : pystr) :
  get_movie_by_code
    (snd (add_movie true d code title category channel_message_id channel_id
            file_id)) code
  = Some {| m_id := seq (movies d) + 1; m_code := code; m_title := title;
            m_category := category;
            m_channel_message_id := channel_message_id;
            m_channel_id := channel_id; m_file_id := file_id |}.
Proof.
  unfold get_movie_by_code, add_movie, insert_or_replace.
  cbn [snd movies rows]. rewrite find_app_none.
  - cbn [find m_code]. by rewrite eqb_refl.
  - apply find_filter_none. intros old Hold.
    unfold movies_conflict. cbn [m_code]. rewrite Hold.
    by rewrite orb_true_r.
Qed.

Lemma get_pending_after_remove (d : DB) (code : pystr) :
  get_pending_movie_by_code (snd (remove_pending_movie true d code)) code
  = None.
Proof.
  unfold get_pending_movie_by_code, remove_pending_movie, delete_where.
  cbn [snd VideoDatabase.pending_movies rows].
  apply find_filter_none. by intros x ->.
Qed.

(** The three outcomes of the promotion block. *)
Lemma promote_outcomes (env : Env) (st : State) (user_id : Z)
    (code title category : pystr) :
  match get_pending_movie_by_code (db st) code with
  | None =>
    promote env st user_id code title category = ([DraftMissing], st)
  | Some draft =>
    let entry i :=
      {| m_id := i; m_code := code; m_title := title;
         m_category := category;
         m_channel_message_id := p_channel_message_id draft;
         m_channel_id := p_channel_id draft;
         m_file_id := p_file_id draft |} in
    if add_movie_ok env then
      exists d : DB,
        promote env st user_id code title category =
          ([MovieAdded title category code],
           {| db := d;
              pending_movies := delete user_id (pending_movies st);
              user_states := user_states st |})
        /\ movies d = insert_or_replace movies_conflict entry (movies (db st))
        /\ get_movie_by_code d code = Some (entry (seq (movies (db st)) + 1))
        /\ videos d = videos (db st)
        /\ if remove_pending_movie_ok env
           then VideoDatabase.pending_movies d =
                  delete_where (fun p => Str.eqb (p_code p) code)
                    (VideoDatabase.pending_movies (db st))
                /\ get_pending_movie_by_code d code = None
           else VideoDatabase.pending_movies d =
                  VideoDatabase.pending_movies (db st)
    else
      promote env st user_id code title category = ([AddFailed title code], st)
  end.
Proof.
  unfold promote.
  destruct (get_pending_movie_by_code (db st) code) as [draft|] eqn:Hd;
    [|done].
  cbv zeta. destruct (add_movie_ok env) eqn:Hadd.
  - pose proof (get_movie_after_add (db st) code title category
                  (p_channel_message_id draft) (p_channel_id draft)
                  (p_file_id draft)) as Hget.
    pose proof (get_pending_after_remove
                  (snd (add_movie true (db st) code title category
                          (p_channel_message_id draft) (p_channel_id draft)
                          (p_file_id draft))) code) as Hgone.
    destruct (remove_pending_movie_ok env) eqn:Hrm;
      (eexists; split; [reflexivity|]); cbn in *; by repeat split.
  - cbn. by rewrite set_db_same.
Qed.

Lemma startswith_cons_inv (a : N) (p s : pystr) :
  Str.startswith (a :: p) s = true ->
  exists r, s = a :: r /\ Str.startswith p r = true.
Proof.
  destruct s as [|b r]; [discriminate|]. cbn [Str.startswith].
  intros [->%N.eqb_eq Hp]%andb_true_iff. eauto.
Qed.

Lemma genre_text_inv (text : pystr) :
  Str.startswith GENRE_MARK text = true -> exists r, text = 128193%N :: r.
Proof.
  let v := eval vm_compute in GENRE_MARK in change GENRE_MARK with v.
  intros (r & -> & _)%startswith_cons_inv. eauto.
Qed.

(** The commit step after a category button: a text [📁 genre] other than
    the browse command, sent in the category step. *)
Lemma handle_message_category_button (env : Env) (st : State) (user_id : Z)
    (raw : pystr) (movie_data : Session) (title : pystr) :
  pending_movies st !! user_id = Some movie_data ->
  s_step movie_data = StepCategory ->
  s_title movie_data = Some title ->
  Str.startswith GENRE_MARK (Str.strip raw) = true ->
  Str.strip raw <> BTN_BROWSE ->
  handle_message env st user_id raw =
    promote env st user_id (s_code movie_data) title
      (Str.replace GENRE_MARK [] (Str.strip raw)).
Proof.
  intros Hs Hstep Htitle Hg Hb. unfold handle_message.
  destruct raw as [|c0 raw0]; [discriminate|].
  set (text := Str.strip (c0 :: raw0)) in *. cbv zeta.
  rewrite Hg, (in_dict_Some _ _ _ Hs), Hs, Hstep, Htitle. cbn [andb].
  apply eqb_neq in Hb. rewrite Hb.
  destruct (genre_text_inv _ Hg) as (r & Hr).
  assert (Hcs : is_code_search text = false).
  { rewrite Hr. unfold is_code_search.
    cbn [Str.isdigit forallb]. by rewrite andb_false_r. }
  rewrite Hcs.
  assert (Hne : forall b : pystr,
             hd 0%N b <> 128193%N -> Str.eqb text b = false).
  { intros b Hhd. apply eqb_neq. rewrite Hr. by intros <-. }
  rewrite !Hne by (vm_compute; congruence). reflexivity.
Qed.

(** The commit step after a typed category. *)
Lemma handle_message_typed_category (env : Env) (st : State) (user_id : Z)
    (raw : pystr) (movie_data : Session) (title : pystr) :
  pending_movies st !! user_id = Some movie_data ->
  s_step movie_data = StepNewCategory ->
  s_title movie_data = Some title ->
  Str.strip raw <> [] ->
  is_code_search (Str.strip raw) = false ->
  is_menu_text (Str.strip raw) = false ->
  handle_message env st user_id raw =
    promote env st user_id (s_code movie_data) title (Str.strip raw).
Proof.
  intros Hs Hstep Htitle Hne Hcs Hm.
  rewrite (handle_message_pending_input env st user_id raw movie_data);
    [|done|congruence|done|done].
  unfold pending_input. rewrite Hs, Hstep, Htitle.
  by destruct (Str.strip raw).
Qed.

(** C1.  On a commit request [handle_message] re-reads the draft by code.
    Without a draft it answers [DraftMissing] and leaves the whole state, the
    catalog included, as it was.  With a draft it writes the catalog entry
    made of the code, the collected title and category and the media fields
    of the draft; when the store accepts the write, the entry reads back
    under the code, the draft is deleted (unless the store refuses the
    delete) and the session of the user is cleared; when the store refuses
    the write, the state is unchanged: the draft and the session are still
    there. *)
Theorem commit_step_outcomes (env : Env) (st : State) (user_id : Z)
    (raw code title category : pystr) :
  commit_request st user_id raw code title category ->
  match get_pending_movie_by_code (db st) code with
  | None => handle_message env st user_id raw = ([DraftMissing], st)
  | Some draft =>
    let entry i :=
      {| m_id := i; m_code := code; m_title := title;
         m_category := category;
         m_channel_message_id := p_channel_message_id draft;
         m_channel_id := p_channel_id draft;
         m_file_id := p_file_id draft |} in
    if add_movie_ok env then
      exists d : DB,
        handle_message env st user_id raw =
          ([MovieAdded title category code],
           {| db := d;
              pending_movies := delete user_id (pending_movies st);
              user_states := user_states st |})
        /\ movies d = insert_or_replace movies_conflict entry (movies (db st))
        /\ get_movie_by_code d code = Some (entry (seq (movies (db st)) + 1))
        /\ videos d = videos (db st)
        /\ if remove_pending_movie_ok env
           then VideoDatabase.pending_movies d =
                  delete_where (fun p => Str.eqb (p_code p) code)
                    (VideoDatabase.pending_movies (db st))
                /\ get_pending_movie_by_code d code = None
           else VideoDatabase.pending_movies d =
                  VideoDatabase.pending_movies (db st)
    else handle_message env st user_id raw = ([AddFailed title code], st)
  end.
Proof.
  intros (movie_data & Hs & <- & Ht & Hreq).
  assert (Hrun : handle_message env st user_id raw
                 = promote env st user_id (s_code movie_data) title category).
  { destruct Hreq as [(Hstep & Hg & Hb & ->)|(Hstep & Hne & Hcs & Hm & ->)].
    - by apply handle_message_category_button.
    - by apply handle_message_typed_category. }
  rewrite Hrun. apply promote_outcomes.
Qed.

Lemma commit_step_outcomes_witness :
  exists d : DB,
    handle_message (Sample.env Sample.awaiting_category)
      Sample.awaiting_category 7 (u "📁 Drama")
    = ([MovieAdded (u "Big Movie") (u "Drama") (u "A12")],
       {| db := d;
          pending_movies := delete 7 (pending_movies Sample.awaiting_category);
          user_states := user_states Sample.awaiting_category |})
    /\ get_movie_by_code d (u "A12")
       = Some {| m_id := 1; m_code := u "A12"; m_title := u "Big Movie";
                 m_category := u "Drama"; m_channel_message_id := 10;
                 m_channel_id := 1; m_file_id := u "f1" |}
    /\ get_pending_movie_by_code d (u "A12") = None.
Proof.
  pose proof (commit_step_outcomes (Sample.env Sample.awaiting_category)
                Sample.awaiting_category 7 (u "📁 Drama") (u "A12")
                (u "Big Movie") (u "Drama")) as H.
  assert (Hd : get_pending_movie_by_code (db Sample.awaiting_category)
                 (u "A12")
               = Some {| p_id := 1; p_code := u "A12";
                         p_channel_message_id := 10; p_channel_id := 1;
                         p_file_id := u "f1";
                         p_caption := u "Big Movie #A12"; p_date := 100 |})
    by (vm_compute; reflexivity).
  rewrite Hd in H. cbv zeta in H.
  change (add_movie_ok (Sample.env Sample.awaiting_category)) with true in H.
  change (remove_pending_movie_ok (Sample.env Sample.awaiting_category))
    with true in H.
  cbv iota in H.
  destruct H as (d & Hrun & _ & Hget & _ & _ & Hgone).
  - exists {| s_code := u "A12"; s_channel_message_id := 10;
              s_channel_id := 1; s_file_id := u "f1";
              s_step := StepCategory; s_title := Some (u "Big Movie") |}.
    split; [vm_compute; reflexivity|]. split; [reflexivity|].
    split; [reflexivity|]. left.
    split; [reflexivity|]. split; [vm_compute; reflexivity|].
    split; [vm_compute; congruence|vm_compute; reflexivity].
  - exists d. split; [exact Hrun|]. split; [|exact Hgone].
    rewrite Hget. vm_compute. reflexivity.
Defined.

(** The other way to the commit: a typed category. *)
Example typed_category_commits :
  fst (handle_message (Sample.env Sample.awaiting_new_category)
         Sample.awaiting_new_category 7 (u "Fantasy"))
  = [MovieAdded (u "Big Movie") (u "Fantasy") (u "A12")].
Proof. vm_compute. reflexivity. Qed.

(** After the promotion the code resolves to the catalog entry, not to the
    channel video. *)
Example committed_code_resolves_to_entry :
  _search_and_send_results (db Sample.committed) (db Sample.committed)
    (u "A12")
  = ([QMovie (u "A12"); QMovie (u "A12")],
     SearchResults
       [RMovie {| m_id := 1; m_code := u "A12"; m_title := u "Big Movie";
                  m_category := u "Drama"; m_channel_message_id := 10;
                  m_channel_id := 1; m_file_id := u "f1" |}] (u "A12")).
Proof. vm_compute. reflexivity. Qed.

(** ** The browse cursor *)

Lemma ceil_div_8 (n : Z) : (n + 8 - 1) / 8 = ceil_div n 8.
Proof. unfold ceil_div. Z.div_mod_to_equations. lia. Qed.

Lemma total_count_get_movies (d : DB) (category : pystr) (page per_page : Z) :
  snd (get_movies_by_category d category page per_page)
  = total_count d category.
Proof. reflexivity. Qed.

(** ** [ORDER BY] *)

Section OrderBy.
Context {R : Type} (le : R -> R -> bool).
Hypothesis le_total : forall a b, le a b = false -> le b a = true.
Hypothesis le_trans :
  forall a b c, le a b = true -> le b c = true -> le a c = true.

Lemma insert_sorted_perm (x : R) (l : list R) :
  Permutation (insert_sorted le x l) (x :: l).
Proof.
  induction l as [|y l IH]; cbn [insert_sorted]; [done|].
  destruct (le x y); [done|].
  rewrite IH. apply perm_swap.
Qed.

Lemma order_by_perm (l : list R) : Permutation (order_by le l) l.
Proof.
  induction l as [|x l IH]; [done|].
  cbn [order_by foldr]. rewrite insert_sorted_perm. by constructor.
Qed.

Lemma insert_sorted_ordered (x : R) (l : list R) :
  ordered le l -> ordered le (insert_sorted le x l).
Proof.
  unfold ordered. induction 1 as [|y l Hl IH Hy]; cbn [insert_sorted].
  - by repeat constructor.
  - destruct (le x y) eqn:Hxy.
    + constructor; [by constructor|]. constructor; [done|].
      eapply List.Forall_impl; [|exact Hy]. cbn. eauto.
    + constructor; [done|].
      apply List.Forall_forall. intros z Hz.
      eapply Permutation_in in Hz; [|apply insert_sorted_perm].
      destruct Hz as [<-|Hz]; [by apply le_total|].
      by apply (proj1 (List.Forall_forall _ _) Hy).
Qed.

Lemma order_by_ordered (l : list R) : ordered le (order_by le l).
Proof.
  induction l as [|x l IH]; [constructor|].
  by apply insert_sorted_ordered.
Qed.

Lemma insert_sorted_front (x : R) (l : list R) :
  (forall z, In z l -> le x z = true) -> insert_sorted le x l = x :: l.
Proof.
  destruct l as [|y l]; [done|]. intros Hz. cbn [insert_sorted].
  by rewrite Hz by (by left).
Qed.

(** [WHERE] before or after [ORDER BY]: the same rows in the same order. *)
Lemma filter_insert_sorted (p : R -> bool) (x : R) (l : list R) :
  ordered le l ->
  List.filter p (insert_sorted le x l)
  = if p x then insert_sorted le x (List.filter p l) else List.filter p l.
Proof.
  unfold ordered. induction 1 as [|y l Hl IH Hy]; cbn [insert_sorted].
  - cbn [List.filter]. by destruct (p x).
  - destruct (le x y) eqn:Hxy.
    + change (List.filter p (x :: y :: l))
        with (if p x then x :: List.filter p (y :: l)
              else List.filter p (y :: l)).
      destruct (p x); [|done]. symmetry. apply insert_sorted_front.
      intros z [Hz _]%filter_In. destruct Hz as [<-|Hz]; [done|].
      eapply le_trans; [exact Hxy|].
      by apply (proj1 (List.Forall_forall _ _) Hy).
    + cbn [List.filter]. rewrite IH.
      destruct (p y), (p x); cbn [insert_sorted]; by rewrite ?Hxy.
Qed.

Lemma filter_order_by (p : R -> bool) (l : list R) :
  List.filter p (order_by le l) = order_by le (List.filter p l).
Proof.
  induction l as [|x l IH]; [done|].
  cbn [order_by foldr]. rewrite filter_insert_sorted
    by apply order_by_ordered.
  cbn [List.filter]. fold (order_by le l). rewrite IH.
  by destruct (p x).
Qed.
End OrderBy.

Lemma find_filter {A : Type} (p q : A -> bool) (l : list A) :
  find q (List.filter p l) = find (fun x => p x && q x) l.
Proof.
  induction l as [|x l IH]; [done|]. cbn [List.filter find].
  destruct (p x); cbn [andb find]; [by rewrite IH|done].
Qed.

Lemma find_ext_in {A : Type} (p q : A -> bool) (l : list A) :
  (forall x, In x l -> p x = q x) -> find p l = find q l.
Proof.
  induction l as [|x l IH]; [done|]. intros H. cbn [find].
  rewrite (H x) by (by left). destruct (q x); [done|].
  apply IH. intros y Hy. apply H. by right.
Qed.

(** ** [LIKE] against the substring test *)

Lemma like_percent (p s : pystr) :
  Sqlite.like (37%N :: p) s
  = Sqlite.like p s
    || match s with [] => false | _ :: r => Sqlite.like (37%N :: p) r end.
Proof. by destruct s. Qed.

Lemma like_percent_nil (s : pystr) : Sqlite.like [37%N] s = true.
Proof.
  induction s as [|c s IH]; [done|].
  rewrite like_percent, IH. apply orb_true_r.
Qed.

Lemma like_startswith (sub s : pystr) :
  Str.startswith sub s = true -> Sqlite.like (sub ++ [37%N]) s = true.
Proof.
  revert s. induction sub as [|c sub IH]; intros s Hs.
  - apply like_percent_nil.
  - destruct s as [|d s]; [discriminate|]. cbn [Str.startswith] in Hs.
    apply andb_true_iff in Hs as [->%N.eqb_eq Hs]. specialize (IH s Hs).
    destruct (N.eqb_spec d 37) as [->|Hd].
    + change ((37%N :: sub) ++ [37%N]) with (37%N :: (sub ++ [37%N])).
      rewrite like_percent.
      destruct s as [|e s].
      * rewrite like_percent, IH. by rewrite orb_true_r.
      * rewrite (like_percent _ (e :: s)), IH. by rewrite !orb_true_r.
    + cbn [app Sqlite.like]. apply N.eqb_neq in Hd. rewrite Hd.
      rewrite N.eqb_refl, orb_true_r. exact IH.
Qed.

(** A stored string that contains [sub] matches the pattern [%sub%],
    whatever wildcards [sub] holds. *)
Lemma like_of_contains (sub s : pystr) :
  Str.contains sub s = true ->
  Sqlite.like (u "%" ++ sub ++ u "%") s = true.
Proof.
  change (u "%" ++ sub ++ u "%") with (37%N :: (sub ++ [37%N])).
  induction s as [|c s IH]; cbn [Str.contains]; rewrite like_percent.
  - rewrite orb_false_r. intros Hs. by rewrite like_startswith.
  - intros [Hs|Hs]%orb_true_iff.
    + by rewrite like_startswith.
    + rewrite IH by done. apply orb_true_r.
Qed.

(** ** The resolver *)

Lemma date_order_total (a b : Video) :
  (v_date b <=? v_date a) = false -> (v_date a <=? v_date b) = true.
Proof. intros H%Z.leb_gt. apply Z.leb_le. lia. Qed.

Lemma date_order_trans (a b c : Video) :
  (v_date b <=? v_date a) = true -> (v_date c <=? v_date b) = true ->
  (v_date c <=? v_date a) = true.
Proof. intros H1%Z.leb_le H2%Z.leb_le. apply Z.leb_le. lia. Qed.

Lemma newest_first_sorted (l : list Video) :
  StronglySorted (fun a b => v_date b <= v_date a) (newest_first l).
Proof.
  pose proof (order_by_ordered (fun a b => v_date b <=? v_date a)
                date_order_total date_order_trans l) as H.
  unfold newest_first. induction H as [|x l' Hl IH Hx]; constructor; [done|].
  eapply List.Forall_impl; [|exact Hx]. cbn. intros b Hb.
  by apply Z.leb_le.
Qed.

(** The rows [search_channel_by_hashtag] returns that pass the substring test
    of the handler are the rows of [videos] that pass it, the newest first. *)
Lemma find_in_search (d : DB) (hashtag : pystr) (q : Video -> bool) :
  find (fun v => codes_contain hashtag v && q v)
    (search_channel_by_hashtag d hashtag)
  = find (fun v => codes_contain hashtag v && q v)
      (newest_first (rows (videos d))).
Proof.
  unfold search_channel_by_hashtag, newest_first.
  rewrite <- (filter_order_by _ date_order_total date_order_trans).
  rewrite find_filter. apply find_ext_in. intros v _.
  destruct (codes_contain hashtag v) eqn:Hc; [|by rewrite andb_false_r].
  unfold codes_contain in Hc. destruct (v_codes v) as [|c codes] eqn:Ev;
    [discriminate|].
  by rewrite (like_of_contains _ _ Hc).
Qed.

Lemma scan_channel_results_snd (view : DB) (code : pystr) (l : list Video) :
  snd (scan_channel_results view code l)
  = match find (fun v => codes_contain (hashtag_of code) v
                         && _validate_channel_code view v code) l with
    | Some v => [RVideo v]
    | None => []
    end.
Proof.
  induction l as [|v l IH]; [done|]. cbn [scan_channel_results find].
  destruct (codes_contain (hashtag_of code) v); cbn [andb]; [|done].
  destruct (_validate_channel_code view v code); [done|].
  by destruct (scan_channel_results view code l).
Qed.

(** C6, as the resolver has it.  The exact lookup reads the catalog first.
    When the catalog entry is there and validates, it is the result and no
    channel video is read.  Otherwise the channel videos are read, and the
    result is the first video, newest first, whose stored [codes] string
    contains the marker-prefixed code as a substring and whose channel and
    message id are found again by the validation re-read; there is no other
    result. *)
Theorem exact_lookup_catalog_then_newest_video (view db : DB) (code : pystr) :
  let hashtag := hashtag_of code in
  (exists q, fst (exact_lookup view db code) = QMovie code :: q)
  /\ match match get_movie_by_code db code with
           | Some movie =>
             if _validate_movie_code view movie code then Some movie else None
           | None => None
           end with
     | Some movie =>
       exact_lookup view db code = ([QMovie code; QMovie code], [RMovie movie])
     | None =>
       In (QChannel hashtag) (fst (exact_lookup view db code))
       /\ snd (exact_lookup view db code)
          = match find (fun v => codes_contain hashtag v
                                 && _validate_channel_code view v code)
                    (newest_first (rows (videos db))) with
            | Some v => [RVideo v]
            | None => []
            end
     end
  /\ StronglySorted (fun a b => v_date b <= v_date a)
       (newest_first (rows (videos db)))
  /\ Permutation (newest_first (rows (videos db))) (rows (videos db)).
Proof.
  cbv zeta. split; [|split; [|split]].
  - unfold exact_lookup.
    destruct (get_movie_by_code db code) as [movie|];
      [destruct (_validate_movie_code view movie code)|];
      cbn [app]; try destruct (scan_channel_results _ _ _); eauto.
  - assert (Hscan : forall q1,
      (let '(q2, results) :=
         scan_channel_results view code
           (search_channel_by_hashtag db (hashtag_of code)) in
       (q1 ++ QChannel (hashtag_of code) :: q2, results))
      = (q1 ++ QChannel (hashtag_of code)
            :: fst (scan_channel_results view code
                      (search_channel_by_hashtag db (hashtag_of code))),
         snd (scan_channel_results view code
                (search_channel_by_hashtag db (hashtag_of code))))).
    { intros q1. by destruct (scan_channel_results _ _ _). }
    unfold exact_lookup.
    destruct (get_movie_by_code db code) as [movie|];
      [destruct (_validate_movie_code view movie code)|]; [done| |];
      rewrite Hscan; cbn [fst snd];
      (split; [apply in_elt|]);
      by rewrite scan_channel_results_snd, find_in_search.
  - apply newest_first_sorted.
  - apply order_by_perm.
Qed.

(** C6 as stated fails: the only channel video is tagged [#A12], its code set
    does not hold [#A1], and the exact lookup of [A1] returns it. *)
Lemma exact_lookup_substring_not_member :
  exists v,
    snd (exact_lookup (db Sample.indexed) (db Sample.indexed) (u "A1"))
      = [RVideo v]
    /\ Str.split_ws (v_codes v) = [u "#A12"]
    /\ ~ In (u "#A1") (Str.split_ws (v_codes v)).
Proof.
  eexists. split; [vm_compute; reflexivity|].
  split; [vm_compute; reflexivity|].
  vm_compute. intros [H|[]]. discriminate.
Qed.

(** When nothing interferes, a row of the first read validates. *)
Lemma validate_channel_same_store (d : DB) (code : pystr) (v : Video) :
  In v (search_channel_by_hashtag d (hashtag_of code)) ->
  _validate_channel_code d v code = true.
Proof.
  intros Hin. unfold _validate_channel_code.
  destruct (search_channel_by_hashtag d (hashtag_of code)) as [|w l] eqn:E;
    [destruct Hin|].
  apply existsb_exists. exists v. split; [done|].
  by rewrite !Z.eqb_refl.
Qed.

Lemma try_in_order_app (d : DB) (l1 l2 : list Query) :
  try_in_order d (l1 ++ l2)
  = match snd (try_in_order d l1) with
    | [] => (fst (try_in_order d l1) ++ fst (try_in_order d l2),
             snd (try_in_order d l2))
    | _ => try_in_order d l1
    end.
Proof.
  induction l1 as [|q l1 IH]; cbn [app try_in_order fst snd].
  - by destruct (try_in_order d l2).
  - destruct (hit d q); [done|]. rewrite IH.
    destruct (try_in_order d l1) as [qs [|r rs]]; cbn [fst snd]; [|done].
    by destruct (try_in_order d l2).
Qed.

Lemma prefix_movies_try (d : DB) (code : pystr) (ps : list pystr) :
  prefix_movies d code ps
  = try_in_order d (map (fun p => QMovie (p ++ code)) ps).
Proof.
  induction ps as [|p ps IH]; [done|].
  cbn [prefix_movies map try_in_order hit]. rewrite IH.
  by destruct (get_movie_by_code d (p ++ code)).
Qed.

Lemma prefix_channels_try (d : DB) (code : pystr) (ps : list pystr) :
  prefix_channels d code ps
  = try_in_order d (map (fun p => QChannel (hashtag_of (p ++ code))) ps).
Proof.
  induction ps as [|p ps IH]; [done|].
  cbn [prefix_channels map try_in_order hit]. rewrite IH.
  by destruct (find _ _).
Qed.

Lemma prefix_fallback_try (d : DB) (code : pystr) :
  prefix_guess_applies code = true ->
  prefix_fallback d code
  = try_in_order d
      (map (fun p => QMovie (p ++ code)) prefixes
       ++ map (fun p => QChannel (hashtag_of (p ++ code))) prefixes).
Proof.
  intros Ha. unfold prefix_fallback. rewrite Ha, try_in_order_app.
  rewrite prefix_movies_try, prefix_channels_try.
  destruct (try_in_order d (map (fun p => QMovie (p ++ code)) prefixes))
    as [q1 [|r rs]]; cbn [fst snd]; [|done].
  by destruct (try_in_order d _).
Qed.

Lemma search_unfold (view d : DB) (code : pystr) :
  _search_and_send_results view d code
  = match snd (exact_lookup view d code) with
    | [] =>
      (fst (exact_lookup view d code) ++ fst (prefix_fallback d code),
       match snd (prefix_fallback d code) with
       | [] => NotFound
       | results => SearchResults results code
       end)
    | results => (fst (exact_lookup view d code), SearchResults results code)
    end.
Proof.
  unfold _search_and_send_results.
  destruct (exact_lookup view d code) as [q1 [|r rs]]; cbn [fst snd]; [|done].
  by destruct (prefix_fallback d code) as [q2 [|r2 rs2]].
Qed.

Lemma prefix_guess_applies_iff (code : pystr) :
  prefix_guess_applies code = true
  <-> Str.isdigit code = true /\ (1 <= length code <= 3)%nat
      /\ Str.startswith (u "0") code = false.
Proof.
  unfold prefix_guess_applies.
  rewrite !andb_true_iff, negb_true_iff, Nat.leb_le.
  split.
  - intros [[Hd Hl] H0]. repeat split; try done.
    destruct code; [discriminate|cbn [length]; lia].
  - intros (Hd & [_ Hl] & H0). done.
Qed.

Lemma prefix_fallback_reads (d : DB) (code : pystr) :
  prefix_guess_applies code = true -> fst (prefix_fallback d code) <> [].
Proof.
  intros Ha. unfold prefix_fallback. rewrite Ha.
  change prefixes with (u "M" :: tl prefixes). cbn [prefix_movies].
  destruct (get_movie_by_code d (u "M" ++ code)); [done|].
  destruct (prefix_movies d code (tl prefixes)) as [q [|r rs]]; [|done].
  by destruct (prefix_channels d code _).
Qed.

(** C4, as the resolver has it.  Nothing interferes with the store during
    the search.  The search reads beyond the exact lookups exactly when
    these found nothing and the code is numeric ([str.isdigit]), one to
    three characters long and does not start with [0].  The search of [007]
    never does: when the exact lookups find nothing the answer is
    [NotFound].  The search of [7], when the exact lookups find nothing,
    reads the catalog for [M7], [A7], [C7], [D7], [H7], [S7], [F7], [T7] in
    that order and then, only when none of them has an entry, the channel
    videos for the same codes in the same order; it stops at the first of
    these sixteen reads that finds something and answers with what it
    found. *)
Theorem prefix_guess_entry_and_order (db : DB) :
  (forall code,
     fst (_search_and_send_results db db code)
       <> fst (exact_lookup db db code)
     <-> snd (exact_lookup db db code) = []
         /\ Str.isdigit code = true /\ (1 <= length code <= 3)%nat
         /\ Str.startswith (u "0") code = false)
  /\ (fst (_search_and_send_results db db (u "007"))
        = fst (exact_lookup db db (u "007"))
      /\ (snd (exact_lookup db db (u "007")) = [] ->
          snd (_search_and_send_results db db (u "007")) = NotFound))
  /\ (snd (exact_lookup db db (u "7")) = [] ->
      let tried :=
        try_in_order db
          [QMovie (u "M7"); QMovie (u "A7"); QMovie (u "C7");
           QMovie (u "D7"); QMovie (u "H7"); QMovie (u "S7");
           QMovie (u "F7"); QMovie (u "T7");
           QChannel (u "#M7"); QChannel (u "#A7"); QChannel (u "#C7");
           QChannel (u "#D7"); QChannel (u "#H7"); QChannel (u "#S7");
           QChannel (u "#F7"); QChannel (u "#T7")] in
      _search_and_send_results db db (u "7")
      = (fst (exact_lookup db db (u "7")) ++ fst tried,
         match snd tried with
         | [] => NotFound
         | results => SearchResults results (u "7")
         end)).
Proof.
  split; [|split].
  - intros code. rewrite <- prefix_guess_applies_iff, search_unfold.
    destruct (snd (exact_lookup db db code)) as [|r rs] eqn:Hr;
      cbn [fst]; [|by intuition].
    split.
    + intros Hq. split; [done|].
      destruct (prefix_guess_applies code) eqn:Ha; [done|].
      exfalso. apply Hq. unfold prefix_fallback. rewrite Ha.
      apply app_nil_r.
    + intros [_ Ha] Hq.
      apply (prefix_fallback_reads db code Ha).
      apply (app_inv_head (fst (exact_lookup db db code))).
      by rewrite app_nil_r.
  - rewrite search_unfold.
    destruct (snd (exact_lookup db db (u "007"))) as [|r rs]; cbn [fst snd];
      [|done].
    split; [apply app_nil_r|done].
  - intros He. rewrite search_unfold, He.
    by rewrite prefix_fallback_try.
Qed.

Lemma prefix_guess_entry_and_order_witness :
  _search_and_send_results (db Guess.curated) (db Guess.curated) (u "7")
  = ([QMovie (u "7"); QChannel (u "#7"); QMovie (u "M7"); QMovie (u "A7")],
     SearchResults
       [RMovie {| m_id := 1; m_code := u "A7"; m_title := u "Another";
                  m_category := u "Drama"; m_channel_message_id := 12;
                  m_channel_id := 1; m_file_id := u "f3" |}] (u "7")).
Proof.
  destruct (prefix_guess_entry_and_order (db Guess.curated))
    as (_ & _ & H7).
  rewrite H7; vm_compute; reflexivity.
Defined.

(** C4 as stated fails.  The channel posted a video tagged [#M7] and one
    tagged [#A7], and a curator made [A7] a catalog entry.  The exact
    lookups of [7] find nothing and the lookup of [M7], the first code in
    the order of the prefixes, finds the video; yet the search of [7] is
    answered with the entry [A7], the hit of the second code. *)
Lemma prefix_guess_returns_hit_of_later_prefix :
  snd (exact_lookup (db Guess.curated) (db Guess.curated) (u "7")) = []
  /\ snd (exact_lookup (db Guess.curated) (db Guess.curated) (u "M7"))
     = [RVideo {| v_id := 1; v_chat_id := 1; v_message_id := 11;
                  v_file_id := u "f2"; v_caption := u "Part two #M7";
                  v_codes := u "#M7"; v_date := 100 |}]
  /\ handle_message (Sample.env Guess.curated) Guess.curated 8 (u "7")
     = ([SearchResults
           [RMovie {| m_id := 1; m_code := u "A7"; m_title := u "Another";
                      m_category := u "Drama"; m_channel_message_id := 12;
                      m_channel_id := 1; m_file_id := u "f3" |}] (u "7")],
        Guess.curated).
Proof.
  split; [vm_compute; reflexivity|].
  split; vm_compute; reflexivity.
Qed.

Lemma try_in_order_hit (d : DB) (l1 l2 : list Query) (q : Query)
    (r : Result) :
  Forall (fun q' => hit d q' = None) l1 -> hit d q = Some r ->
  try_in_order d (l1 ++ q :: l2) = (l1 ++ [q], [r]).
Proof.
  intros Hl1 Hq. induction Hl1 as [|q' l1 Hq' _ IH];
    cbn [app try_in_order].
  - by rewrite Hq.
  - by rewrite Hq', IH.
Qed.

Lemma try_in_order_miss (d : DB) (l : list Query) :
  Forall (fun q => hit d q = None) l -> try_in_order d l = (l, []).
Proof.
  induction 1 as [|q l Hq _ IH]; cbn [try_in_order]; [done|].
  by rewrite Hq, IH.
Qed.

Lemma hit_movie_none (d : DB) (code : pystr) (ps : list pystr) :
  Forall (fun p => get_movie_by_code d (p ++ code) = None) ps ->
  Forall (fun q => hit d q = None) (map (fun p => QMovie (p ++ code)) ps).
Proof.
  induction 1 as [|p ps Hp _ IH]; constructor; [|done].
  cbn [hit]. by rewrite Hp.
Qed.

Lemma hit_channel_none (d : DB) (code : pystr) (ps : list pystr) :
  Forall (fun p => find (codes_contain (hashtag_of (p ++ code)))
                     (search_channel_by_hashtag d (hashtag_of (p ++ code)))
                   = None) ps ->
  Forall (fun q => hit d q = None)
    (map (fun p => QChannel (hashtag_of (p ++ code))) ps).
Proof.
  induction 1 as [|p ps Hp _ IH]; constructor; [|done].
  cbn [hit]. by rewrite Hp.
Qed.

(** C5, as the resolver has it.  The prefix guess makes two passes over the
    prefixes M, A, C, D, H, S, F, T.  The first pass reads the catalog for
    each prefix+code in that order and stops at the first entry found; no
    channel video is read in that case, not even for the prefixes already
    passed.  Only when no prefix has a catalog entry does the second pass
    read the channel videos for each prefix+code in the same order, and it
    stops at the first prefix with a video whose [codes] contain the
    marker-prefixed prefix+code. *)
Theorem prefix_fallback_two_passes (db : DB) (code : pystr) :
  prefix_guess_applies code = true ->
  let in_catalog p := get_movie_by_code db (p ++ code) in
  let in_videos p :=
    find (codes_contain (hashtag_of (p ++ code)))
      (search_channel_by_hashtag db (hashtag_of (p ++ code))) in
  let movie_read p := QMovie (p ++ code) in
  let video_read p := QChannel (hashtag_of (p ++ code)) in
  (forall ps1 p ps2 movie,
     prefixes = ps1 ++ p :: ps2 ->
     Forall (fun q => in_catalog q = None) ps1 ->
     in_catalog p = Some movie ->
     prefix_fallback db code = (map movie_read (ps1 ++ [p]), [RMovie movie]))
  /\ (Forall (fun q => in_catalog q = None) prefixes ->
      forall ps1 p ps2 video,
        prefixes = ps1 ++ p :: ps2 ->
        Forall (fun q => in_videos q = None) ps1 ->
        in_videos p = Some video ->
        prefix_fallback db code
        = (map movie_read prefixes ++ map video_read (ps1 ++ [p]),
           [RVideo video]))
  /\ (Forall (fun q => in_catalog q = None) prefixes ->
      Forall (fun q => in_videos q = None) prefixes ->
      prefix_fallback db code
      = (map movie_read prefixes ++ map video_read prefixes, [])).
Proof.
  intros Ha. cbv zeta. rewrite (prefix_fallback_try db code Ha).
  split; [|split].
  - intros ps1 p ps2 movie Hps Hps1 Hp. rewrite Hps.
    rewrite !map_app. cbn [map]. rewrite <- app_assoc. cbn [app].
    apply try_in_order_hit; [by apply hit_movie_none|].
    cbn [hit]. by rewrite Hp.
  - intros Hcat ps1 p ps2 video Hps Hps1 Hp.
    rewrite try_in_order_app.
    rewrite (try_in_order_miss db _ (hit_movie_none db code _ Hcat)).
    cbn [fst snd].
    assert (Hvid :
      try_in_order db
        (map (fun q => QChannel (hashtag_of (q ++ code))) prefixes)
      = (map (fun q => QChannel (hashtag_of (q ++ code))) (ps1 ++ [p]),
         [RVideo video])).
    { rewrite Hps, !map_app. cbn [map].
      apply try_in_order_hit; [by apply hit_channel_none|].
      cbn [hit]. by rewrite Hp. }
    by rewrite Hvid.
  - intros Hcat Hvid.
    rewrite try_in_order_app.
    rewrite (try_in_order_miss db _ (hit_movie_none db code _ Hcat)).
    cbn [fst snd].
    by rewrite (try_in_order_miss db _ (hit_channel_none db code _ Hvid)).
Qed.

Lemma prefix_fallback_two_passes_witness :
  prefix_fallback Sample.m7_and_a7 (u "7")
  = ([QMovie (u "M7"); QMovie (u "A7")],
     [RMovie {| m_id := 1; m_code := u "A7"; m_title := u "Another";
                m_category := u "Drama"; m_channel_message_id := 12;
                m_channel_id := 1; m_file_id := u "f3" |}]).
Proof.
  destruct (prefix_fallback_two_passes Sample.m7_and_a7 (u "7"))
    as (Hfirst & _); [vm_compute; reflexivity|].
  rewrite (Hfirst [u "M"] (u "A")
             [u "C"; u "D"; u "H"; u "S"; u "F"; u "T"]
             {| m_id := 1; m_code := u "A7"; m_title := u "Another";
                m_category := u "Drama"; m_channel_message_id := 12;
                m_channel_id := 1; m_file_id := u "f3" |}).
  - vm_compute. reflexivity.
  - vm_compute. reflexivity.
  - repeat constructor.
  - vm_compute. reflexivity.
Defined.

(** C5 as stated fails: the prefix M has a channel video ([#M7]) and the
    prefix A a catalog entry ([A7]); the search of [7] does not stop at M, it
    never reads the channel videos for [#M7] and answers with the entry
    [A7]. *)
Lemma prefix_guess_passes_over_video_of_earlier_prefix :
  (exists v, hit Sample.m7_and_a7 (QChannel (u "#M7")) = Some (RVideo v))
  /\ hit Sample.m7_and_a7 (QMovie (u "M7")) = None
  /\ _search_and_send_results Sample.m7_and_a7 Sample.m7_and_a7 (u "7")
     = ([QMovie (u "7"); QChannel (u "#7"); QMovie (u "M7"); QMovie (u "A7")],
        SearchResults
          [RMovie {| m_id := 1; m_code := u "A7"; m_title := u "Another";
                     m_category := u "Drama"; m_channel_message_id := 12;
                     m_channel_id := 1; m_file_id := u "f3" |}] (u "7")).
Proof.
  split; [eexists; vm_compute; reflexivity|].
  split; vm_compute; reflexivity.
Qed.

(** ** The indexer *)

Lemma filter_keeps_all {A : Type} (p : A -> bool) (l : list A) :
  Forall (fun x => p x = true) l -> List.filter p l = l.
Proof.
  induction 1 as [|x l Hx _ IH]; [done|].
  cbn [List.filter]. by rewrite Hx, IH.
Qed.

(** Under a primary key alone, [INSERT OR REPLACE] without an [id] appends:
    [save_video] never replaces a row. *)
Lemma save_video_appends (d : DB) (chat_id message_id : Z)
    (file_id caption : pystr) (date : Z) :
  Forall (fun v => v_id v <= seq (videos d)) (rows (videos d)) ->
  rows (videos (snd (save_video true d chat_id message_id file_id caption
                       date)))
  = rows (videos d)
    ++ [{| v_id := seq (videos d) + 1; v_chat_id := chat_id;
           v_message_id := message_id; v_file_id := file_id;
           v_caption := caption;
           v_codes := extract_hashtags_as_codes caption;
           v_date := date |}].
Proof.
  intros Hids. unfold save_video, insert_or_replace. cbn [snd videos rows].
  rewrite filter_keeps_all; [done|].
  eapply List.Forall_impl; [|exact Hids]. intros v Hv.
  unfold videos_conflict. cbn in Hv |- *.
  apply negb_true_iff, Z.eqb_neq. lia.
Qed.

(** Likewise [add_pending_movie] never replaces a draft. *)
Lemma add_pending_movie_appends (d : DB) (code : pystr)
    (channel_message_id channel_id : Z) (file_id caption : pystr) (t : Z) :
  Forall (fun p => p_id p <= seq (VideoDatabase.pending_movies d))
    (rows (VideoDatabase.pending_movies d)) ->
  rows (VideoDatabase.pending_movies
          (snd (add_pending_movie true d code channel_message_id channel_id
                  file_id caption t)))
  = rows (VideoDatabase.pending_movies d)
    ++ [{| p_id := seq (VideoDatabase.pending_movies d) + 1; p_code := code;
           p_channel_message_id := channel_message_id;
           p_channel_id := channel_id; p_file_id := file_id;
           p_caption := caption; p_date := t |}].
Proof.
  intros Hids. unfold add_pending_movie, insert_or_replace.
  cbn [snd VideoDatabase.pending_movies rows].
  rewrite filter_keeps_all; [done|].
  eapply List.Forall_impl; [|exact Hids]. intros p Hp.
  unfold pending_conflict. cbn in Hp |- *.
  apply negb_true_iff, Z.eqb_neq. lia.
Qed.

(** C2 on the code.  The same channel message saved twice, with two captions,
    leaves two rows of [videos] for the one identity, the first still
    carrying the codes of the first caption: [videos] has no [UNIQUE]
    constraint on [(chat_id, message_id)], so [INSERT OR REPLACE] finds
    nothing to replace. *)
Theorem save_video_twice_keeps_both_rows :
  let d1 :=
    snd (save_video true init_db 1 10 (u "f1") (u "Big Movie #A12") 100) in
  let d2 := snd (save_video true d1 1 10 (u "f1") (u "Big Movie #B7") 200) in
  map (fun v => (v_chat_id v, v_message_id v, v_codes v)) (rows (videos d2))
  = [(1, 10, u "#A12"); (1, 10, u "#B7")].
Proof. vm_compute. reflexivity. Qed.

(** C3 on the code.  Two channel posts tagged [#A12] leave two rows of
    [pending_movies] with the code [A12], and the draft read back by code is
    the older one: [pending_movies] has no [UNIQUE] constraint on [code]. *)
Theorem ingest_same_code_twice_keeps_both_drafts :
  let st1 :=
    channel_post_handler (quiet init_db 100) Sample.start Sample.post_a12 in
  let st2 :=
    channel_post_handler (quiet (db st1) 200) st1 Sample.post_a12_again in
  map (fun p => (p_code p, p_channel_message_id p))
    (rows (VideoDatabase.pending_movies (db st2)))
  = [(u "A12", 10); (u "A12", 11)]
  /\ p_channel_message_id <$> get_pending_movie_by_code (db st2) (u "A12")
     = Some 10.
Proof. vm_compute. split; reflexivity. Qed.

(** ** The hashtags of a caption *)

Lemma hash_not_word : Unicode.is_word_cp 35 = false.
Proof. vm_compute. reflexivity. Qed.

Lemma take_while_all (p : N -> bool) (s : pystr) :
  Forall (fun c => p c = true) (Str.take_while p s).
Proof.
  induction s as [|c s IH]; cbn [Str.take_while]; [constructor|].
  destruct (p c) eqn:Hc; by constructor.
Qed.

Lemma take_while_split (p : N -> bool) (s : pystr) :
  exists rest,
    s = Str.take_while p s ++ rest
    /\ match rest with [] => True | c :: _ => p c = false end.
Proof.
  induction s as [|c s (rest & Hs & Hrest)]; cbn [Str.take_while].
  - by exists [].
  - destruct (p c) eqn:Hc.
    + exists rest. split; [|done]. cbn [app]. by rewrite <- Hs.
    + by exists (c :: s).
Qed.

Lemma take_while_app (p : N -> bool) (w rest : pystr) :
  Forall (fun c => p c = true) w ->
  match rest with [] => True | c :: _ => p c = false end ->
  Str.take_while p (w ++ rest) = w.
Proof.
  intros Hw Hrest. induction Hw as [|c w Hc _ IH]; cbn [app Str.take_while].
  - destruct rest as [|c rest]; [done|]. cbn [Str.take_while]. by rewrite Hrest.
  - by rewrite Hc, IH.
Qed.

Lemma take_length_take_while (p : N -> bool) (s : pystr) :
  take (length (Str.take_while p s)) s = Str.take_while p s.
Proof.
  induction s as [|c s IH]; cbn [Str.take_while]; [done|].
  destruct (p c); [|done]. cbn [length firstn]. by rewrite IH.
Qed.

(** The pattern matches at the head of [r] exactly the maximal tokens that
    start there. *)
Lemma match_hashtag_spec (r t : pystr) :
  Re.match_hashtag r = Some t <-> maximal_token_at r 0 t.
Proof.
  unfold maximal_token_at. split.
  - destruct r as [|c r]; [discriminate|]. cbn [Re.match_hashtag].
    destruct (N.eqb_spec c 35) as [->|]; [|discriminate].
    destruct (take_while_split Unicode.is_word_cp r) as (rest & Hr & Hrest).
    pose proof (take_while_all Unicode.is_word_cp r) as Hall.
    destruct (Str.take_while Unicode.is_word_cp r) as [|c w] eqn:Hw;
      [discriminate|].
    intros [= <-]. exists (c :: w), rest. repeat split; try done.
    change (35%N :: r = 35%N :: (c :: w) ++ rest). by rewrite Hr.
  - intros (w & rest & Hr & -> & Hne & Hw & Hrest).
    change (r = (35%N :: w) ++ rest) in Hr. subst r.
    cbn [app Re.match_hashtag]. rewrite N.eqb_refl.
    rewrite (take_while_app _ _ _ Hw Hrest).
    by destruct w.
Qed.

Lemma match_hashtag_word (c : N) (r : pystr) :
  Unicode.is_word_cp c = true -> Re.match_hashtag (c :: r) = None.
Proof.
  intros Hc. cbn [Re.match_hashtag].
  destruct (N.eqb_spec c 35) as [->|]; [|done].
  rewrite hash_not_word in Hc. discriminate.
Qed.

Lemma match_hashtag_length (s m : pystr) :
  Re.match_hashtag s = Some m ->
  exists r, s = 35%N :: r
            /\ (length m - 1)%nat
               = length (Str.take_while Unicode.is_word_cp r).
Proof.
  destruct s as [|c r]; [discriminate|]. cbn [Re.match_hashtag].
  destruct (N.eqb_spec c 35) as [->|]; [|discriminate].
  destruct (Str.take_while Unicode.is_word_cp r) as [|d w] eqn:Hw;
    [discriminate|].
  intros [= <-]. exists r. split; [done|]. rewrite Hw. cbn [length]. lia.
Qed.

Lemma occurrences_findall (skip i : nat) (s : pystr) :
  map snd (occurrences_from skip i s) = Re.findall_from skip s.
Proof.
  revert skip i. induction s as [|c s IH]; intros skip i; [done|].
  cbn [occurrences_from Re.findall_from]. destruct skip as [|k]; [|apply IH].
  destruct (Re.match_hashtag (c :: s)); cbn [map snd]; by rewrite IH.
Qed.

Lemma occurrences_offsets (skip i : nat) (s : pystr) :
  Forall (fun o => (i <= fst o)%nat) (occurrences_from skip i s)
  /\ StronglySorted lt (map fst (occurrences_from skip i s)).
Proof.
  revert skip i. induction s as [|c s IH]; intros skip i.
  - split; constructor.
  - cbn [occurrences_from].
    assert (Hnext : forall k,
      Forall (fun o => (i <= fst o)%nat) (occurrences_from k (S i) s)
      /\ Forall (lt i) (map fst (occurrences_from k (S i) s))).
    { intros k. destruct (IH k (S i)) as [Hge _]. split.
      - eapply List.Forall_impl; [|exact Hge]. cbn. lia.
      - apply List.Forall_map.
        eapply List.Forall_impl; [|exact Hge]. cbn. lia. }
    destruct skip as [|k].
    + destruct (Re.match_hashtag (c :: s)) as [m|].
      * destruct (Hnext (length m - 1)%nat) as [Hge Hlt].
        destruct (IH (length m - 1)%nat (S i)) as [_ Hs].
        split; [constructor; [cbn; lia|done]|]. cbn [map fst].
        by constructor.
      * destruct (Hnext 0%nat) as [Hge _].
        destruct (IH 0%nat (S i)) as [_ Hs]. done.
    + destruct (Hnext k) as [Hge _]. destruct (IH k (S i)) as [_ Hs]. done.
Qed.

Lemma occurrences_spec (s : pystr) :
  forall (skip i j : nat) (t : pystr),
    Forall (fun c => Unicode.is_word_cp c = true) (take skip s) ->
    In (j, t) (occurrences_from skip i s)
    <-> exists k, j = (i + k)%nat /\ Re.match_hashtag (drop k s) = Some t.
Proof.
  induction s as [|c s IH]; intros skip i j t Hskip.
  - cbn [occurrences_from In]. split; [done|].
    intros (k & _ & Hk). by destruct k.
  - assert (Hshift : forall P : Prop,
      (exists k, j = (S i + k)%nat /\ Re.match_hashtag (drop k s) = Some t)
      <-> (exists k, j = (i + S k)%nat
                     /\ Re.match_hashtag (drop (S k) (c :: s)) = Some t)).
    { intros _. split; intros (k & -> & Hk); exists k; split; try done; lia. }
    specialize (Hshift True).
    cbn [occurrences_from]. destruct skip as [|skip].
    + destruct (Re.match_hashtag (c :: s)) as [m|] eqn:Hm.
      * destruct (match_hashtag_length _ _ Hm) as (r & [= -> ->] & Hlen).
        cbn [In]. rewrite IH, Hshift.
        2:{ rewrite Hlen, take_length_take_while. apply take_while_all. }
        split.
        -- intros [[= <- <-]|(k & -> & Hk)].
           ++ exists 0%nat. split; [lia|done].
           ++ by exists (S k).
        -- intros ([|k] & -> & Hk).
           ++ left. cbn [skipn] in Hk. rewrite Hm in Hk.
              injection Hk as <-. f_equal. lia.
           ++ right. by exists k.
      * rewrite IH, Hshift by constructor. split.
        -- intros (k & -> & Hk). by exists (S k).
        -- intros ([|k] & -> & Hk); [|by exists k].
           cbn [skipn] in Hk. congruence.
    + cbn [firstn] in Hskip. apply Forall_cons in Hskip as [Hc Hskip].
      rewrite IH, Hshift by done. split.
      * intros (k & -> & Hk). by exists (S k).
      * intros ([|k] & -> & Hk); [|by exists k].
        cbn [skipn] in Hk. rewrite (match_hashtag_word c s Hc) in Hk.
        discriminate.
Qed.

(** C9, as the code has it.  The result is the maximal [#token] substrings of
    the caption, one for each offset at which one starts, in the order of the
    offsets, joined by single spaces: a sequence in which a token that occurs
    twice is kept twice. *)
Theorem extract_hashtags_as_codes_spec (caption : pystr) :
  exists occ : list (nat * pystr),
    extract_hashtags_as_codes caption = Str.join (u " ") (map snd occ)
    /\ StronglySorted lt (map fst occ)
    /\ forall i t, In (i, t) occ <-> maximal_token_at caption i t.
Proof.
  exists (occurrences_from 0 0 caption). split; [|split].
  - rewrite occurrences_findall. by destruct caption.
  - apply occurrences_offsets.
  - intros i t. rewrite occurrences_spec by constructor.
    split.
    + intros (k & -> & Hk). apply match_hashtag_spec in Hk.
      unfold maximal_token_at in *. by cbn [skipn Nat.add] in *.
    + intros Hi. exists i. split; [done|].
      apply match_hashtag_spec. unfold maximal_token_at in *.
      by cbn [skipn].
Qed.

(** C9 as stated fails: the token [#A1] occurs twice in the caption and twice
    in the result. *)
Lemma extract_hashtags_keeps_duplicates :
  extract_hashtags_as_codes (u "#A1 #A1") = u "#A1 #A1"
  /\ Str.split_ws (extract_hashtags_as_codes (u "#A1 #A1"))
     = [u "#A1"; u "#A1"]
  /\ ~ NoDup (Str.split_ws (extract_hashtags_as_codes (u "#A1 #A1"))).
Proof.
  split; [vm_compute; reflexivity|]. split; [vm_compute; reflexivity|].
  vm_compute. intros H. apply NoDup_cons_1_1 in H. apply H. by left.
Qed.

(** * Further properties of the code *)

(** ** The catalog and the drafts in the store *)

Lemma find_app {A : Type} (p : A -> bool) (l1 l2 : list A) :
  find p (l1 ++ l2)
  = match find p l1 with Some x => Some x | None => find p l2 end.
Proof.
  induction l1 as [|x l1 IH]; [done|]. cbn [app find].
  by destruct (p x).
Qed.

Lemma find_filter_kept {A : Type} (p q : A -> bool) (l : list A) :
  (forall x, In x l -> p x = true -> q x = true) ->
  find p (List.filter q l) = find p l.
Proof.
  induction l as [|x l IH]; [done|]. intros H. cbn [List.filter find].
  destruct (p x) eqn:Hp.
  - rewrite (H x) by (done || by left). cbn [find]. by rewrite Hp.
  - rewrite <- IH by (intros y Hy; apply H; by right).
    destruct (q x); [|done]. cbn [find]. by rewrite Hp.
Qed.

Lemma filter_filter_nil {A : Type} (p q : A -> bool) (l : list A) :
  (forall x, p x = true -> q x = false) ->
  List.filter p (List.filter q l) = [].
Proof.
  intros H. induction l as [|x l IH]; [done|]. cbn [List.filter].
  destruct (q x) eqn:Hq; [|done]. cbn [List.filter].
  destruct (p x) eqn:Hp; [|done]. apply H in Hp. congruence.
Qed.

(** Last write wins: after an accepted [add_movie] the catalog holds one row
    with the code, the row just written, whatever it held before. *)
Theorem add_movie_replaces_entry (d : DB) (code title category : pystr)
    (channel_message_id channel_id : Z) (file_id : pystr) :
  List.filter (fun m => Str.eqb (m_code m) code)
    (rows (movies (snd (add_movie true d code title category
                          channel_message_id channel_id file_id))))
  = [{| m_id := seq (movies d) + 1; m_code := code; m_title := title;
        m_category := category;
        m_channel_message_id := channel_message_id;
        m_channel_id := channel_id; m_file_id := file_id |}].
Proof.
  unfold add_movie, insert_or_replace. cbn [snd movies rows].
  rewrite List.filter_app, filter_filter_nil.
  - cbn [List.filter m_code app]. by rewrite eqb_refl.
  - intros old Hold. unfold movies_conflict. cbn [m_code].
    by rewrite Hold, orb_true_r.
Qed.

(** The entries of the other codes are not touched by [add_movie]. *)
Theorem add_movie_keeps_other_codes (ok : bool) (d : DB)
    (code title category : pystr) (channel_message_id channel_id : Z)
    (file_id other : pystr) :
  Forall (fun m => m_id m <= seq (movies d)) (rows (movies d)) ->
  other <> code ->
  get_movie_by_code
    (snd (add_movie ok d code title category channel_message_id channel_id
            file_id)) other
  = get_movie_by_code d other.
Proof.
  intros Hids Hne. destruct ok; [|done].
  unfold get_movie_by_code, add_movie, insert_or_replace.
  cbn [snd movies rows]. rewrite find_app, find_filter_kept.
  - destruct (find _ (rows (movies d))); [done|].
    cbn [find m_code].
    assert (Str.eqb code other = false) as ->; [|done].
    apply eqb_neq. congruence.
  - intros old Hin Hold. apply eqb_eq in Hold.
    unfold movies_conflict. cbn [m_id m_code].
    apply negb_true_iff, orb_false_iff. split.
    + apply Z.eqb_neq.
      pose proof (proj1 (List.Forall_forall _ _) Hids old Hin) as Hid.
      cbn in Hid. lia.
    + apply eqb_neq. congruence.
Qed.

Lemma add_movie_keeps_other_codes_witness :
  get_movie_by_code
    (snd (add_movie true Sample.m7_and_a7 (u "B2") (u "Second") (u "Drama")
            13 1 (u "f4"))) (u "A7")
  = get_movie_by_code Sample.m7_and_a7 (u "A7").
Proof.
  apply (add_movie_keeps_other_codes true Sample.m7_and_a7 (u "B2")
           (u "Second") (u "Drama") 13 1 (u "f4") (u "A7")).
  - vm_compute. repeat constructor. discriminate.
  - vm_compute. congruence.
Defined.

(** After an accepted [remove_pending_movie] no draft of the code is left,
    and the draft read back for any other code is the one read before. *)
Theorem remove_pending_movie_lookup (d : DB) (code other : pystr) :
  get_pending_movie_by_code (snd (remove_pending_movie true d code)) other
  = if Str.eqb other code then None else get_pending_movie_by_code d other.
Proof.
  unfold get_pending_movie_by_code, remove_pending_movie, delete_where.
  cbn [snd VideoDatabase.pending_movies rows].
  destruct (Str.eqb other code) eqn:Ho.
  - apply eqb_eq in Ho as ->. apply find_filter_none. by intros x ->.
  - apply find_filter_kept. intros x _ Hx. apply eqb_eq in Hx.
    apply negb_true_iff, eqb_neq. apply eqb_neq in Ho. congruence.
Qed.

(** ** What a message can change *)

Lemma handle_message_touched (env : Env) (st : State) (user_id : Z)
    (raw : pystr) :
  touched env st user_id (handle_message env st user_id raw).
Proof.
  unfold handle_message, pending_input.
  repeat case_match; subst;
    try (by constructor);
    try (by econstructor; eauto; cbn; eauto using Z.ltb_lt).
  eapply touched_cursor_moved; [eassumption|reflexivity|].
  right. split; [by apply Z.ltb_lt|reflexivity].
Qed.

Lemma promote_cases (env : Env) (st : State) (user_id : Z)
    (code title category : pystr) :
  promote env st user_id code title category = ([DraftMissing], st)
  \/ promote env st user_id code title category = ([AddFailed title code], st)
  \/ exists draft,
       get_pending_movie_by_code (db st) code = Some draft
       /\ promote env st user_id code title category
          = ([MovieAdded title category code],
             {| db :=
                  snd (remove_pending_movie (remove_pending_movie_ok env)
                         (snd (add_movie true (db st) code title category
                                 (p_channel_message_id draft)
                                 (p_channel_id draft) (p_file_id draft)))
                         code);
                pending_movies := delete user_id (pending_movies st);
                user_states := user_states st |}).
Proof.
  unfold promote.
  destruct (get_pending_movie_by_code (db st) code) as [draft|]; [|by left].
  destruct (add_movie_ok env).
  - right. right. exists draft. split; [done|].
    cbn. by destruct (remove_pending_movie_ok env).
  - right. left. cbn. by rewrite set_db_same.
Qed.

(** A message of one user leaves the curation session and the browse cursor
    of every other user as they were. *)
Theorem handle_message_other_users (env : Env) (st : State)
    (user_id other : Z) (raw : pystr) :
  other <> user_id ->
  pending_movies (snd (handle_message env st user_id raw)) !! other
    = pending_movies st !! other
  /\ user_states (snd (handle_message env st user_id raw)) !! other
     = user_states st !! other.
Proof.
  intros Hne.
  destruct (handle_message_touched env st user_id raw)
    as [| | | | |code title category]; cbn [snd set_pending_movies
      set_user_states pending_movies user_states];
    rewrite ?lookup_insert_ne, ?lookup_delete_ne by done; try done.
  destruct (promote_cases env st user_id code title category)
    as [->|[->|(draft & _ & ->)]]; cbn [snd pending_movies user_states];
    by rewrite ?lookup_delete_ne by done.
Qed.

Lemma handle_message_other_users_witness :
  pending_movies
    (snd (handle_message (Sample.env Sample.browsing) Sample.browsing 8
            BTN_NEXT)) !! 7
    = pending_movies Sample.browsing !! 7
  /\ user_states
       (snd (handle_message (Sample.env Sample.awaiting_title)
               Sample.awaiting_title 7 (u "Big Movie"))) !! 8
     = user_states Sample.awaiting_title !! 8.
Proof.
  split.
  - apply (handle_message_other_users (Sample.env Sample.browsing)
             Sample.browsing 8 7 BTN_NEXT). lia.
  - apply (handle_message_other_users (Sample.env Sample.awaiting_title)
             Sample.awaiting_title 7 8 (u "Big Movie")). lia.
Defined.

(** A message never changes the channel videos, and it changes the store only
    when it answers that a movie was added. *)
Theorem handle_message_store_change (env : Env) (st : State) (user_id : Z)
    (raw : pystr) :
  videos (db (snd (handle_message env st user_id raw))) = videos (db st)
  /\ (db (snd (handle_message env st user_id raw)) = db st
      \/ exists title category code,
           fst (handle_message env st user_id raw)
           = [MovieAdded title category code]).
Proof.
  destruct (handle_message_touched env st user_id raw)
    as [| | | | |code title category]; cbn [fst snd set_pending_movies
      set_user_states db]; try (split; [done|by left]).
  destruct (promote_cases env st user_id code title category)
    as [->|[->|(draft & _ & ->)]]; cbn [fst snd db];
    try (split; [done|by left]).
  split; [|right; eauto].
  by destruct (remove_pending_movie_ok env).
Qed.

(** ** Invariants *)

Lemma NoDup_map_filter {A B : Type} (f : A -> B) (p : A -> bool)
    (l : list A) :
  NoDup (map f l) -> NoDup (map f (List.filter p l)).
Proof.
  induction l as [|x l IH]; [done|]. cbn [map List.filter].
  intros [Hx Hl]%NoDup_cons. destruct (p x); [|auto].
  cbn [map]. apply NoDup_cons. split; [|auto].
  intros Hin%list_elem_of_In.
  apply in_map_iff in Hin as (y & Hy & [Hin _]%filter_In).
  apply Hx, list_elem_of_In, in_map_iff. eauto.
Qed.

Lemma Forall_filter {A : Type} (P : A -> Prop) (p : A -> bool)
    (l : list A) :
  Forall P l -> Forall P (List.filter p l).
Proof.
  intros H. apply List.Forall_forall. intros x [Hx _]%filter_In.
  by apply (proj1 (List.Forall_forall _ _) H).
Qed.

Lemma insert_or_replace_wf {R : Type} (id : R -> Z)
    (conflict : R -> R -> bool) (mk : Z -> R) (t : table R) :
  (forall i, id (mk i) = i) -> table_wf id t ->
  table_wf id (insert_or_replace conflict mk t).
Proof.
  intros Hmk [Hle Hnd]. unfold table_wf, insert_or_replace. cbn [rows seq].
  split.
  - apply Forall_app. split.
    + apply Forall_filter. eapply List.Forall_impl; [|exact Hle].
      cbn. intros. lia.
    + repeat constructor. rewrite Hmk. lia.
  - rewrite map_app. cbn [map]. rewrite Hmk.
    apply NoDup_app. split; [by apply NoDup_map_filter|].
    split; [|apply NoDup_singleton].
    intros i Hi%list_elem_of_In ->%list_elem_of_singleton.
    apply in_map_iff in Hi as (r & Hr & [Hin _]%filter_In).
    pose proof (proj1 (List.Forall_forall _ _) Hle r Hin) as Hid.
    cbn in Hid. lia.
Qed.

Lemma delete_where_wf {R : Type} (id : R -> Z) (p : R -> bool)
    (t : table R) :
  table_wf id t -> table_wf id (delete_where p t).
Proof.
  intros [Hle Hnd]. unfold table_wf, delete_where. cbn [rows seq].
  split; [by apply Forall_filter|by apply NoDup_map_filter].
Qed.

Lemma save_video_wf (ok : bool) (d : DB) (chat_id message_id : Z)
    (file_id caption : pystr) (date : Z) :
  store_wf d ->
  store_wf (snd (save_video ok d chat_id message_id file_id caption date)).
Proof.
  intros (Hv & Hm & Hc & Hp). destruct ok; [|done].
  split; [by apply insert_or_replace_wf|done].
Qed.

Lemma add_pending_movie_wf (ok : bool) (d : DB) (code : pystr)
    (channel_message_id channel_id : Z) (file_id caption : pystr) (t : Z) :
  store_wf d ->
  store_wf (snd (add_pending_movie ok d code channel_message_id channel_id
                   file_id caption t)).
Proof.
  intros (Hv & Hm & Hc & Hp). destruct ok; [|done].
  split; [done|]. split; [done|]. split; [done|].
  by apply insert_or_replace_wf.
Qed.

Lemma remove_pending_movie_wf (ok : bool) (d : DB) (code : pystr) :
  store_wf d -> store_wf (snd (remove_pending_movie ok d code)).
Proof.
  intros (Hv & Hm & Hc & Hp). destruct ok; [|done].
  split; [done|]. split; [done|]. split; [done|].
  by apply delete_where_wf.
Qed.

Lemma add_movie_wf (ok : bool) (d : DB) (code title category : pystr)
    (channel_message_id channel_id : Z) (file_id : pystr) :
  store_wf d ->
  store_wf (snd (add_movie ok d code title category channel_message_id
                   channel_id file_id)).
Proof.
  intros (Hv & Hm & Hc & Hp). destruct ok; [|done].
  split; [done|]. split; [by apply insert_or_replace_wf|].
  split; [|done].
  unfold add_movie, insert_or_replace. cbn [snd movies rows].
  rewrite map_app. cbn [map m_code].
  apply NoDup_app. split; [by apply NoDup_map_filter|].
  split; [|apply NoDup_singleton].
  intros c Hc'%list_elem_of_In ->%list_elem_of_singleton.
  apply in_map_iff in Hc' as (r & Hr & [_ Hkeep]%filter_In).
  apply negb_true_iff in Hkeep. unfold movies_conflict in Hkeep.
  cbn [m_code] in Hkeep. apply orb_false_iff in Hkeep as [_ Hkeep].
  apply eqb_neq in Hkeep. congruence.
Qed.

Lemma promote_wf (env : Env) (st : State) (user_id : Z)
    (code title category : pystr) :
  store_wf (db st) ->
  store_wf (db (snd (promote env st user_id code title category))).
Proof.
  intros Hwf.
  destruct (promote_cases env st user_id code title category)
    as [->|[->|(draft & _ & ->)]]; [done|done|].
  cbn [snd db]. by apply remove_pending_movie_wf, add_movie_wf.
Qed.

(** The handlers keep the store sound: distinct rowids below the counter of
    each table and one catalog row for each code. *)
Theorem handlers_keep_store_wf (env : Env) (st : State) :
  store_wf (db st) ->
  (forall message, store_wf (db (channel_post_handler env st message)))
  /\ (forall user_id data,
        store_wf (db (snd (handle_callback_query st user_id data))))
  /\ (forall user_id raw,
        store_wf (db (snd (handle_message env st user_id raw)))).
Proof.
  intros Hwf. split; [|split].
  - intros message. unfold channel_post_handler.
    destruct (post_video message) as [file_id|]; [|done].
    pose proof (save_video_wf (save_video_ok env) (db st)
                  (post_chat_id message) (post_message_id message) file_id
                  (default [] (post_caption message)) (now env) Hwf) as Hsave.
    destruct (save_video _ _ _ _ _ _ _) as [success db1]. cbn [snd] in Hsave.
    destruct success; [|done].
    destruct (extract_hashtags_as_codes _) as [|c codes]; [done|].
    cbn [db set_db]. generalize (Str.split_ws (c :: codes)).
    intros l. revert db1 Hsave.
    induction l as [|code l IH]; intros db1 Hsave; [done|].
    cbn [foldl]. apply IH. by apply add_pending_movie_wf.
  - intros user_id data. unfold handle_callback_query.
    repeat case_match; done.
  - intros user_id raw.
    destruct (handle_message_touched env st user_id raw); try done.
    by apply promote_wf.
Qed.

Lemma handlers_keep_store_wf_witness :
  store_wf (db Sample.indexed)
  /\ store_wf (db (snd (handle_message (Sample.env Sample.awaiting_category)
                          Sample.awaiting_category 7 (u "📁 Drama")))).
Proof.
  assert (Hstart : store_wf (db Sample.start)).
  { repeat split; constructor. }
  destruct (handlers_keep_store_wf (quiet init_db 100) Sample.start Hstart)
    as (Hpost & _ & _).
  split; [apply Hpost|].
  assert (Hcat : store_wf (db Sample.awaiting_category)).
  { change (db Sample.awaiting_category) with (db Sample.indexed).
    apply Hpost. }
  destruct (handlers_keep_store_wf (Sample.env Sample.awaiting_category)
              Sample.awaiting_category Hcat) as (_ & _ & Hmsg).
  apply Hmsg.
Defined.

Lemma handle_message_cursors_positive (env : Env) (st : State)
    (user_id : Z) (raw : pystr) :
  cursors_positive st ->
  cursors_positive (snd (handle_message env st user_id raw)).
Proof.
  intros Hpos other cur.
  destruct (handle_message_touched env st user_id raw)
    as [| |replies genre|replies old new Hold Hg Hp|replies
        |code title category];
    cbn [snd set_pending_movies set_user_states user_states];
    try apply Hpos.
  - destruct (decide (other = user_id)) as [->|Hne].
    + rewrite lookup_insert_eq. by intros [= <-].
    + rewrite lookup_insert_ne by done. apply Hpos.
  - destruct (decide (other = user_id)) as [->|Hne].
    + rewrite lookup_insert_eq. intros [= <-].
      specialize (Hpos user_id old Hold). lia.
    + rewrite lookup_insert_ne by done. apply Hpos.
  - destruct (decide (other = user_id)) as [->|Hne].
    + by rewrite lookup_delete_eq.
    + rewrite lookup_delete_ne by done. apply Hpos.
  - destruct (promote_cases env st user_id code title category)
      as [->|[->|(draft & _ & ->)]]; apply Hpos.
Qed.

(** The handlers keep every browse cursor on page 1 or later. *)
Theorem handlers_keep_cursors_positive (env : Env) (st : State) :
  cursors_positive st ->
  (forall message, cursors_positive (channel_post_handler env st message))
  /\ (forall user_id data,
        cursors_positive (snd (handle_callback_query st user_id data)))
  /\ (forall user_id raw,
        cursors_positive (snd (handle_message env st user_id raw))).
Proof.
  intros Hpos. split; [|split].
  - intros message. unfold channel_post_handler.
    repeat case_match; done.
  - intros user_id data. unfold handle_callback_query.
    repeat case_match; done.
  - intros user_id raw. by apply handle_message_cursors_positive.
Qed.

Lemma handlers_keep_cursors_positive_witness :
  cursors_positive
    (snd (handle_message (Sample.env Sample.browsing) Sample.browsing 8
            BTN_PREVIOUS)).
Proof.
  assert (Hpos : cursors_positive Sample.browsing).
  { intros user_id cur. vm_compute.
    destruct user_id as [|p|p]; try discriminate.
    repeat (destruct p as [p|p|]; try discriminate).
    intros [= <-]. vm_compute. discriminate. }
  apply (handlers_keep_cursors_positive (Sample.env Sample.browsing)
           Sample.browsing Hpos).
Defined.

(** The handlers keep a title in every session past the title step. *)
Theorem handlers_keep_sessions_titled (env : Env) (st : State) :
  sessions_titled st ->
  (forall message, sessions_titled (channel_post_handler env st message))
  /\ (forall user_id data,
        sessions_titled (snd (handle_callback_query st user_id data)))
  /\ (forall user_id raw,
        sessions_titled (snd (handle_message env st user_id raw))).
Proof.
  intros Hinv. split; [|split].
  - intros message. unfold channel_post_handler.
    repeat case_match; done.
  - intros user_id data other movie_data. unfold handle_callback_query.
    repeat case_match; try apply Hinv.
    cbn [snd set_pending_movies pending_movies].
    destruct (decide (other = user_id)) as [->|Hne].
    + rewrite lookup_insert_eq. by intros [= <-].
    + rewrite lookup_insert_ne by done. apply Hinv.
  - intros user_id raw other movie_data.
    destruct (handle_message_touched env st user_id raw)
      as [|replies old new Hold Hstep Htitle| | |
          |code title category];
      cbn [snd set_pending_movies set_user_states pending_movies];
      try apply Hinv.
    + destruct (decide (other = user_id)) as [->|Hne].
      * rewrite lookup_insert_eq. intros [= <-] _.
        destruct Htitle as [Ht|[Ht Hs]]; [done|]. rewrite Ht.
        apply (Hinv user_id old Hold). by rewrite Hs.
      * rewrite lookup_insert_ne by done. apply Hinv.
    + destruct (promote_cases env st user_id code title category)
        as [->|[->|(draft & _ & ->)]]; try apply Hinv.
      cbn [snd pending_movies].
      destruct (decide (other = user_id)) as [->|Hne].
      * by rewrite lookup_delete_eq.
      * rewrite lookup_delete_ne by done. apply Hinv.
Qed.

Lemma handlers_keep_sessions_titled_witness :
  sessions_titled Sample.awaiting_title
  /\ sessions_titled Sample.awaiting_category.
Proof.
  assert (Hstart : sessions_titled Sample.indexed).
  { assert (E : pending_movies Sample.indexed = ∅)
      by (vm_compute; reflexivity).
    intros user_id movie_data. by rewrite E, lookup_empty. }
  destruct (handlers_keep_sessions_titled (Sample.env Sample.indexed)
              Sample.indexed Hstart) as (_ & Hpick & _).
  pose proof (Hpick 7 (u "add_movie_A12")) as Htitle.
  split; [exact Htitle|].
  destruct (handlers_keep_sessions_titled (Sample.env Sample.awaiting_title)
              Sample.awaiting_title Htitle) as (_ & _ & Hmsg).
  apply Hmsg.
Defined.

Lemma try_in_order_results (d : DB) (attempts : list Query) :
  snd (try_in_order d attempts) = []
  \/ exists r, snd (try_in_order d attempts) = [r].
Proof.
  induction attempts as [|q l IH]; [by left|]. cbn [try_in_order].
  destruct (hit d q); [right; eauto|].
  by destruct (try_in_order d l).
Qed.

Lemma exact_lookup_results (view d : DB) (code : pystr) :
  snd (exact_lookup view d code) = []
  \/ exists r, snd (exact_lookup view d code) = [r].
Proof.
  assert (Hscan : forall q1,
    snd (let '(q2, results) :=
           scan_channel_results view code
             (search_channel_by_hashtag d (hashtag_of code)) in
         (q1 ++ QChannel (hashtag_of code) :: q2, results))
    = snd (scan_channel_results view code
             (search_channel_by_hashtag d (hashtag_of code)))).
  { intros q1. by destruct (scan_channel_results _ _ _). }
  unfold exact_lookup.
  destruct (get_movie_by_code d code) as [movie|];
    [destruct (_validate_movie_code view movie code)|];
    [right; eauto| |];
    rewrite Hscan, scan_channel_results_snd;
    destruct (find _ _); eauto.
Qed.

Lemma prefix_fallback_results (d : DB) (code : pystr) :
  snd (prefix_fallback d code) = []
  \/ exists r, snd (prefix_fallback d code) = [r].
Proof.
  destruct (prefix_guess_applies code) eqn:Ha.
  - rewrite prefix_fallback_try by done. apply try_in_order_results.
  - unfold prefix_fallback. rewrite Ha. by left.
Qed.

Lemma search_reply_cases (view db : DB) (code : pystr) :
  snd (_search_and_send_results view db code) = NotFound
  \/ exists r,
       snd (_search_and_send_results view db code) = SearchResults [r] code.
Proof.
  rewrite search_unfold.
  destruct (exact_lookup_results view db code) as [->|[r ->]];
    [|right; eauto].
  destruct (prefix_fallback_results db code) as [->|[r ->]];
    [by left|right; eauto].
Qed.

Lemma search_reply_benign (view d : DB) (code : pystr) (r : Reply) :
  snd (_search_and_send_results view d code) = r ->
  r <> GenreSelectionError /\ r <> NewCategoryError /\ r <> ProcessingError.
Proof.
  intros <-.
  destruct (search_reply_cases view d code) as [->|[r ->]]; done.
Qed.

Lemma categories_command_benign (d : DB) (r : Reply) :
  categories_command d = r ->
  r <> GenreSelectionError /\ r <> NewCategoryError /\ r <> ProcessingError.
Proof.
  intros <-. unfold categories_command. by destruct (get_categories d).
Qed.

Lemma show_movies_in_genre_benign (d : DB) (genre : pystr) (page : Z)
    (r : Reply) :
  show_movies_in_genre d genre page = r ->
  r <> GenreSelectionError /\ r <> NewCategoryError /\ r <> ProcessingError.
Proof.
  intros <-. unfold show_movies_in_genre.
  destruct (get_movies_by_category d genre page 8) as [[|m l] total]; done.
Qed.

(** With a title in every session past the title step, no message is
    answered with one of the replies of the [except] branches that a
    missing ['title'] key leads to. *)
Theorem titled_sessions_never_fail (env : Env) (st : State) (user_id : Z)
    (raw : pystr) :
  sessions_titled st ->
  ~ In GenreSelectionError (fst (handle_message env st user_id raw))
  /\ ~ In NewCategoryError (fst (handle_message env st user_id raw))
  /\ ~ In ProcessingError (fst (handle_message env st user_id raw)).
Proof.
  intros Hinv.
  assert (Hpromote : forall code title category r,
            In r (fst (promote env st user_id code title category)) ->
            r = DraftMissing \/ (exists t c, r = AddFailed t c)
            \/ exists t c k, r = MovieAdded t c k).
  { intros code title category r.
    destruct (promote_cases env st user_id code title category)
      as [->|[->|(draft & _ & ->)]]; intros [<-|[]]; eauto 6. }
  assert (Hall : forall r, In r (fst (handle_message env st user_id raw)) ->
            r <> GenreSelectionError /\ r <> NewCategoryError
            /\ r <> ProcessingError).
  { intros r. unfold handle_message, pending_input, in_dict.
    repeat case_match; subst; cbn [fst]; try congruence;
      try match goal with
          | H : _ && false = true |- _ =>
            rewrite andb_false_r in H; discriminate
          end;
      try match goal with
          | Hs : _ !! _ = Some ?s, Ht : s_title ?s = None |- _ =>
            destruct (Hinv _ s Hs) as [t Ht']; congruence
          end;
      try (intros Hin;
           apply Hpromote in Hin as [->|[(? & ? & ->)|(? & ? & ? & ->)]];
           done);
      intros [Hin|[]];
      first [ by subst r
            | by apply search_reply_benign in Hin
            | by apply categories_command_benign in Hin
            | by apply show_movies_in_genre_benign in Hin ]. }
  repeat split; intros Hin%Hall; tauto.
Qed.

Lemma titled_sessions_never_fail_witness :
  ~ In GenreSelectionError
      (fst (handle_message (Sample.env Sample.awaiting_category)
              Sample.awaiting_category 7 (u "📁 Drama"))).
Proof.
  assert (Hinv : sessions_titled Sample.awaiting_category).
  { intros user_id movie_data. vm_compute.
    destruct user_id as [|p|p]; try discriminate.
    repeat (destruct p as [p|p|]; try discriminate).
    intros [= <-] _. eexists. reflexivity. }
  apply (titled_sessions_never_fail (Sample.env Sample.awaiting_category)
           Sample.awaiting_category 7 (u "📁 Drama") Hinv).
Defined.

(** ** What the search returns *)

Lemma search_channel_in_rows (d : DB) (hashtag : pystr) (v : Video) :
  In v (search_channel_by_hashtag d hashtag) -> In v (rows (videos d)).
Proof.
  unfold search_channel_by_hashtag. intros Hin.
  eapply Permutation_in in Hin; [|apply order_by_perm].
  by apply filter_In in Hin as [Hin _].
Qed.

Lemma hit_sound (d : DB) (q : Query) (r : Result) :
  hit d q = Some r ->
  match q, r with
  | QMovie c, RMovie m => In m (rows (movies d)) /\ m_code m = c
  | QChannel h, RVideo v =>
    In v (rows (videos d)) /\ codes_contain h v = true
  | _, _ => False
  end.
Proof.
  destruct q as [c|h]; cbn [hit].
  - unfold get_movie_by_code.
    destruct (find _ _) as [m|] eqn:Hf; [|done]. intros [= <-].
    apply find_some in Hf as [Hin Hc]. by apply eqb_eq in Hc.
  - destruct (find _ _) as [v|] eqn:Hf; [|done]. intros [= <-].
    apply find_some in Hf as [Hin Hc].
    split; [by eapply search_channel_in_rows|done].
Qed.

Lemma try_in_order_sound (d : DB) (attempts : list Query) :
  snd (try_in_order d attempts) = []
  \/ exists q r,
       In q attempts /\ hit d q = Some r
       /\ snd (try_in_order d attempts) = [r].
Proof.
  induction attempts as [|q l IH]; [by left|]. cbn [try_in_order].
  destruct (hit d q) as [r|] eqn:Hq.
  - right. exists q, r. split; [by left|done].
  - destruct (try_in_order d l) as [qs results]. cbn [snd] in *.
    destruct IH as [->|(q' & r & Hin & Hhit & ->)]; [by left|].
    right. exists q', r. split; [by right|done].
Qed.

(** When nothing interferes with the store during the search, the search
    answers [NotFound] or sends exactly one result.  A catalog entry it
    sends is a row of [movies] whose code is the searched code or one of the
    eight prefixes followed by it; a channel video it sends is a row of
    [videos] whose [codes] literally contain the marker followed by the
    searched code, or by a prefix and the searched code. *)
Theorem search_result_sound (db : DB) (code : pystr) :
  snd (_search_and_send_results db db code) = NotFound
  \/ exists r,
       snd (_search_and_send_results db db code) = SearchResults [r] code
       /\ match r with
          | RMovie m =>
            In m (rows (movies db))
            /\ (m_code m = code
                \/ exists p, In p prefixes /\ m_code m = p ++ code)
          | RVideo v =>
            In v (rows (videos db))
            /\ (codes_contain (hashtag_of code) v = true
                \/ exists p,
                     In p prefixes
                     /\ codes_contain (hashtag_of (p ++ code)) v = true)
          end.
Proof.
  rewrite search_unfold.
  destruct (snd (exact_lookup db db code)) as [|r rs] eqn:He.
  - destruct (prefix_guess_applies code) eqn:Ha.
    2:{ left. unfold prefix_fallback. by rewrite Ha. }
    rewrite prefix_fallback_try by done.
    destruct (try_in_order_sound db
                (map (fun p => QMovie (p ++ code)) prefixes
                 ++ map (fun p => QChannel (hashtag_of (p ++ code)))
                      prefixes))
      as [->|(q & r & Hin & Hhit & ->)]; [by left|].
    right. exists r. split; [done|].
    apply hit_sound in Hhit.
    apply in_app_or in Hin as [Hin|Hin];
      apply in_map_iff in Hin as (p & <- & Hp);
      destruct r as [m|v]; try done;
      destruct Hhit as [Hrow Hcode]; split; eauto.
  - right.
    assert (Hone : rs = [] /\
      match r with
      | RMovie m => In m (rows (movies db)) /\ m_code m = code
      | RVideo v =>
        In v (rows (videos db)) /\ codes_contain (hashtag_of code) v = true
      end).
    { revert He. unfold exact_lookup.
      assert (Hscan : forall q1,
        snd (let '(q2, results) :=
               scan_channel_results db code
                 (search_channel_by_hashtag db (hashtag_of code)) in
             (q1 ++ QChannel (hashtag_of code) :: q2, results))
        = snd (scan_channel_results db code
                 (search_channel_by_hashtag db (hashtag_of code)))).
      { intros q1. by destruct (scan_channel_results _ _ _). }
      assert (Hvideo :
        snd (scan_channel_results db code
               (search_channel_by_hashtag db (hashtag_of code))) = r :: rs ->
        rs = [] /\
        match r with
        | RMovie m => In m (rows (movies db)) /\ m_code m = code
        | RVideo v =>
          In v (rows (videos db))
          /\ codes_contain (hashtag_of code) v = true
        end).
      { rewrite scan_channel_results_snd.
        destruct (find _ _) as [v|] eqn:Hf; [|done]. intros [= <- <-].
        apply find_some in Hf as [Hin [Hc _]%andb_true_iff].
        split; [done|]. split; [by eapply search_channel_in_rows|done]. }
      unfold get_movie_by_code.
      destruct (find _ (rows (movies db))) as [movie|] eqn:Hf.
      - destruct (_validate_movie_code db movie code).
        + intros [= <- <-]. split; [done|].
          apply find_some in Hf as [Hin Hc]. by apply eqb_eq in Hc.
        + rewrite Hscan. exact Hvideo.
      - rewrite Hscan. exact Hvideo. }
    destruct Hone as [-> Hr]. exists r. split; [done|].
    destruct r; destruct Hr; split; eauto.
Qed.

Lemma validate_movie_same_store (d : DB) (code : pystr) (movie : Movie) :
  get_movie_by_code d code = Some movie ->
  _validate_movie_code d movie code = true.
Proof.
  intros Hm. unfold _validate_movie_code. rewrite Hm.
  by rewrite !eqb_refl.
Qed.

Lemma exact_lookup_quiet (db : DB) (code : pystr) :
  snd (exact_lookup db db code)
  = match get_movie_by_code db code with
    | Some movie => [RMovie movie]
    | None =>
      match find (codes_contain (hashtag_of code))
              (newest_first (rows (videos db))) with
      | Some v => [RVideo v]
      | None => []
      end
    end.
Proof.
  unfold exact_lookup.
  destruct (get_movie_by_code db code) as [movie|] eqn:Hm.
  - by rewrite (validate_movie_same_store db code movie Hm).
  - destruct (scan_channel_results db code
                (search_channel_by_hashtag db (hashtag_of code)))
      as [q2 results] eqn:Hs.
    cbn [snd]. change results with (snd (q2, results)). rewrite <- Hs.
    rewrite scan_channel_results_snd.
    rewrite (find_ext_in _
               (fun v => codes_contain (hashtag_of code) v && true)).
    + rewrite (find_in_search db (hashtag_of code) (fun _ => true)).
      by erewrite find_ext_in by (intros; apply andb_true_r).
    + intros v Hv. by rewrite (validate_channel_same_store db code v Hv).
Qed.

(** When the store stays as it is between the reads, the validation re-reads
    change nothing: the search answers with the catalog entry of the code if
    there is one, otherwise with the newest channel video whose [codes]
    contain the marker-prefixed code, and only without both does it come to
    the prefix guess. *)
Theorem search_same_store (db : DB) (code : pystr) :
  snd (_search_and_send_results db db code)
  = match get_movie_by_code db code with
    | Some movie => SearchResults [RMovie movie] code
    | None =>
      match find (codes_contain (hashtag_of code))
              (newest_first (rows (videos db))) with
      | Some v => SearchResults [RVideo v] code
      | None =>
        match snd (prefix_fallback db code) with
        | [] => NotFound
        | results => SearchResults results code
        end
      end
    end.
Proof.
  rewrite search_unfold, exact_lookup_quiet.
  destruct (get_movie_by_code db code); [done|].
  by destruct (find _ _).
Qed.

(** The third test of line 526 never decides: a text is searched as a code
    exactly when it is numeric and at most 10 characters long. *)
Theorem is_code_search_iff (text : pystr) :
  is_code_search text = (length text <=? 10)%nat && Str.isdigit text.
Proof.
  unfold is_code_search.
  destruct (Str.isdigit text) eqn:Hd; [|by rewrite !andb_false_r].
  destruct (isdigit_cons _ Hd) as (c & r & -> & Hc).
  by rewrite (digit_not_mark c r Hc), andb_true_r.
Qed.

(** ** Pages of a category *)

Lemma leb_total (a b : pystr) : Str.leb a b = false -> Str.leb b a = true.
Proof.
  revert b. induction a as [|x a IH]; intros [|y b]; cbn [Str.leb];
    try done.
  intros [Hlt Heq]%orb_false_iff.
  apply N.ltb_ge in Hlt.
  destruct (N.eqb_spec x y) as [->|Hne].
  - rewrite N.eqb_refl. cbn [andb] in *. rewrite (IH b Heq).
    apply orb_true_r.
  - assert ((y <? x)%N = true) as -> by (apply N.ltb_lt; lia). done.
Qed.

Lemma leb_trans (a b c : pystr) :
  Str.leb a b = true -> Str.leb b c = true -> Str.leb a c = true.
Proof.
  revert b c. induction a as [|x a IH]; intros [|y b] [|z c];
    cbn [Str.leb]; try done.
  intros [Hxy|[Hxy Hab]%andb_true_iff]%orb_true_iff
         [Hyz|[Hyz Hbc]%andb_true_iff]%orb_true_iff;
    rewrite ?N.ltb_lt, ?N.eqb_eq in *; subst;
    apply orb_true_iff.
  - left. apply N.ltb_lt. lia.
  - left. by apply N.ltb_lt.
  - left. by apply N.ltb_lt.
  - right. rewrite N.eqb_refl. cbn [andb]. eauto.
Qed.

Lemma code_le_total (a b : Movie) : code_le a b = false -> code_le b a = true.
Proof. apply leb_total. Qed.

Lemma code_le_trans (a b c : Movie) :
  code_le a b = true -> code_le b c = true -> code_le a c = true.
Proof. apply leb_trans. Qed.

Lemma get_movies_by_category_unfold (d : DB) (category : pystr)
    (page per_page : Z) :
  0 < per_page -> 1 <= page ->
  fst (get_movies_by_category d category page per_page)
  = take (Z.to_nat per_page)
      (drop (Z.to_nat (page - 1) * Z.to_nat per_page)
         (order_by code_le
            (List.filter (fun m => Str.eqb (m_category m) category)
               (rows (movies d))))).
Proof.
  intros Hpp Hpage. unfold get_movies_by_category, limit_offset.
  cbn [fst]. assert ((per_page <? 0) = false) as -> by lia.
  by rewrite Z2Nat.inj_mul by lia.
Qed.

Lemma order_by_length {R : Type} (le : R -> R -> bool) (l : list R) :
  length (order_by le l) = length l.
Proof. apply Permutation_length, order_by_perm. Qed.

Lemma page_shows_iff (d : DB) (category : pystr) (page per_page : Z) :
  0 < per_page -> 1 <= page ->
  fst (get_movies_by_category d category page per_page) <> []
  <-> page <= ceil_div (total_count d category) per_page.
Proof.
  intros Hpp Hpage.
  rewrite get_movies_by_category_unfold by done.
  set (l := order_by code_le _).
  assert (Hlen : Z.of_nat (length l) = total_count d category).
  { unfold l, total_count. by rewrite order_by_length. }
  assert (Hceil : page <= ceil_div (total_count d category) per_page
                  <-> (page - 1) * per_page < total_count d category).
  { unfold ceil_div. split; intros H.
    - Z.div_mod_to_equations. nia.
    - Z.div_mod_to_equations. nia. }
  rewrite Hceil, <- Hlen.
  set (k := (Z.to_nat (page - 1) * Z.to_nat per_page)%nat).
  assert (Hk : Z.of_nat k = (page - 1) * per_page).
  { unfold k. rewrite Nat2Z.inj_mul, !Z2Nat.id by lia. done. }
  rewrite <- Hk. split.
  - intros Hne. destruct (decide (k < length l)%nat); [lia|].
    exfalso. apply Hne. rewrite drop_ge by lia. apply take_nil.
  - intros Hlt Hnil.
    assert (Hl : length (take (Z.to_nat per_page) (drop k l)) = 0%nat)
      by (by rewrite Hnil).
    rewrite length_take, length_drop in Hl. lia.
Qed.

(** For a positive page size, page [p >= 1] of a category shows an entry
    exactly when [p] is at most [ceil(total_count / per_page)]; the count
    returned does not depend on the page. *)
Theorem get_movies_by_category_page_range (d : DB) (category : pystr)
    (page per_page : Z) :
  0 < per_page -> 1 <= page ->
  (fst (get_movies_by_category d category page per_page) <> []
   <-> page <= ceil_div (total_count d category) per_page)
  /\ snd (get_movies_by_category d category page per_page)
     = total_count d category.
Proof. intros Hpp Hpage. split; [by apply page_shows_iff|done]. Qed.

Lemma get_movies_by_category_page_range_witness :
  fst (get_movies_by_category (db Sample.committed) (u "Drama") 1 8) <> []
  /\ ~ fst (get_movies_by_category (db Sample.committed) (u "Drama") 2 8)
       <> [].
Proof.
  split.
  - apply (get_movies_by_category_page_range (db Sample.committed)
             (u "Drama") 1 8); [lia|lia|]. vm_compute. discriminate.
  - intros H.
    apply (get_movies_by_category_page_range (db Sample.committed)
             (u "Drama") 2 8) in H; [|lia|lia].
    vm_compute in H. by apply H.
Defined.

Lemma pages_take (d : DB) (category : pystr) (per_page : Z) (n : nat) :
  0 < per_page ->
  flat_map (fun p => fst (get_movies_by_category d category (Z.of_nat p)
                            per_page)) (List.seq 1 n)
  = take (n * Z.to_nat per_page)
      (order_by code_le
         (List.filter (fun m => Str.eqb (m_category m) category)
            (rows (movies d)))).
Proof.
  intros Hpp. induction n as [|n IH]; [done|].
  rewrite seq_S, flat_map_app, IH. cbn [flat_map].
  rewrite app_nil_r, get_movies_by_category_unfold by lia.
  replace (Z.to_nat (Z.of_nat (1 + n) - 1)) with n by lia.
  rewrite take_take_drop. f_equal. lia.
Qed.

(** The pages 1 to [n] of a category, once [n] pages have room for all its
    entries, show each entry of the category once, in the order of the
    codes. *)
Theorem get_movies_by_category_pages_cover (d : DB) (category : pystr)
    (per_page : Z) (n : nat) :
  0 < per_page ->
  total_count d category <= Z.of_nat n * per_page ->
  let pages :=
    flat_map (fun p => fst (get_movies_by_category d category (Z.of_nat p)
                              per_page)) (List.seq 1 n) in
  Permutation pages
    (List.filter (fun m => Str.eqb (m_category m) category)
       (rows (movies d)))
  /\ StronglySorted (fun a b => Str.leb (m_code a) (m_code b) = true) pages.
Proof.
  intros Hpp Hn. cbv zeta. rewrite pages_take by done.
  rewrite take_ge.
  - split; [apply order_by_perm|].
    apply (order_by_ordered code_le code_le_total code_le_trans).
  - rewrite order_by_length. unfold total_count in Hn.
    apply Nat2Z.inj_le. rewrite Nat2Z.inj_mul, Z2Nat.id by lia. lia.
Qed.

Lemma get_movies_by_category_pages_cover_witness :
  Permutation
    (flat_map (fun p => fst (get_movies_by_category (db Sample.committed)
                               (u "Drama") (Z.of_nat p) 8)) (List.seq 1 1))
    (List.filter (fun m => Str.eqb (m_category m) (u "Drama"))
       (rows (movies (db Sample.committed)))).
Proof.
  apply (get_movies_by_category_pages_cover (db Sample.committed)
           (u "Drama") 8 1); [lia|]. vm_compute. discriminate.
Defined.

(** An accepted request for the next page shows entries: from a cursor on
    page [p >= 1] of a named category, before the last page, the answer is
    page [p + 1] with at least one entry, and the cursor moves to it. *)
Theorem next_page_shows_entries (env : Env) (st : State) (user_id : Z)
    (cur : Cursor) :
  user_states st !! user_id = Some cur ->
  c_genre cur <> [] ->
  1 <= c_page cur ->
  c_page cur < ceil_div (total_count (db st) (c_genre cur)) 8 ->
  exists shown,
    shown <> []
    /\ shown = fst (get_movies_by_category (db st) (c_genre cur)
                      (c_page cur + 1) 8)
    /\ handle_message env st user_id BTN_NEXT
       = ([GenrePage (c_genre cur) (c_page cur + 1) shown
             (total_count (db st) (c_genre cur))
             (ceil_div (total_count (db st) (c_genre cur)) 8)],
          set_user_states st
            (<[user_id := {| c_genre := c_genre cur;
                             c_page := c_page cur + 1 |}]>
               (user_states st))).
Proof.
  intros Hcur Hg Hpage Hlast.
  eexists. split; [|split; [reflexivity|]].
  - apply page_shows_iff; lia.
  - assert (Hshown : fst (get_movies_by_category (db st) (c_genre cur)
                            (c_page cur + 1) 8) <> [])
      by (apply page_shows_iff; lia).
    button_text BTN_NEXT. rewrite Hcur.
    destruct (c_genre cur) as [|g0 g] eqn:Eg; [done|].
    rewrite total_count_get_movies, ceil_div_8.
    apply Z.ltb_lt in Hlast. rewrite Hlast.
    unfold show_movies_in_genre.
    destruct (get_movies_by_category (db st) (g0 :: g) (c_page cur + 1) 8)
      as [[|m shown] total] eqn:Hget; [done|].
    change total with
      (snd (m :: shown, total)). rewrite <- Hget.
    by rewrite total_count_get_movies, ceil_div_8.
Qed.

Lemma next_page_shows_entries_witness :
  exists shown,
    shown <> []
    /\ shown = fst (get_movies_by_category (db Shelf.browsing) (u "Drama")
                      2 8)
    /\ handle_message (quiet Shelf.nine_dramas 300) Shelf.browsing 8 BTN_NEXT
       = ([GenrePage (u "Drama") 2 shown 9 2],
          set_user_states Shelf.browsing
            (<[8 := {| c_genre := u "Drama"; c_page := 2 |}]>
               (user_states Shelf.browsing))).
Proof.
  destruct (next_page_shows_entries (quiet Shelf.nine_dramas 300)
              Shelf.browsing 8 {| c_genre := u "Drama"; c_page := 1 |})
    as (shown & Hne & Hshown & Hrun).
  - vm_compute. reflexivity.
  - vm_compute. discriminate.
  - vm_compute. discriminate.
  - vm_compute. reflexivity.
  - exists shown. split; [done|]. split; [exact Hshown|].
    rewrite Hrun. vm_compute. reflexivity.
Defined.

(** ** The categories *)

(** [get_categories] lists each category that has an entry once, in
    ascending order, and [categories_command] answers that there is no
    category exactly when the catalog is empty. *)
Theorem get_categories_spec (d : DB) :
  NoDup (get_categories d)
  /\ StronglySorted (fun a b => Str.leb a b = true) (get_categories d)
  /\ (forall category,
        In category (get_categories d)
        <-> exists m, In m (rows (movies d)) /\ m_category m = category)
  /\ (categories_command d = NoCategories <-> rows (movies d) = []).
Proof.
  assert (Hin : forall category,
            In category (get_categories d)
            <-> exists m, In m (rows (movies d)) /\ m_category m = category).
  { intros category. unfold get_categories. split.
    - intros Hc. eapply Permutation_in in Hc; [|apply order_by_perm].
      rewrite <- list_elem_of_In, elem_of_remove_dups, list_elem_of_In in Hc.
      apply in_map_iff in Hc as (m & Hm & Hc). eauto.
    - intros (m & Hm & <-).
      eapply Permutation_in; [symmetry; apply order_by_perm|].
      rewrite <- list_elem_of_In, elem_of_remove_dups, list_elem_of_In.
      by apply in_map. }
  split; [|split; [|split; [exact Hin|]]].
  - unfold get_categories. rewrite order_by_perm. apply NoDup_remove_dups.
  - apply (order_by_ordered Str.leb leb_total leb_trans).
  - unfold categories_command.
    destruct (get_categories d) as [|c l] eqn:Hc.
    + split; [|done]. intros _.
      destruct (rows (movies d)) as [|m ms] eqn:Hrows; [done|].
      exfalso. apply (proj2 (Hin (m_category m))). by exists m; split; [left|].
    + split; [done|]. intros Hrows. exfalso.
      destruct (proj1 (Hin c)) as (m & Hm & _); [by left|].
      by rewrite Hrows in Hm.
Qed.

(** ** More on strings *)

Lemma space_cases (c : N) :
  Unicode.isspace_cp c = true ->
  In c [9; 10; 11; 12; 13; 28; 29; 30; 31; 32; 133; 160; 5760; 8192; 8193;
        8194; 8195; 8196; 8197; 8198; 8199; 8200; 8201; 8202; 8232; 8233;
        8239; 8287; 12288]%N.
Proof.
  unfold Unicode.isspace_cp, Unicode.in_ranges, Unicode.space_ranges.
  cbn [existsb fst snd].
  rewrite !orb_true_iff, !andb_true_iff, !N.leb_le. cbn [In]. lia.
Qed.

Lemma word_not_space (c : N) :
  Unicode.is_word_cp c = true -> Unicode.isspace_cp c = false.
Proof.
  intros Hw. destruct (Unicode.isspace_cp c) eqn:Hs; [|done].
  apply space_cases in Hs. cbn [In] in Hs.
  repeat (destruct Hs as [<-|Hs]; [vm_compute in Hw; discriminate|]).
  destruct Hs.
Qed.

Lemma hash_not_space : Unicode.isspace_cp 35 = false.
Proof. vm_compute. reflexivity. Qed.

Lemma split_ws_from_token (cur t rest : pystr) :
  Forall (fun c => Unicode.isspace_cp c = false) t ->
  Str.split_ws_from cur (t ++ rest) = Str.split_ws_from (rev t ++ cur) rest.
Proof.
  intros Ht. revert cur. induction Ht as [|c t Hc _ IH]; intros cur; [done|].
  cbn [app Str.split_ws_from]. rewrite Hc, IH. cbn [rev].
  by rewrite <- app_assoc.
Qed.

Lemma split_ws_join (tokens : list pystr) :
  Forall (fun t => t <> []
                   /\ Forall (fun c => Unicode.isspace_cp c = false) t)
    tokens ->
  Str.split_ws (Str.join (u " ") tokens) = tokens.
Proof.
  unfold Str.split_ws.
  induction 1 as [|t tokens [Hne Ht] Hrest IH]; [done|].
  assert (Hlast : Str.split_ws_from [] t = [t]).
  { rewrite <- (app_nil_r t) at 1. rewrite split_ws_from_token by done.
    rewrite app_nil_r. cbn [Str.split_ws_from].
    destruct (rev t) eqn:Hr; [|by rewrite <- Hr, rev_involutive].
    apply (f_equal (@rev N)) in Hr. rewrite rev_involutive in Hr. done. }
  destruct tokens as [|t' tokens]; [exact Hlast|].
  change (Str.join (u " ") (t :: t' :: tokens))
    with (t ++ 32%N :: Str.join (u " ") (t' :: tokens)).
  rewrite split_ws_from_token by done. rewrite app_nil_r.
  cbn [Str.split_ws_from].
  assert (Unicode.isspace_cp 32 = true) as -> by (vm_compute; reflexivity).
  destruct (rev t) eqn:Hr.
  - apply (f_equal (@rev N)) in Hr. rewrite rev_involutive in Hr. done.
  - rewrite <- Hr, rev_involutive. by rewrite IH.
Qed.

Lemma contains_cons_none (a : N) (p s : pystr) :
  Forall (fun c => c <> a) s -> Str.contains (a :: p) s = false.
Proof.
  induction 1 as [|c s Hc _ IH]; [done|].
  cbn [Str.contains Str.startswith]. rewrite IH.
  by assert ((a =? c)%N = false) as -> by (apply N.eqb_neq; congruence).
Qed.

Lemma replace_from_none (old new s : pystr) :
  Str.contains old s = false -> Str.replace_from old new 0 s = s.
Proof.
  induction s as [|c s IH]; [done|].
  cbn [Str.contains]. intros [Hs Hc]%orb_false_iff.
  cbn [Str.replace_from]. rewrite Hs. by rewrite IH.
Qed.

Lemma replace_from_skip (old new x s : pystr) :
  Str.replace_from old new (length x) (x ++ s) = Str.replace_from old new 0 s.
Proof.
  induction x as [|c x IH]; [done|]. by cbn [length app Str.replace_from].
Qed.

Lemma startswith_app (p s : pystr) : Str.startswith p (p ++ s) = true.
Proof.
  induction p as [|a p IH]; [done|]. cbn [app Str.startswith].
  by rewrite N.eqb_refl, IH.
Qed.

(** Removing a prefix [old] from [old ++ s], where [old] occurs nowhere in
    [s], leaves [s]. *)
Lemma replace_prefix (a : N) (o s : pystr) :
  Str.contains (a :: o) s = false ->
  Str.replace (a :: o) [] ((a :: o) ++ s) = s.
Proof.
  intros Hs. unfold Str.replace.
  change ((a :: o) ++ s) with (a :: (o ++ s)).
  cbn [Str.replace_from].
  change (a :: (o ++ s)) with ((a :: o) ++ s). rewrite startswith_app.
  replace (length (a :: o) - 1)%nat with (length o) by (cbn [length]; lia).
  cbn [app]. rewrite replace_from_skip.
  by apply replace_from_none.
Qed.

Lemma findall_token_shape (skip : nat) (s : pystr) :
  Forall (fun t => exists w,
            t = 35%N :: w /\ w <> []
            /\ Forall (fun c => Unicode.is_word_cp c = true) w)
    (Re.findall_from skip s).
Proof.
  revert skip. induction s as [|c s IH]; intros skip; [constructor|].
  cbn [Re.findall_from]. destruct skip as [|k]; [|apply IH].
  destruct (Re.match_hashtag (c :: s)) as [m|] eqn:Hm; [|apply IH].
  constructor; [|apply IH].
  apply match_hashtag_spec in Hm as (w & rest & _ & -> & Hne & Hw & _).
  eauto.
Qed.

Lemma word_not_hash (w : pystr) :
  Forall (fun c => Unicode.is_word_cp c = true) w ->
  Forall (fun c => c <> 35%N) w.
Proof.
  intros H. eapply List.Forall_impl; [|exact H]. cbv beta.
  intros c Hc ->. rewrite hash_not_word in Hc. discriminate.
Qed.

Lemma split_ws_extract (caption : pystr) :
  Str.split_ws (extract_hashtags_as_codes caption) = Re.findall caption.
Proof.
  pose proof (findall_token_shape 0 caption) as Hshape.
  fold (Re.findall caption) in Hshape.
  assert (Hjoin : Str.split_ws (Str.join (u " ") (Re.findall caption))
                  = Re.findall caption).
  { apply split_ws_join. eapply List.Forall_impl; [|exact Hshape].
    cbv beta. intros t (w & -> & Hne & Hw). split; [done|].
    constructor; [apply hash_not_space|].
    eapply List.Forall_impl; [|exact Hw]. apply word_not_space. }
  unfold extract_hashtags_as_codes. by destruct caption.
Qed.

Lemma clean_code_word (w : pystr) :
  Forall (fun c => Unicode.is_word_cp c = true) w ->
  Str.replace (u "#") [] (35%N :: w) = w.
Proof.
  intros Hw. change (u "#") with [35%N].
  apply (replace_prefix 35 [] w).
  by apply contains_cons_none, word_not_hash.
Qed.

(** The handler reads the tokens back from the stored string: splitting
    what [extract_hashtags_as_codes] returns gives the tokens of the caption
    again, each of them the marker and a non-empty word, and removing the
    marker from a token leaves the word. *)
Theorem split_extracted_codes (caption : pystr) :
  Str.split_ws (extract_hashtags_as_codes caption) = Re.findall caption
  /\ Forall (fun t => exists w,
               t = 35%N :: w /\ w <> []
               /\ Forall (fun c => Unicode.is_word_cp c = true) w
               /\ Str.replace (u "#") [] t = w)
       (Re.findall caption).
Proof.
  split; [apply split_ws_extract|].
  pose proof (findall_token_shape 0 caption) as Hshape.
  fold (Re.findall caption) in Hshape.
  eapply List.Forall_impl; [|exact Hshape]. cbv beta.
  intros t (w & -> & Hne & Hw). exists w. repeat split; try done.
  by apply clean_code_word.
Qed.

(** ** The indexer *)

Lemma channel_post_db (env : Env) (st : State) (message : Post)
    (file_id : pystr) :
  post_video message = Some file_id ->
  save_video_ok env = true ->
  let caption := default [] (post_caption message) in
  channel_post_handler env st message
  = set_db st
      (foldl (fun d code =>
                snd (add_pending_movie (add_pending_movie_ok env) d
                       (Str.replace (u "#") [] code)
                       (post_message_id message) (post_chat_id message)
                       file_id caption (current_timestamp env)))
         (snd (save_video true (db st) (post_chat_id message)
                 (post_message_id message) file_id caption (now env)))
         (Re.findall caption)).
Proof.
  intros Hv Hok. cbv zeta. unfold channel_post_handler.
  rewrite Hv, Hok. rewrite <- split_ws_extract.
  cbn [save_video fst snd].
  by destruct (extract_hashtags_as_codes (default [] (post_caption message))).
Qed.

Lemma fold_pending_others (ok : bool) (msg chat : Z)
    (file caption : pystr) (t : Z) (tokens : list pystr) (d : DB) :
  let d' :=
    foldl (fun d code =>
             snd (add_pending_movie ok d (Str.replace (u "#") [] code)
                    msg chat file caption t)) d tokens in
  videos d' = videos d /\ movies d' = movies d.
Proof.
  cbv zeta. revert d. induction tokens as [|code tokens IH]; intros d;
    [done|].
  cbn [foldl]. destruct (IH (snd (add_pending_movie ok d
    (Str.replace (u "#") [] code) msg chat file caption t))) as [-> ->].
  by destruct ok.
Qed.

Lemma fold_pending_rows (msg chat : Z) (file caption : pystr) (t : Z)
    (tokens : list pystr) (d : DB) :
  table_wf p_id (VideoDatabase.pending_movies d) ->
  exists drafts,
    rows (VideoDatabase.pending_movies
            (foldl (fun d code =>
                      snd (add_pending_movie true d
                             (Str.replace (u "#") [] code) msg chat file
                             caption t)) d tokens))
    = rows (VideoDatabase.pending_movies d) ++ drafts
    /\ map p_code drafts = map (Str.replace (u "#") []) tokens
    /\ Forall (fun p => p_channel_message_id p = msg /\ p_channel_id p = chat
                        /\ p_file_id p = file /\ p_caption p = caption)
         drafts.
Proof.
  revert d. induction tokens as [|code tokens IH]; intros d Hwf.
  - exists []. by rewrite app_nil_r.
  - cbn [foldl].
    set (d1 := snd (add_pending_movie true d (Str.replace (u "#") [] code)
                      msg chat file caption t)).
    destruct (IH d1) as (drafts & Hrows & Hcodes & Hmedia).
    { by apply insert_or_replace_wf. }
    pose proof (add_pending_movie_appends d (Str.replace (u "#") [] code)
                  msg chat file caption t (proj1 Hwf)) as Happ.
    fold d1 in Happ. rewrite Happ in Hrows. rewrite <- app_assoc in Hrows.
    eexists. split; [exact Hrows|]. cbn [app map p_code].
    split; [by rewrite Hcodes|]. by constructor.
Qed.

(** What an accepted post with a video does to a sound store: one row more
    in [videos], carrying the extracted codes; one draft more for each token
    of the caption, in their order, under the token without its marker and
    with the media of the post; the catalog and the sessions as before.  A
    caption without a token adds no draft. *)
Theorem channel_post_handler_effect (env : Env) (st : State)
    (message : Post) (file_id : pystr) :
  post_video message = Some file_id ->
  save_video_ok env = true ->
  add_pending_movie_ok env = true ->
  store_wf (db st) ->
  let caption := default [] (post_caption message) in
  let st' := channel_post_handler env st message in
  rows (videos (db st'))
  = rows (videos (db st))
    ++ [{| v_id := seq (videos (db st)) + 1;
           v_chat_id := post_chat_id message;
           v_message_id := post_message_id message; v_file_id := file_id;
           v_caption := caption;
           v_codes := extract_hashtags_as_codes caption;
           v_date := now env |}]
  /\ movies (db st') = movies (db st)
  /\ pending_movies st' = pending_movies st
  /\ user_states st' = user_states st
  /\ exists drafts,
       rows (VideoDatabase.pending_movies (db st'))
       = rows (VideoDatabase.pending_movies (db st)) ++ drafts
       /\ map p_code drafts = map (drop 1) (Re.findall caption)
       /\ Forall (fun p =>
                    p_channel_message_id p = post_message_id message
                    /\ p_channel_id p = post_chat_id message
                    /\ p_file_id p = file_id /\ p_caption p = caption)
            drafts.
Proof.
  intros Hv Hsave Hadd (Hvid & Hmov & Hcodes & Hpend). cbv zeta.
  rewrite (channel_post_db env st message file_id Hv Hsave), Hadd.
  cbn [db set_db pending_movies user_states].
  set (caption := default [] (post_caption message)).
  set (d1 := snd (save_video true (db st) (post_chat_id message)
                    (post_message_id message) file_id caption (now env))).
  destruct (fold_pending_others true (post_message_id message)
              (post_chat_id message) file_id caption (current_timestamp env)
              (Re.findall caption) d1) as [-> ->].
  split; [by apply save_video_appends, (proj1 Hvid)|].
  split; [done|]. split; [done|]. split; [done|].
  destruct (fold_pending_rows (post_message_id message)
              (post_chat_id message) file_id caption (current_timestamp env)
              (Re.findall caption) d1 Hpend)
    as (drafts & Hrows & Hdcodes & Hmedia).
  exists drafts. split; [exact Hrows|]. split; [|done].
  rewrite Hdcodes. apply map_ext_in. intros tok Hin.
  pose proof (findall_token_shape 0 caption) as Hshape.
  destruct (proj1 (List.Forall_forall _ _) Hshape tok Hin)
    as (w & -> & _ & Hw).
  by rewrite clean_code_word.
Qed.

Lemma channel_post_handler_effect_witness :
  exists drafts,
    rows (VideoDatabase.pending_movies (db Sample.indexed)) = [] ++ drafts
    /\ map p_code drafts = [u "A12"].
Proof.
  destruct (channel_post_handler_effect (quiet init_db 100) Sample.start
              Sample.post_a12 (u "f1"))
    as (_ & _ & _ & _ & drafts & Hrows & Hcodes & _).
  - reflexivity.
  - reflexivity.
  - reflexivity.
  - repeat split; constructor.
  - exists drafts. split; [exact Hrows|]. rewrite Hcodes.
    vm_compute. reflexivity.
Defined.

Lemma contains_app_r (sub a s : pystr) :
  Str.contains sub s = true -> Str.contains sub (a ++ s) = true.
Proof.
  intros Hs. induction a as [|c a IH]; [done|].
  cbn [app Str.contains]. rewrite IH. apply orb_true_r.
Qed.

Lemma contains_prefix (sub s : pystr) : Str.contains sub (sub ++ s) = true.
Proof.
  destruct (sub ++ s) eqn:E; cbn [Str.contains]; rewrite <- E;
    by rewrite startswith_app.
Qed.

Lemma contains_join (sep t : pystr) (tokens : list pystr) :
  In t tokens -> Str.contains t (Str.join sep tokens) = true.
Proof.
  induction tokens as [|x tokens IH]; [done|].
  intros [->|Hin].
  - destruct tokens as [|y tokens]; cbn [Str.join].
    + rewrite <- (app_nil_r t) at 2. apply contains_prefix.
    + apply contains_prefix.
  - destruct tokens as [|y tokens]; [destruct Hin|].
    change (Str.join sep (x :: y :: tokens))
      with (x ++ sep ++ Str.join sep (y :: tokens)).
    rewrite app_assoc. apply contains_app_r. by apply IH.
Qed.

(** A video that was indexed is found: after an accepted post whose caption
    holds the token [#w], the search of [w] on the store as it then is
    sends a result. *)
Theorem indexed_code_is_found (env : Env) (st : State) (message : Post)
    (file_id w : pystr) :
  post_video message = Some file_id ->
  save_video_ok env = true ->
  In (35%N :: w) (Re.findall (default [] (post_caption message))) ->
  let d := db (channel_post_handler env st message) in
  exists r, snd (_search_and_send_results d d w) = SearchResults [r] w.
Proof.
  intros Hv Hsave Htok. cbv zeta.
  rewrite (channel_post_db env st message file_id Hv Hsave).
  cbn [db set_db].
  set (caption := default [] (post_caption message)) in *.
  set (d1 := snd (save_video true (db st) (post_chat_id message)
                    (post_message_id message) file_id caption (now env))).
  set (d := foldl _ d1 _).
  assert (Hvideos : videos d = videos d1).
  { apply (fold_pending_others (add_pending_movie_ok env)
             (post_message_id message) (post_chat_id message) file_id
             caption (current_timestamp env) (Re.findall caption) d1). }
  set (v0 := {| v_id := seq (videos (db st)) + 1;
                v_chat_id := post_chat_id message;
                v_message_id := post_message_id message;
                v_file_id := file_id; v_caption := caption;
                v_codes := extract_hashtags_as_codes caption;
                v_date := now env |}).
  assert (Hin : In v0 (rows (videos d))).
  { rewrite Hvideos. unfold d1, save_video, insert_or_replace.
    cbn [snd videos rows]. apply in_or_app. right. by left. }
  assert (Hcc : codes_contain (hashtag_of w) v0 = true).
  { unfold codes_contain. cbn [v_codes].
    assert (Hc : Str.contains (35%N :: w) (extract_hashtags_as_codes caption)
                 = true).
    { unfold extract_hashtags_as_codes.
      destruct caption as [|c0 caption0] eqn:Ec; [destruct Htok|].
      by apply contains_join. }
    change (hashtag_of w) with (35%N :: w).
    destruct (extract_hashtags_as_codes caption); [discriminate|done]. }
  assert (Hexact : snd (exact_lookup d d w) <> []).
  { rewrite exact_lookup_quiet.
    destruct (get_movie_by_code d w); [done|].
    destruct (find _ _) as [v|] eqn:Hf; [done|].
    eapply find_none in Hf.
    - by rewrite Hcc in Hf.
    - eapply Permutation_in; [symmetry; apply order_by_perm|done]. }
  rewrite search_unfold.
  destruct (exact_lookup_results d d w) as [He|[r He]]; [done|].
  rewrite He. eauto.
Qed.

Lemma indexed_code_is_found_witness :
  exists r,
    snd (_search_and_send_results (db Sample.indexed) (db Sample.indexed)
           (u "A12")) = SearchResults [r] (u "A12").
Proof.
  apply (indexed_code_is_found (quiet init_db 100) Sample.start
           Sample.post_a12 (u "f1") (u "A12")).
  - reflexivity.
  - reflexivity.
  - vm_compute. by left.
Defined.

(** ** The curation workflow as a whole *)

Lemma replace_prefix_nonempty (old s : pystr) :
  old <> [] -> Str.contains old s = false ->
  Str.replace old [] (old ++ s) = s.
Proof. destruct old as [|a o]; [done|]. intros _. apply replace_prefix. Qed.

Lemma handle_callback_query_pick (st : State) (user_id : Z)
    (code : pystr) (draft : Pending) :
  Str.contains (u "add_movie_") code = false ->
  get_pending_movie_by_code (db st) code = Some draft ->
  handle_callback_query st user_id (u "add_movie_" ++ code)
  = ([AskTitle code (p_caption draft)],
     set_pending_movies st
       (<[user_id :=
            {| s_code := code;
               s_channel_message_id := p_channel_message_id draft;
               s_channel_id := p_channel_id draft;
               s_file_id := p_file_id draft;
               s_step := StepTitle; s_title := None |}]>
          (pending_movies st))).
Proof.
  intros Hc Hd. unfold handle_callback_query.
  rewrite startswith_app, replace_prefix_nonempty by done.
  by rewrite Hd.
Qed.

Lemma commit_request_promote (env : Env) (st : State) (user_id : Z)
    (raw code title category : pystr) :
  commit_request st user_id raw code title category ->
  handle_message env st user_id raw
  = promote env st user_id code title category.
Proof.
  intros (movie_data & Hs & <- & Ht & Hreq).
  destruct Hreq as [(Hstep & Hg & Hb & ->)|(Hstep & Hne & Hcs & Hm & ->)].
  - by apply handle_message_category_button.
  - by apply handle_message_typed_category.
Qed.

(** The workflow from a draft to the catalog.  A user picks the draft of
    [code], sends a title and presses a category button; when the store
    accepts the writes, the catalog then holds under [code] the stripped
    title, the category of the button and the media of the draft, the draft
    is gone and so is the session of the user. *)
Theorem curation_workflow (env1 env2 : Env) (st : State) (user_id : Z)
    (code raw_title raw_genre : pystr) (draft : Pending) :
  get_pending_movie_by_code (db st) code = Some draft ->
  Str.contains (u "add_movie_") code = false ->
  Str.strip raw_title <> [] ->
  is_code_search (Str.strip raw_title) = false ->
  is_menu_text (Str.strip raw_title) = false ->
  Str.startswith GENRE_MARK (Str.strip raw_genre) = true ->
  Str.strip raw_genre <> BTN_BROWSE ->
  add_movie_ok env2 = true ->
  remove_pending_movie_ok env2 = true ->
  let st1 :=
    snd (handle_callback_query st user_id (u "add_movie_" ++ code)) in
  let st2 := snd (handle_message env1 st1 user_id raw_title) in
  let st3 := snd (handle_message env2 st2 user_id raw_genre) in
  get_movie_by_code (db st3) code
  = Some {| m_id := seq (movies (db st)) + 1; m_code := code;
            m_title := Str.strip raw_title;
            m_category := Str.replace GENRE_MARK [] (Str.strip raw_genre);
            m_channel_message_id := p_channel_message_id draft;
            m_channel_id := p_channel_id draft;
            m_file_id := p_file_id draft |}
  /\ get_pending_movie_by_code (db st3) code = None
  /\ pending_movies st3 !! user_id = None
  /\ videos (db st3) = videos (db st).
Proof.
  intros Hd Hc Htne Htcs Htm Hg Hgb Hadd Hrm. cbv zeta.
  rewrite (handle_callback_query_pick st user_id code draft Hc Hd).
  cbn [snd].
  set (picked := {| s_code := code;
                    s_channel_message_id := p_channel_message_id draft;
                    s_channel_id := p_channel_id draft;
                    s_file_id := p_file_id draft;
                    s_step := StepTitle; s_title := None |}).
  set (st1 := set_pending_movies st
                (<[user_id := picked]> (pending_movies st))).
  assert (Hs1 : pending_movies st1 !! user_id = Some picked)
    by apply lookup_insert_eq.
  rewrite (handle_message_pending_input env1 st1 user_id raw_title picked)
    by done.
  unfold pending_input. rewrite Hs1. cbn [s_step picked].
  destruct (Str.strip raw_title) as [|t0 title] eqn:Et; [done|].
  cbn [snd].
  set (titled := {| s_code := _; s_step := StepCategory |}).
  set (st2 := set_pending_movies st1 _).
  assert (Hs2 : pending_movies st2 !! user_id = Some titled)
    by apply lookup_insert_eq.
  rewrite (handle_message_category_button env2 st2 user_id raw_genre titled
             (t0 :: title)) by done.
  cbn [s_code titled picked].
  pose proof (promote_outcomes env2 st2 user_id code (t0 :: title)
                (Str.replace GENRE_MARK [] (Str.strip raw_genre))) as Hp.
  change (db st2) with (db st) in Hp. rewrite Hd, Hadd, Hrm in Hp.
  destruct Hp as (d & -> & _ & Hget & Hvid & _ & Hgone).
  cbn [snd db pending_movies].
  split; [exact Hget|]. split; [exact Hgone|].
  split; [apply lookup_delete_eq|exact Hvid].
Qed.

Lemma curation_workflow_witness :
  get_movie_by_code (db Sample.committed) (u "A12")
  = Some {| m_id := 1; m_code := u "A12"; m_title := u "Big Movie";
            m_category := u "Drama"; m_channel_message_id := 10;
            m_channel_id := 1; m_file_id := u "f1" |}.
Proof.
  destruct (curation_workflow (Sample.env Sample.awaiting_title)
              (Sample.env Sample.awaiting_category) Sample.indexed 7
              (u "A12") (u "Big Movie") (u "📁 Drama")
              {| p_id := 1; p_code := u "A12"; p_channel_message_id := 10;
                 p_channel_id := 1; p_file_id := u "f1";
                 p_caption := u "Big Movie #A12"; p_date := 100 |})
    as (Hget & _).
  - vm_compute. reflexivity.
  - vm_compute. reflexivity.
  - vm_compute. discriminate.
  - vm_compute. reflexivity.
  - vm_compute. reflexivity.
  - vm_compute. reflexivity.
  - vm_compute. discriminate.
  - reflexivity.
  - reflexivity.
  - exact Hget.
Defined.

(** A draft is promoted once.  After a commit that the store accepted, a
    commit request on the same code, by any user with any title and
    category, is answered [DraftMissing] and changes nothing: the first
    entry stays. *)
Theorem second_commit_finds_no_draft (env : Env) (st : State) (user_id : Z)
    (raw code title category : pystr) (draft : Pending) :
  commit_request st user_id raw code title category ->
  get_pending_movie_by_code (db st) code = Some draft ->
  add_movie_ok env = true ->
  remove_pending_movie_ok env = true ->
  let st' := snd (handle_message env st user_id raw) in
  forall env' user_id' raw' title' category',
    commit_request st' user_id' raw' code title' category' ->
    handle_message env' st' user_id' raw' = ([DraftMissing], st').
Proof.
  intros Hreq Hd Hadd Hrm. cbv zeta.
  intros env' user_id' raw' title' category' Hreq'.
  rewrite (commit_request_promote env' _ user_id' raw' code title'
             category' Hreq').
  rewrite (commit_request_promote env st user_id raw code title category
             Hreq).
  pose proof (promote_outcomes env st user_id code title category) as Hp.
  rewrite Hd, Hadd, Hrm in Hp.
  destruct Hp as (d & -> & _ & _ & _ & _ & Hgone).
  unfold promote at 1. cbn [snd db]. by rewrite Hgone.
Qed.

Lemma second_commit_finds_no_draft_witness :
  handle_message (Sample.env Race.first_committed) Race.first_committed 9
    (u "📁 Comedy")
  = ([DraftMissing], Race.first_committed).
Proof.
  apply (second_commit_finds_no_draft (Sample.env Race.both_titled)
           Race.both_titled 7 (u "📁 Drama") (u "A12") (u "Big Movie")
           (u "Drama")
           {| p_id := 1; p_code := u "A12"; p_channel_message_id := 10;
              p_channel_id := 1; p_file_id := u "f1";
              p_caption := u "Big Movie #A12"; p_date := 100 |}
           ltac:(eexists; split; [vm_compute; reflexivity|];
                 split; [reflexivity|]; split; [reflexivity|]; left;
                 split; [reflexivity|]; split; [vm_compute; reflexivity|];
                 split; [vm_compute; congruence|vm_compute; reflexivity])
           ltac:(vm_compute; reflexivity) eq_refl eq_refl
           (Sample.env Race.first_committed) 9 (u "📁 Comedy")
           (u "The Big Movie") (u "Comedy")).
  eexists. split; [vm_compute; reflexivity|].
  split; [reflexivity|]. split; [reflexivity|]. left.
  split; [reflexivity|]. split; [vm_compute; reflexivity|].
  split; [vm_compute; congruence|vm_compute; reflexivity].
Defined.

(** ** Buttons read back *)

Lemma lstrip_nonspace (c : N) (r : pystr) :
  Unicode.isspace_cp c = false -> Str.lstrip (c :: r) = c :: r.
Proof. intros Hc. cbn [Str.lstrip]. by rewrite Hc. Qed.

(** [strip] leaves a text that neither starts nor ends with whitespace. *)
Lemma strip_id (c e : N) (s : pystr) :
  Unicode.isspace_cp c = false -> Unicode.isspace_cp e = false ->
  Str.strip (c :: s ++ [e]) = c :: s ++ [e].
Proof.
  intros Hc He. unfold Str.strip, Str.rstrip.
  rewrite lstrip_nonspace by done.
  change (c :: s ++ [e]) with ((c :: s) ++ [e]).
  rewrite rev_app_distr. cbn [rev app].
  rewrite lstrip_nonspace by done.
  change (e :: rev s ++ [c]) with ([e] ++ rev (c :: s)).
  rewrite rev_app_distr, rev_involutive. reflexivity.
Qed.

Lemma split_from_none (a : N) (cur s : pystr) :
  Forall (fun c => c <> a) s -> Str.split_from [a] cur 0 s = [rev cur ++ s].
Proof.
  intros Hs. revert cur. induction Hs as [|c s Hc _ IH]; intros cur.
  - cbn [Str.split_from]. by rewrite app_nil_r.
  - cbn [Str.split_from Str.startswith].
    assert ((a =? c)%N = false) as -> by (apply N.eqb_neq; congruence).
    cbn [andb]. rewrite IH. cbn [rev]. by rewrite <- app_assoc.
Qed.

Lemma split_from_nonempty (sep cur : pystr) (skip : nat) (s : pystr) :
  Str.split_from sep cur skip s <> [].
Proof.
  revert cur skip. induction s as [|c s IH]; intros cur skip; [done|].
  cbn [Str.split_from]. destruct skip; [|apply IH].
  destruct (Str.startswith sep (c :: s)); [done|apply IH].
Qed.

Lemma last_cons_nonempty (x : pystr) (l : list pystr) :
  l <> [] -> Str.last (x :: l) = Str.last l.
Proof. by destruct l. Qed.

(** [s.split(a)[-1]] is what follows the last [a]. *)
Lemma split_last (a : N) (cur x s : pystr) :
  Forall (fun c => c <> a) s ->
  Str.last (Str.split_from [a] cur 0 (x ++ a :: s)) = s.
Proof.
  intros Hs. revert cur. induction x as [|c x IH]; intros cur.
  - cbn [app Str.split_from Str.startswith]. rewrite N.eqb_refl. cbn [andb].
    cbn [length Nat.sub].
    rewrite last_cons_nonempty by apply split_from_nonempty.
    by rewrite split_from_none.
  - cbn [app Str.split_from Str.startswith].
    destruct (a =? c)%N; cbn [andb length Nat.sub].
    + rewrite last_cons_nonempty by apply split_from_nonempty. apply IH.
    + apply IH.
Qed.

(** [s.split(a)[0]] is what precedes the first [a]. *)
Lemma split_first (a : N) (cur s t : pystr) :
  Forall (fun c => c <> a) s ->
  Str.first (Str.split_from [a] cur 0 (s ++ a :: t)) = rev cur ++ s.
Proof.
  intros Hs. revert cur. induction Hs as [|c s Hc _ IH]; intros cur.
  - cbn [app Str.split_from Str.startswith]. rewrite N.eqb_refl. cbn [andb].
    by rewrite app_nil_r.
  - cbn [app Str.split_from Str.startswith].
    assert ((a =? c)%N = false) as -> by (apply N.eqb_neq; congruence).
    cbn [andb]. rewrite IH. cbn [rev]. by rewrite <- app_assoc.
Qed.

(** [s.split(ab)[0]] is what precedes the first [ab]. *)
Lemma split_first2 (a b : N) (cur s t : pystr) :
  a <> b -> Str.contains [a; b] s = false ->
  Str.first (Str.split_from [a; b] cur 0 (s ++ a :: b :: t)) = rev cur ++ s.
Proof.
  intros Hab. revert cur. induction s as [|c s IH]; intros cur Hs.
  - cbn [app Str.split_from Str.startswith]. rewrite !N.eqb_refl.
    cbn [andb]. by rewrite app_nil_r.
  - cbn [Str.contains] in Hs. apply orb_false_iff in Hs as [Hc Hs].
    cbn [app Str.split_from].
    assert (Str.startswith [a; b] (c :: s ++ a :: b :: t) = false) as ->.
    { revert Hc. cbn [Str.startswith]. destruct (a =? c)%N; [|done].
      cbn [andb]. destruct s as [|d s]; cbn [app].
      - intros _. assert ((b =? a)%N = false) as ->; [|done].
        apply N.eqb_neq. congruence.
      - by rewrite !andb_true_r. }
    rewrite IH by done. cbn [rev]. by rewrite <- app_assoc.
Qed.

Lemma contains_single (a : N) (x s : pystr) :
  Str.contains [a] (x ++ a :: s) = true.
Proof.
  apply contains_app_r. cbn [Str.contains Str.startswith].
  by rewrite N.eqb_refl.
Qed.

(** A text that starts with the movie mark and holds both parentheses is
    answered by the search of what stands between the last [(] and the next
    [)], whatever the sessions. *)
Lemma handle_message_movie_text (env : Env) (st : State) (user_id : Z)
    (raw : pystr) :
  Str.startswith MOVIE_MARK (Str.strip raw) = true ->
  Str.contains (u "(") (Str.strip raw) = true ->
  Str.contains (u ")") (Str.strip raw) = true ->
  handle_message env st user_id raw
  = ([snd (_search_and_send_results (view env) (db st)
             (Str.first
                (Str.split (u ")")
                   (Str.last (Str.split (u "(") (Str.strip raw))))))], st).
Proof.
  intros Hm Ho Hc. unfold handle_message.
  destruct raw as [|c0 raw0]; [discriminate|].
  set (text := Str.strip (c0 :: raw0)) in *. cbv zeta.
  rewrite Hm, Ho, Hc. cbn [andb].
  assert (Hr : exists r, text = 127916%N :: r).
  { revert Hm.
    let v := eval vm_compute in MOVIE_MARK in change MOVIE_MARK with v.
    intros (r & -> & _)%startswith_cons_inv. eauto. }
  destruct Hr as (r & Hr).
  assert (Hcs : is_code_search text = false).
  { rewrite Hr. unfold is_code_search.
    cbn [Str.isdigit forallb]. by rewrite andb_false_r. }
  rewrite Hcs.
  assert (Hne : forall b : pystr,
             hd 0%N b <> 127916%N -> Str.eqb text b = false).
  { intros b Hhd. apply eqb_neq. rewrite Hr. by intros <-. }
  rewrite !Hne by (vm_compute; congruence).
  assert (Hg : Str.startswith GENRE_MARK text = false).
  { rewrite Hr. reflexivity. }
  rewrite Hg. reflexivity.
Qed.

Lemma movie_button_text (env : Env) (st : State) (user_id : Z)
    (title code : pystr) :
  Forall (fun c => c <> 40%N) code ->
  Forall (fun c => c <> 41%N) code ->
  handle_message env st user_id (movie_button title code)
  = ([snd (_search_and_send_results (view env) (db st) code)], st).
Proof.
  intros Ho Hc.
  assert (Hb : movie_button title code
               = 127916%N :: (32%N :: title ++ 32%N :: 40%N :: code)
                 ++ [41%N]).
  { unfold movie_button.
    change (u "🎬 ") with [127916%N; 32%N].
    change (u " (") with [32%N; 40%N]. change (u ")") with [41%N].
    cbn [app]. by rewrite <- !app_assoc. }
  assert (Hb' : movie_button title code
                = (127916%N :: 32%N :: title ++ [32%N])
                  ++ 40%N :: code ++ [41%N]).
  { rewrite Hb. cbn [app]. by rewrite <- !app_assoc. }
  assert (Hs : Str.strip (movie_button title code) = movie_button title code).
  { rewrite Hb. by apply strip_id. }
  rewrite handle_message_movie_text; rewrite Hs.
  - do 3 f_equal.
    change (u "(") with [40%N]. change (u ")") with [41%N].
    unfold Str.split. rewrite Hb', split_last.
    + by rewrite split_first.
    + apply Forall_app. split; [done|]. by constructor.
  - rewrite Hb. reflexivity.
  - change (u "(") with [40%N]. rewrite Hb'. apply contains_single.
  - change (u ")") with [41%N].
    replace (movie_button title code)
      with ((127916%N :: 32%N :: title ++ 32%N :: 40%N :: code) ++ [41%N])
      by (by rewrite Hb).
    apply contains_single.
Qed.

(** The text that [show_movies_in_genre] puts on the button of an entry is
    read back by [handle_message] as the code of the entry: for every title
    and every code without a parenthesis, the button text is answered by the
    search of the code, and the state stays as it is. *)
Theorem movie_button_runs_search (env : Env) (st : State) (user_id : Z)
    (title code : pystr) :
  Forall (fun c => c <> 40%N) code ->
  Forall (fun c => c <> 41%N) code ->
  handle_message env st user_id (movie_button title code)
  = ([snd (_search_and_send_results (view env) (db st) code)], st).
Proof. apply movie_button_text. Qed.

Lemma movie_button_runs_search_witness :
  handle_message (Sample.env Sample.committed) Sample.committed 8
    (movie_button (u "Big (2012) Movie") (u "A12"))
  = ([SearchResults
        [RMovie {| m_id := 1; m_code := u "A12"; m_title := u "Big Movie";
                   m_category := u "Drama"; m_channel_message_id := 10;
                   m_channel_id := 1; m_file_id := u "f1" |}] (u "A12")],
     Sample.committed).
Proof.
  rewrite (movie_button_runs_search (Sample.env Sample.committed)
             Sample.committed 8 (u "Big (2012) Movie") (u "A12")).
  - vm_compute. reflexivity.
  - vm_compute. repeat (apply List.Forall_cons; [discriminate|]).
    apply List.Forall_nil.
  - vm_compute. repeat (apply List.Forall_cons; [discriminate|]).
    apply List.Forall_nil.
Defined.

Lemma get_movie_by_code_unique (d : DB) (m : Movie) :
  NoDup (map m_code (rows (movies d))) ->
  In m (rows (movies d)) ->
  get_movie_by_code d (m_code m) = Some m.
Proof.
  unfold get_movie_by_code.
  induction (rows (movies d)) as [|x l IH]; [done|].
  cbn [map]. intros [Hx Hl]%NoDup_cons Hin.
  cbn [find]. destruct (Str.eqb (m_code x) (m_code m)) eqn:He.
  - apply eqb_eq in He. destruct Hin as [->|Hin]; [done|].
    exfalso. apply Hx. rewrite He. by apply list_elem_of_In, in_map.
  - destruct Hin as [->|Hin]; [by rewrite eqb_refl in He|]. by apply IH.
Qed.

(** The button of an entry that a page shows sends that entry: when the
    codes of the catalog are distinct and nothing interferes, the text of
    the button is answered by the entry itself, for every code without a
    parenthesis. *)
Theorem shown_movie_button_sends_entry (st : State) (t : Z) (user_id : Z)
    (genre : pystr) (page : Z) (m : Movie) :
  NoDup (map m_code (rows (movies (db st)))) ->
  In m (fst (get_movies_by_category (db st) genre page 8)) ->
  Forall (fun c => c <> 40%N) (m_code m) ->
  Forall (fun c => c <> 41%N) (m_code m) ->
  handle_message (quiet (db st) t) st user_id
    (movie_button (m_title m) (m_code m))
  = ([SearchResults [RMovie m] (m_code m)], st).
Proof.
  intros Hnd Hin Ho Hc.
  rewrite movie_button_text by done. cbn [view quiet].
  rewrite search_unfold, exact_lookup_quiet.
  rewrite (get_movie_by_code_unique (db st) m Hnd); [done|].
  unfold get_movies_by_category, limit_offset in Hin. cbn [fst] in Hin.
  assert (Hsub : forall (l : list Movie) n k,
             In m (take n (drop k l)) -> In m l).
  { intros l n k H. apply list_elem_of_In in H.
    apply list_elem_of_In. by eapply subseteq_drop, subseteq_take. }
  change (8 <? 0) with false in Hin. cbv iota in Hin. apply Hsub in Hin.
  eapply Permutation_in in Hin; [|apply order_by_perm].
  by apply filter_In in Hin as [Hin _].
Qed.

Lemma shown_movie_button_sends_entry_witness :
  handle_message (quiet Shelf.nine_dramas 300) Shelf.browsing 8
    (u "🎬 Film (D9)")
  = ([SearchResults
        [RMovie {| m_id := 9; m_code := u "D9"; m_title := u "Film";
                   m_category := u "Drama"; m_channel_message_id := 20;
                   m_channel_id := 1; m_file_id := u "f9" |}] (u "D9")],
     Shelf.browsing).
Proof.
  apply (shown_movie_button_sends_entry Shelf.browsing 300 8 (u "Drama") 2
           {| m_id := 9; m_code := u "D9"; m_title := u "Film";
              m_category := u "Drama"; m_channel_message_id := 20;
              m_channel_id := 1; m_file_id := u "f9" |}).
  - apply (bool_decide_unpack _). vm_compute. reflexivity.
  - vm_compute. by left.
  - vm_compute. repeat (apply List.Forall_cons; [discriminate|]).
    apply List.Forall_nil.
  - vm_compute. repeat (apply List.Forall_cons; [discriminate|]).
    apply List.Forall_nil.
Defined.

(** Without a curation session, a text that starts with the genre mark,
    other than the browse command, opens the genre it names. *)
Lemma handle_message_genre_text (env : Env) (st : State) (user_id : Z)
    (raw : pystr) :
  pending_movies st !! user_id = None ->
  Str.startswith GENRE_MARK (Str.strip raw) = true ->
  Str.strip raw <> BTN_BROWSE ->
  handle_message env st user_id raw
  = ([show_movies_in_genre (db st)
        (Str.first
           (Str.split (u " (") (Str.replace GENRE_MARK [] (Str.strip raw))))
        1],
     set_user_states st
       (<[user_id :=
            {| c_genre :=
                 Str.first
                   (Str.split (u " (")
                      (Str.replace GENRE_MARK [] (Str.strip raw)));
               c_page := 1 |}]> (user_states st))).
Proof.
  intros Hs Hg Hb. unfold handle_message.
  destruct raw as [|c0 raw0]; [discriminate|].
  set (text := Str.strip (c0 :: raw0)) in *. cbv zeta.
  unfold in_dict. rewrite Hg, Hs. cbn [andb].
  apply eqb_neq in Hb. rewrite Hb.
  destruct (genre_text_inv _ Hg) as (r & Hr).
  assert (Hcs : is_code_search text = false).
  { rewrite Hr. unfold is_code_search.
    cbn [Str.isdigit forallb]. by rewrite andb_false_r. }
  rewrite Hcs.
  assert (Hne : forall b : pystr,
             hd 0%N b <> 128193%N -> Str.eqb text b = false).
  { intros b Hhd. apply eqb_neq. rewrite Hr. by intros <-. }
  rewrite !Hne by (vm_compute; congruence). by rewrite andb_false_r.
Qed.

Lemma digits_not_mark (d : Decimal.uint) :
  Forall (fun c => c <> 128193%N) (digits d).
Proof. induction d; cbn [digits]; by constructor. Qed.

Lemma str_of_int_not_mark (n : Z) :
  Forall (fun c => c <> 128193%N) (str_of_int n).
Proof.
  unfold str_of_int. destruct (Z.to_int n);
    [|constructor; [done|]]; apply digits_not_mark.
Qed.

Lemma genre_button_text (env : Env) (st : State) (user_id : Z)
    (category : pystr) (count : Z) :
  pending_movies st !! user_id = None ->
  Forall (fun c => c <> 128193%N) category ->
  Str.contains (u " (") category = false ->
  handle_message env st user_id (genre_button category count)
  = ([show_movies_in_genre (db st) category 1],
     set_user_states st
       (<[user_id := {| c_genre := category; c_page := 1 |}]>
          (user_states st))).
Proof.
  intros Hs Hm Hc.
  set (tail := str_of_int count ++ u " film").
  assert (Hb : genre_button category count
               = 128193%N
                 :: (32%N :: category ++ 32%N :: 40%N :: tail) ++ [41%N]).
  { unfold genre_button, tail.
    change (u "📁 ") with [128193%N; 32%N].
    change (u " (") with [32%N; 40%N].
    change (u " film)") with (u " film" ++ [41%N]).
    cbn [app]. repeat (rewrite <- app_assoc; cbn [app]). reflexivity. }
  assert (Hb' : genre_button category count
                = GENRE_MARK ++ category ++ 32%N :: 40%N :: tail ++ [41%N]).
  { rewrite Hb. change GENRE_MARK with [128193%N; 32%N].
    cbn [app]. repeat (rewrite <- app_assoc; cbn [app]). reflexivity. }
  assert (Hstrip : Str.strip (genre_button category count)
                   = genre_button category count).
  { rewrite Hb. by apply strip_id. }
  rewrite handle_message_genre_text; rewrite ?Hstrip; [|exact Hs| |].
  - assert (Hg : Str.first
                   (Str.split (u " (")
                      (Str.replace GENRE_MARK []
                         (genre_button category count))) = category).
    { rewrite Hb'. change GENRE_MARK with [128193%N; 32%N].
      rewrite replace_prefix.
      - change (u " (") with [32%N; 40%N]. unfold Str.split.
        by rewrite split_first2.
      - apply contains_cons_none.
        apply Forall_app. split; [done|].
        constructor; [done|]. constructor; [done|].
        apply Forall_app. split; [|by constructor].
        apply Forall_app. split; [apply str_of_int_not_mark|].
        vm_compute. repeat constructor; done. }
    by rewrite Hg.
  - rewrite Hb'. apply startswith_app.
  - rewrite Hb. intros H.
    apply (f_equal (fun l => List.last l 0%N)) in H. revert H.
    change (128193%N :: (32%N :: category ++ 32%N :: 40%N :: tail) ++ [41%N])
      with ((128193%N :: 32%N :: category ++ 32%N :: 40%N :: tail)
            ++ [41%N]).
    rewrite last_last. vm_compute. discriminate.
Qed.

(** The text that [categories_command] puts on the button of a category is
    read back by [handle_message] as that category: for a user without a
    curation session and a category that holds no folder mark and no [ (],
    whatever the count, the button text opens page 1 of the category and
    sets the cursor of the user to it. *)
Theorem genre_button_opens_category (env : Env) (st : State) (user_id : Z)
    (category : pystr) (count : Z) :
  pending_movies st !! user_id = None ->
  Forall (fun c => c <> 128193%N) category ->
  Str.contains (u " (") category = false ->
  handle_message env st user_id (genre_button category count)
  = ([show_movies_in_genre (db st) category 1],
     set_user_states st
       (<[user_id := {| c_genre := category; c_page := 1 |}]>
          (user_states st))).
Proof. apply genre_button_text. Qed.

Lemma genre_button_opens_category_witness :
  handle_message (Sample.env Sample.committed) Sample.committed 8
    (genre_button (u "Drama") 1)
  = ([show_movies_in_genre (db Sample.committed) (u "Drama") 1],
     Sample.browsing).
Proof.
  rewrite (genre_button_opens_category (Sample.env Sample.committed)
             Sample.committed 8 (u "Drama") 1).
  - vm_compute. reflexivity.
  - vm_compute. reflexivity.
  - vm_compute. repeat (apply List.Forall_cons; [discriminate|]).
    apply List.Forall_nil.
  - vm_compute. reflexivity.
Defined.

(** A genre button of the menu opens a page that shows entries.  The menu
    of [categories_command] lists a category with the number of its
    entries, which is positive; for a user without a curation session and a
    category that holds no folder mark and no [ (], pressing the button is
    answered by the first page of the category, never by the report that
    the genre has no film, and the cursor of the user is set to it. *)
Theorem menu_genre_button_shows_entries (env : Env) (st : State)
    (user_id : Z) (buttons : list (pystr * Z)) (category : pystr)
    (count : Z) :
  pending_movies st !! user_id = None ->
  categories_command (db st) = CategoriesMenu buttons ->
  In (category, count) buttons ->
  Forall (fun c => c <> 128193%N) category ->
  Str.contains (u " (") category = false ->
  count = total_count (db st) category
  /\ 0 < count
  /\ exists shown,
       shown <> []
       /\ shown = fst (get_movies_by_category (db st) category 1 8)
       /\ handle_message env st user_id (genre_button category count)
          = ([GenrePage category 1 shown count (ceil_div count 8)],
             set_user_states st
               (<[user_id := {| c_genre := category; c_page := 1 |}]>
                  (user_states st))).
Proof.
  intros Hs Hmenu Hin Hm Hc.
  unfold categories_command in Hmenu.
  assert (Hb : buttons
               = map (fun c => (c, total_count (db st) c))
                   (get_categories (db st))).
  { destruct (get_categories (db st)); [done|]. by injection Hmenu as <-. }
  rewrite Hb in Hin. apply in_map_iff in Hin as (c & [= -> <-] & Hin).
  assert (Hpos : 0 < total_count (db st) category).
  { unfold get_categories in Hin.
    eapply Permutation_in in Hin; [|apply order_by_perm].
    rewrite <- list_elem_of_In, elem_of_remove_dups, list_elem_of_In in Hin.
    apply in_map_iff in Hin as (m & Hcat & Hrow).
    unfold total_count.
    assert (Hf : In m (List.filter
                         (fun m => Str.eqb (m_category m) category)
                         (rows (movies (db st))))).
    { apply filter_In. split; [done|]. by apply eqb_eq. }
    destruct (List.filter _ _); [done|]. cbn [length]. lia. }
  split; [done|]. split; [done|].
  assert (Hshown : fst (get_movies_by_category (db st) category 1 8) <> []).
  { apply page_shows_iff; [lia|lia|]. unfold ceil_div.
    Z.div_mod_to_equations. lia. }
  eexists. split; [exact Hshown|]. split; [reflexivity|].
  rewrite genre_button_text by done. f_equal. f_equal.
  unfold show_movies_in_genre.
  destruct (get_movies_by_category (db st) category 1 8)
    as [[|m shown] total] eqn:Hget; [done|].
  change total with (snd (m :: shown, total)). rewrite <- Hget.
  by rewrite total_count_get_movies, ceil_div_8.
Qed.

Lemma menu_genre_button_shows_entries_witness :
  exists shown,
    shown <> []
    /\ handle_message (quiet Shelf.nine_dramas 300)
         {| db := Shelf.nine_dramas; pending_movies := ∅; user_states := ∅ |}
         8 (genre_button (u "Drama") 9)
       = ([GenrePage (u "Drama") 1 shown 9 2], Shelf.browsing).
Proof.
  destruct (menu_genre_button_shows_entries (quiet Shelf.nine_dramas 300)
              {| db := Shelf.nine_dramas; pending_movies := ∅;
                 user_states := ∅ |}
              8 [(u "Drama", 9)] (u "Drama") 9)
    as (_ & _ & shown & Hne & Hshown & Hrun).
  - reflexivity.
  - vm_compute. reflexivity.
  - by left.
  - vm_compute. repeat (apply List.Forall_cons; [discriminate|]).
    apply List.Forall_nil.
  - vm_compute. reflexivity.
  - exists shown. split; [exact Hne|]. rewrite Hrun, Hshown.
    vm_compute. reflexivity.
Defined.

(** The page buttons undo each other.  From a cursor on page [p >= 1] of a
    named category, before the last page, the next page followed by the
    previous page leaves the state as it was; and from the state after the
    next page, the previous page followed by the next page comes back to
    it. *)
Theorem page_buttons_inverse (env1 env2 env3 : Env) (st : State)
    (user_id : Z) (cur : Cursor) :
  user_states st !! user_id = Some cur ->
  c_genre cur <> [] ->
  1 <= c_page cur ->
  c_page cur < ceil_div (total_count (db st) (c_genre cur)) 8 ->
  let st1 := snd (handle_message env1 st user_id BTN_NEXT) in
  let st2 := snd (handle_message env2 st1 user_id BTN_PREVIOUS) in
  let st3 := snd (handle_message env3 st2 user_id BTN_NEXT) in
  user_states st1 !! user_id
  = Some {| c_genre := c_genre cur; c_page := c_page cur + 1 |}
  /\ st2 = st /\ st3 = st1.
Proof.
  intros Hcur Hg Hpage Hlast. cbv zeta.
  assert (Hnext : forall env,
            snd (handle_message env st user_id BTN_NEXT)
            = set_user_states st
                (<[user_id := {| c_genre := c_genre cur;
                                 c_page := c_page cur + 1 |}]>
                   (user_states st))).
  { intros env. button_text BTN_NEXT. rewrite Hcur.
    destruct (c_genre cur) as [|g0 g] eqn:Eg; [done|].
    rewrite total_count_get_movies, ceil_div_8.
    apply Z.ltb_lt in Hlast. by rewrite Hlast. }
  rewrite !Hnext.
  set (st1 := set_user_states st _).
  assert (Hprev : snd (handle_message env2 st1 user_id BTN_PREVIOUS) = st).
  { button_text BTN_PREVIOUS. unfold st1. cbn [user_states set_user_states].
    rewrite lookup_insert_eq. cbn [c_page c_genre].
    assert ((1 <? c_page cur + 1) = true) as -> by (apply Z.ltb_lt; lia).
    cbn [snd]. unfold set_user_states. cbn [db pending_movies user_states].
    rewrite insert_insert_eq.
    replace (c_page cur + 1 - 1) with (c_page cur) by lia.
    rewrite insert_id by (by destruct cur). by destruct st. }
  split; [apply lookup_insert_eq|]. split; [exact Hprev|].
  rewrite Hprev. apply Hnext.
Qed.

Lemma page_buttons_inverse_witness :
  snd (handle_message (quiet Shelf.nine_dramas 302)
         (snd (handle_message (quiet Shelf.nine_dramas 301) Shelf.browsing 8
                 BTN_NEXT))
         8 BTN_PREVIOUS)
  = Shelf.browsing.
Proof.
  apply (page_buttons_inverse (quiet Shelf.nine_dramas 301)
           (quiet Shelf.nine_dramas 302) (quiet Shelf.nine_dramas 303)
           Shelf.browsing 8 {| c_genre := u "Drama"; c_page := 1 |}).
  - vm_compute. reflexivity.
  - vm_compute. discriminate.
  - vm_compute. discriminate.
  - vm_compute. reflexivity.
Defined.

(** ** The listing of drafts *)

(** [get_pending_movies] returns every draft of the store once, the newest
    first, and [addmovie_command] answers that nothing is pending exactly
    when the store holds no draft. *)
Theorem get_pending_movies_spec (d : DB) :
  Permutation (get_pending_movies d) (rows (VideoDatabase.pending_movies d))
  /\ StronglySorted (fun a b => p_date b <= p_date a) (get_pending_movies d)
  /\ (addmovie_command d = None
      <-> rows (VideoDatabase.pending_movies d) = []).
Proof.
  assert (Hperm : Permutation (get_pending_movies d)
                    (rows (VideoDatabase.pending_movies d)))
    by apply order_by_perm.
  split; [exact Hperm|]. split.
  - assert (H : ordered (fun a b => p_date b <=? p_date a)
                  (get_pending_movies d)).
    { apply order_by_ordered.
      - intros a b H%Z.leb_gt. apply Z.leb_le. lia.
      - intros a b c H1%Z.leb_le H2%Z.leb_le. apply Z.leb_le. lia. }
    clear Hperm.
    induction H as [|x l Hl IH Hx]; [constructor|constructor; [done|]].
    eapply List.Forall_impl; [|exact Hx]. cbv beta. intros b Hb.
    by apply Z.leb_le.
  - unfold addmovie_command.
    destruct (get_pending_movies d) as [|p ps] eqn:Hp.
    + split; [|done]. intros _. by apply Permutation_nil.
    + split; [done|]. intros Hrows. rewrite Hrows in Hperm.
      symmetry in Hperm. by apply Permutation_nil in Hperm.
Qed.

Lemma get_pending_movie_found (d : DB) (draft : Pending) :
  In draft (rows (VideoDatabase.pending_movies d)) ->
  exists oldest,
    get_pending_movie_by_code d (p_code draft) = Some oldest
    /\ In oldest (rows (VideoDatabase.pending_movies d))
    /\ p_code oldest = p_code draft.
Proof.
  intros Hin. unfold get_pending_movie_by_code.
  destruct (find _ _) as [oldest|] eqn:Hf.
  - exists oldest. apply find_some in Hf as [Hrow He].
    by apply eqb_eq in He.
  - exfalso. eapply find_none in Hf; [|exact Hin]. cbv beta in Hf.
    by rewrite eqb_refl in Hf.
Qed.

(** The listing of [addmovie_command] and the callback of its buttons.
    The listing has at most ten buttons, each of them for the code of a
    draft in the store, with the warning mark exactly when the catalog
    already holds the code.  Pressing a button whose code does not contain
    the callback prefix is never refused, warning mark or not: it opens the
    title step for that code with the media of the first draft stored under
    the code. *)
Theorem addmovie_buttons_open_title_step (st : State) (user_id : Z)
    (buttons : list (pystr * pystr)) (text data : pystr) :
  addmovie_command (db st) = Some buttons ->
  In (text, data) buttons ->
  (length buttons <= 10)%nat
  /\ exists draft oldest,
       In draft (rows (VideoDatabase.pending_movies (db st)))
       /\ data = u "add_movie_" ++ p_code draft
       /\ (Str.startswith (u "⚠️") text = true
           <-> get_movie_by_code (db st) (p_code draft) <> None)
       /\ get_pending_movie_by_code (db st) (p_code draft) = Some oldest
       /\ (Str.contains (u "add_movie_") (p_code draft) = false ->
           handle_callback_query st user_id data
           = ([AskTitle (p_code draft) (p_caption oldest)],
              set_pending_movies st
                (<[user_id :=
                     {| s_code := p_code draft;
                        s_channel_message_id := p_channel_message_id oldest;
                        s_channel_id := p_channel_id oldest;
                        s_file_id := p_file_id oldest;
                        s_step := StepTitle; s_title := None |}]>
                   (pending_movies st)))).
Proof.
  unfold addmovie_command.
  destruct (get_pending_movies (db st)) as [|p0 ps] eqn:Hp; [done|].
  rewrite <- Hp. intros [= <-] Hin. split.
  { rewrite length_map, length_take. lia. }
  apply in_map_iff in Hin as (draft & [= <- <-] & Hin).
  assert (Hrow : In draft (rows (VideoDatabase.pending_movies (db st)))).
  { apply list_elem_of_In in Hin.
    apply (subseteq_take 10) in Hin. apply list_elem_of_In in Hin.
    unfold get_pending_movies in Hin.
    eapply Permutation_in in Hin; [|apply order_by_perm]. done. }
  destruct (get_pending_movie_found (db st) draft Hrow)
    as (oldest & Hget & _ & _).
  exists draft, oldest. split; [done|]. split; [done|].
  split; [|split; [done|]].
  - cbv zeta. destruct (get_movie_by_code (db st) (p_code draft)).
    + split; [done|]. intros _. reflexivity.
    + split; [|done]. intros H. exfalso. revert H.
      change (u "🎬 ") with [127916%N; 32%N].
      change (u "⚠️") with [9888%N; 65039%N]. done.
  - intros Hc. by apply handle_callback_query_pick.
Qed.

Lemma addmovie_buttons_open_title_step_witness :
  (length [(u "🎬 A12 - Big Movie #A12", u "add_movie_A12")] <= 10)%nat
  /\ exists draft oldest,
       In draft (rows (VideoDatabase.pending_movies (db Sample.indexed)))
       /\ u "add_movie_A12" = u "add_movie_" ++ p_code draft
       /\ (Str.startswith (u "⚠️") (u "🎬 A12 - Big Movie #A12") = true
           <-> get_movie_by_code (db Sample.indexed) (p_code draft) <> None)
       /\ get_pending_movie_by_code (db Sample.indexed) (p_code draft)
          = Some oldest
       /\ (Str.contains (u "add_movie_") (p_code draft) = false ->
           handle_callback_query Sample.indexed 7 (u "add_movie_A12")
           = ([AskTitle (p_code draft) (p_caption oldest)],
              set_pending_movies Sample.indexed
                (<[7 :=
                     {| s_code := p_code draft;
                        s_channel_message_id := p_channel_message_id oldest;
                        s_channel_id := p_channel_id oldest;
                        s_file_id := p_file_id oldest;
                        s_step := StepTitle; s_title := None |}]>
                   (pending_movies Sample.indexed)))).
Proof.
  apply (addmovie_buttons_open_title_step Sample.indexed 7
           [(u "🎬 A12 - Big Movie #A12", u "add_movie_A12")]
           (u "🎬 A12 - Big Movie #A12") (u "add_movie_A12")).
  - vm_compute. reflexivity.
  - by left.
Defined.

(** Picking a draft never touches the store, the cursors or the sessions of
    other users, and it leaves the user either with the session they had
    (the pick was refused) or with a fresh session in the title step,
    without a title, for a code that has a draft and with the media of that
    draft: a session in progress is abandoned, whatever its step. *)
Theorem handle_callback_query_frame (st : State) (user_id : Z)
    (data : pystr) :
  let st' := snd (handle_callback_query st user_id data) in
  db st' = db st
  /\ user_states st' = user_states st
  /\ (forall other, other <> user_id ->
        pending_movies st' !! other = pending_movies st !! other)
  /\ (st' = st
      \/ exists session draft,
           pending_movies st' !! user_id = Some session
           /\ s_step session = StepTitle /\ s_title session = None
           /\ get_pending_movie_by_code (db st) (s_code session) = Some draft
           /\ s_channel_message_id session = p_channel_message_id draft
           /\ s_channel_id session = p_channel_id draft
           /\ s_file_id session = p_file_id draft).
Proof.
  cbv zeta. unfold handle_callback_query.
  destruct (Str.startswith (u "add_movie_") data);
    [|by repeat split; [..|left]].
  destruct (get_pending_movie_by_code (db st)
              (Str.replace (u "add_movie_") [] data)) as [draft|] eqn:Hd;
    [|by repeat split; [..|left]].
  cbn [snd db set_pending_movies user_states pending_movies].
  split; [done|]. split; [done|]. split.
  - intros other Hother. by rewrite lookup_insert_ne.
  - right. eexists _, draft. rewrite lookup_insert_eq.
    split; [reflexivity|]. cbn [s_step s_title s_code]. by repeat split.
Qed.

(** ** The last page and the first page *)

Lemma lstrip_head (s : pystr) (c : N) (r : pystr) :
  Str.lstrip s = c :: r -> Unicode.isspace_cp c = false.
Proof.
  induction s as [|a s IH]; [done|]. cbn [Str.lstrip].
  destruct (Unicode.isspace_cp a) eqn:Ha; [done|]. by intros [= <- _].
Qed.

Lemma strip_last (raw s : pystr) (e : N) :
  Str.strip raw = s ++ [e] -> Unicode.isspace_cp e = false.
Proof.
  unfold Str.strip, Str.rstrip. intros H.
  apply (f_equal (@rev N)) in H.
  rewrite rev_involutive, rev_app_distr in H. cbn [rev app] in H.
  by eapply lstrip_head.
Qed.

(** Removing the occurrences of a two-character [old] never removes a last
    character other than the second of [old]. *)
Lemma replace_from_keeps_last (a b e : N) (skip : nat) (s : pystr) :
  e <> b -> (skip <= length s)%nat ->
  Str.replace_from [a; b] [] skip (s ++ [e]) <> [].
Proof.
  intros He. revert skip. induction s as [|c s IH]; intros skip Hskip.
  - cbn [length] in Hskip. assert (skip = 0%nat) as -> by lia.
    cbn [app Str.replace_from Str.startswith].
    by rewrite andb_false_r.
  - cbn [app Str.replace_from]. destruct skip as [|k].
    + destruct (Str.startswith [a; b] (c :: s ++ [e])) eqn:Hs; [|done].
      cbn [app length Nat.sub]. apply IH.
      destruct s as [|d s]; [|cbn [length]; lia].
      exfalso. revert Hs. cbn [app Str.startswith].
      assert ((b =? e)%N = false) as -> by (apply N.eqb_neq; congruence).
      by rewrite andb_false_r.
    + apply IH. cbn [length] in Hskip. lia.
Qed.

Lemma genre_of_button_nonempty (raw : pystr) :
  Str.startswith GENRE_MARK (Str.strip raw) = true ->
  Str.replace GENRE_MARK [] (Str.strip raw) <> [].
Proof.
  intros Hg.
  destruct (Str.strip raw) as [|c0 t0] eqn:Ht; [done|].
  destruct (exists_last (l := c0 :: t0)) as (s & e & Hse); [done|].
  rewrite Hse in Ht |- *.
  change GENRE_MARK with [128193%N; 32%N]. unfold Str.replace.
  apply replace_from_keeps_last; [|lia].
  intros ->. apply strip_last in Ht. by vm_compute in Ht.
Qed.

Lemma promote_named (env : Env) (st : State) (user_id : Z)
    (code title category : pystr) :
  categories_named (db st) -> category <> [] ->
  categories_named (db (snd (promote env st user_id code title category))).
Proof.
  intros Hn Hc.
  destruct (promote_cases env st user_id code title category)
    as [->|[->|(draft & _ & ->)]]; [done|done|].
  cbn [snd db]. unfold categories_named.
  assert (Hm : forall ok d, movies (snd (remove_pending_movie ok d code))
                            = movies d) by (by intros [] d).
  rewrite Hm. cbn [add_movie snd movies insert_or_replace rows].
  apply Forall_app. split; [by apply Forall_filter|].
  by constructor.
Qed.

Lemma handle_message_named (env : Env) (st : State) (user_id : Z)
    (raw : pystr) :
  categories_named (db st) ->
  categories_named (db (snd (handle_message env st user_id raw))).
Proof.
  intros Hn.
  assert (Hcases :
    db (snd (handle_message env st user_id raw)) = db st
    \/ exists code title category,
         category <> []
         /\ handle_message env st user_id raw
            = promote env st user_id code title category).
  { unfold handle_message, pending_input.
    repeat case_match; subst; try (by left);
      right; eexists _, _, _; (split; [|reflexivity]); try done.
    apply genre_of_button_nonempty.
    match goal with
    | H : _ && _ = true |- _ => by apply andb_true_iff in H as [H _]
    end. }
  destruct Hcases as [->|(code & title & category & Hc & ->)]; [done|].
  by apply promote_named.
Qed.

Lemma channel_post_handler_frame (env : Env) (st : State) (message : Post) :
  movies (db (channel_post_handler env st message)) = movies (db st)
  /\ user_states (channel_post_handler env st message) = user_states st.
Proof.
  unfold channel_post_handler.
  destruct (post_video message) as [file_id|]; [|done].
  destruct (save_video_ok env); cbn [save_video]; [|done].
  destruct (extract_hashtags_as_codes _); [done|].
  cbn [db set_db user_states]. split; [|done].
  match goal with
  | |- movies (foldl _ ?d ?tokens) = _ =>
    apply (proj2 (fold_pending_others (add_pending_movie_ok env)
                    (post_message_id message) (post_chat_id message)
                    file_id (default [] (post_caption message))
                    (current_timestamp env) tokens d))
  end.
Qed.

(** On the states of the bot every catalog entry has a category name and
    every cursor is on page 1 or later. *)
Lemma reachable_invariants (st : State) :
  reachable st -> categories_named (db st) /\ cursors_positive st.
Proof.
  induction 1 as [|st _ [Hn Hp]|env st message _ [Hn Hp]
                  |st user_id data _ [Hn Hp]|env st user_id raw _ [Hn Hp]].
  - split; [constructor|]. intros user_id cur. cbn [user_states].
    by rewrite lookup_empty.
  - split; [done|]. intros user_id cur. cbn [user_states].
    by rewrite lookup_empty.
  - destruct (channel_post_handler_frame env st message) as [Hm Hu].
    split.
    + unfold categories_named. by rewrite Hm.
    + unfold cursors_positive. by rewrite Hu.
  - unfold handle_callback_query. repeat case_match; done.
  - split; [by apply handle_message_named
           |by apply handle_message_cursors_positive].
Qed.

(** C8.  On every state of the bot, with a cursor on page
    [ceil(total_count / 8)] of its category, the request for the next page
    is answered [AlreadyLastPage], and with a cursor on page 1 the request
    for the previous page is answered [AlreadyFirstPage]; in both cases the
    state, the cursor included, is unchanged. *)
Theorem page_request_out_of_range (env : Env) (st : State) (user_id : Z)
    (cur : Cursor) :
  reachable st ->
  user_states st !! user_id = Some cur ->
  (c_page cur = ceil_div (total_count (db st) (c_genre cur)) 8 ->
   handle_message env st user_id BTN_NEXT = ([AlreadyLastPage], st))
  /\ (c_page cur = 1 ->
      handle_message env st user_id BTN_PREVIOUS = ([AlreadyFirstPage], st)).
Proof.
  intros [Hn Hpos]%reachable_invariants Hcur. split.
  - intros Hp.
    assert (Hg : c_genre cur <> []).
    { intros Hg. specialize (Hpos user_id cur Hcur).
      assert (Hnone : total_count (db st) (c_genre cur) = 0).
      { unfold total_count.
        destruct (List.filter _ _) as [|m l] eqn:Hf; [done|]. exfalso.
        assert (Hin : In m (m :: l)) by (by left).
        rewrite <- Hf in Hin. apply filter_In in Hin as [Hrow Hc].
        apply eqb_eq in Hc. rewrite Hg in Hc.
        by apply (proj1 (List.Forall_forall _ _) Hn m Hrow). }
      rewrite Hnone in Hp. change (ceil_div 0 8) with 0 in Hp. lia. }
    button_text BTN_NEXT. rewrite Hcur.
    destruct (c_genre cur) as [|g0 g] eqn:Eg; [done|].
    rewrite total_count_get_movies, ceil_div_8, <- Hp.
    by rewrite Z.ltb_irrefl.
  - intros Hp. button_text BTN_PREVIOUS. by rewrite Hcur, Hp.
Qed.

Lemma page_request_out_of_range_witness :
  handle_message (Sample.env Sample.browsing) Sample.browsing 8 BTN_NEXT
    = ([AlreadyLastPage], Sample.browsing)
  /\ handle_message (Sample.env Sample.browsing) Sample.browsing 8
       BTN_PREVIOUS = ([AlreadyFirstPage], Sample.browsing).
Proof.
  destruct (page_request_out_of_range (Sample.env Sample.browsing)
              Sample.browsing 8 {| c_genre := u "Drama"; c_page := 1 |})
    as (Hnext & Hprev).
  - apply reachable_message, reachable_message, reachable_message,
      reachable_callback_query, reachable_channel_post, reachable_start.
  - vm_compute. reflexivity.
  - split; [apply Hnext|apply Hprev]; vm_compute; congruence.
Defined.
